(** * jira-mcp-server: a shallow embedding of the tool layer

    The development follows the TypeScript sources:

    - [src/jira-client.ts]   the HTTP client facade ([JiraClient]);
    - [src/types/jira.ts]    the types of the Jira REST resources;
    - [src/tools/*.ts]       the zod schemas and the eight tool handlers;
    - [src/index.ts]         the [CallToolRequestSchema] dispatcher.

    JavaScript strings are sequences of UTF-16 code units; they are
    represented by [string], one [ascii] per code unit, which covers the code
    units below 256.  JavaScript numbers are represented by [Z]: the numbers
    that occur in the program (page sizes, counts, HTTP statuses) are
    integers.  Objects built at run time (request bodies, query parameters,
    responses, custom fields) are [JsValue]s; the bodies of the Jira answers
    are records, field by field as [src/types/jira.ts] declares the ones the
    program reads.

    An [async] function is a computation in the monad [M]: it runs on the
    state of the process, completes normally or abruptly (a thrown value),
    and [await] is sequencing.  The Jira instance is a parameter: a function
    that settles each axios call, given the calls issued before it.

    The handlers are given twice.  First at their argument types, on the
    arguments that conform to the input schema of the tool: this is the
    reading in which most properties are stated.  Then as they run, on the
    value found in the request whatever it is ([Untyped]): the types are
    erased at run time, and the dispatcher checks nothing.  The two agree
    where the first is defined. *)

From Stdlib Require Import String Ascii List ZArith NArith Bool DecimalString.
Import ListNotations.
Local Open Scope list_scope.
Local Open Scope string_scope.

(** ** JavaScript values and objects *)

#[warnings="-register-all"]
Inductive JsValue : Type :=
| JsUndefined
| JsNull
| JsBool (b : bool)
| JsNumber (n : Z)
| JsString (s : string)
| JsArray (elems : list JsValue)
| JsObject (props : list (string * JsValue)).

(** An object is its list of own enumerable properties in insertion order. *)
Definition JsObj : Type := list (string * JsValue).

Fixpoint obj_get (k : string) (o : JsObj) : option JsValue :=
  match o with
  | [] => None
  | (k', v) :: o' => if k =? k' then Some v else obj_get k o'
  end.

(** [o.k = v] for a property name written in the program: an existing
    property keeps its position, a new one is appended.  (None of the names
    the program writes is an array index or [__proto__].) *)
Fixpoint obj_set (k : string) (v : JsValue) (o : JsObj) : JsObj :=
  match o with
  | [] => [(k, v)]
  | (k', v') :: o' =>
      if k =? k' then (k, v) :: o' else (k', v') :: obj_set k v o'
  end.

(** The array index that a property name denotes, if any: the name is the
    canonical decimal form of an integer below 2^32 - 1. *)
Fixpoint decimal_value (acc : N) (s : string) : option N :=
  match s with
  | EmptyString => Some acc
  | String c s' =>
      let n := N_of_ascii c in
      if ((48 <=? n) && (n <=? 57))%N
      then decimal_value (acc * 10 + (n - 48))%N s'
      else None
  end.

Definition array_index (k : string) : option N :=
  match k with
  | EmptyString => None
  | String c rest =>
      if Ascii.eqb c "0" then
        match rest with EmptyString => Some 0%N | _ => None end
      else
        match decimal_value 0 k with
        | Some n => if (n <? 4294967295)%N then Some n else None
        | None => None
        end
  end.

(** The own properties of an object are enumerated array indices first, in
    ascending order, then the other names in the order of their creation:
    [enumerated_before k k'] tells whether a new property [k] comes before an
    existing property [k']. *)
Definition enumerated_before (k k' : string) : bool :=
  match array_index k, array_index k' with
  | Some i, Some i' => (i <? i')%N
  | Some _, None => true
  | None, _ => false
  end.

(** A property that the object does not have yet is created. *)
Fixpoint define_property (k : string) (v : JsValue) (o : JsObj) : JsObj :=
  match o with
  | [] => [(k, v)]
  | (k', v') :: o' =>
      if enumerated_before k k' then (k, v) :: o
      else (k', v') :: define_property k v o'
  end.

(** [target[k] = v] for any name [k], on an object whose prototype chain
    leads to [Object.prototype]: an existing property is updated; [__proto__]
    is the accessor inherited from [Object.prototype], whose setter changes
    the prototype at most and adds no property; any other name becomes a new
    property. *)
Definition assign_property (k : string) (v : JsValue) (o : JsObj) : JsObj :=
  match obj_get k o with
  | Some _ => obj_set k v o
  | None => if k =? "__proto__" then o else define_property k v o
  end.

(** [Object.assign(target, source)]: every own property of [source] is
    assigned on [target], in order. *)
Definition Object_assign (target source : JsObj) : JsObj :=
  fold_left (fun t kv => assign_property (fst kv) (snd kv) t) source target.

(** Reading a property that is absent yields [undefined]. *)
Definition prop (k : string) (o : JsObj) : JsValue :=
  match obj_get k o with Some v => v | None => JsUndefined end.

(** Truthiness of a string: every string but the empty one. *)
Definition truthy_string (s : string) : bool := negb (s =? "").

(** [s.includes(c)] for a one-character needle. *)
Fixpoint includes (c : ascii) (s : string) : bool :=
  match s with
  | EmptyString => false
  | String c' s' => if Ascii.eqb c' c then true else includes c s'
  end.

(** [l.join(sep)] on an array of strings. *)
Definition join (sep : string) (l : list string) : string := String.concat sep l.

(** Decimal rendering of an integer number, as template literals and
    [JSON.stringify] print it. *)
Definition number_to_string (n : Z) : string :=
  NilZero.string_of_int (Z.to_int n).

(** ** [JSON.stringify(value, null, 2)] *)

Definition dquote : ascii := "034"%char.
Definition backslash : ascii := "092"%char.
Definition newline : string := String "010"%char EmptyString.
Definition gap : string := "  ".

Definition hex_digit (n : N) : ascii :=
  nth (N.to_nat n)
      ["0"; "1"; "2"; "3"; "4"; "5"; "6"; "7"; "8"; "9";
       "a"; "b"; "c"; "d"; "e"; "f"]%char "0"%char.

Definition quote_char (c : ascii) : string :=
  let n := N_of_ascii c in
  if (n =? 34)%N then String backslash (String dquote EmptyString)
  else if (n =? 92)%N then String backslash (String backslash EmptyString)
  else if (n =? 8)%N then String backslash "b"
  else if (n =? 9)%N then String backslash "t"
  else if (n =? 10)%N then String backslash "n"
  else if (n =? 12)%N then String backslash "f"
  else if (n =? 13)%N then String backslash "r"
  else if (n <? 32)%N then
    String backslash
      (String "u" (String "0" (String "0"
         (String (hex_digit (n / 16)) (String (hex_digit (n mod 16)) EmptyString)))))
  else String c EmptyString.

Fixpoint quote_chars (s : string) : string :=
  match s with
  | EmptyString => EmptyString
  | String c s' => quote_char c ++ quote_chars s'
  end.

Definition quote (s : string) : string :=
  String dquote (quote_chars s ++ String dquote EmptyString).

Definition wrap (opening closing ind ind' : string) (items : list string) : string :=
  match items with
  | [] => opening ++ closing
  | _ => opening ++ newline ++ ind'
         ++ join ("," ++ newline ++ ind') items
         ++ newline ++ ind ++ closing
  end.

(** Serialisation at indentation [ind].  An [undefined] array element prints
    as [null]; a property whose value is [undefined] is left out. *)
Fixpoint serialize (ind : string) (v : JsValue) : string :=
  match v with
  | JsUndefined => "null"
  | JsNull => "null"
  | JsBool b => if b then "true" else "false"
  | JsNumber n => number_to_string n
  | JsString s => quote s
  | JsArray l =>
      let ind' := ind ++ gap in
      wrap "[" "]" ind ind'
        ((fix items (l : list JsValue) : list string :=
            match l with
            | [] => []
            | x :: r => serialize ind' x :: items r
            end) l)
  | JsObject ps =>
      let ind' := ind ++ gap in
      wrap "{" "}" ind ind'
        ((fix members (ps : list (string * JsValue)) : list string :=
            match ps with
            | [] => []
            | (k, x) :: r =>
                match x with
                | JsUndefined => members r
                | _ => (quote k ++ ": " ++ serialize ind' x) :: members r
                end
            end) ps)
  end.

(** [JSON.stringify(o, null, 2)] on an object literal. *)
Definition JSON_stringify (o : JsObj) : string := serialize "" (JsObject o).

(** [String(v)], used by the dispatcher on thrown values that are not errors. *)
Fixpoint js_String (v : JsValue) : string :=
  match v with
  | JsUndefined => "undefined"
  | JsNull => "null"
  | JsBool b => if b then "true" else "false"
  | JsNumber n => number_to_string n
  | JsString s => s
  | JsArray l =>
      join ","
        ((fix items (l : list JsValue) : list string :=
            match l with
            | [] => []
            | x :: r =>
                match x with
                | JsUndefined | JsNull => ""
                | _ => js_String x
                end :: items r
            end) l)
  | JsObject _ => "[object Object]"
  end.

(** ** [Buffer.from(s).toString('base64')] and the constructor's URL clean-up *)

(** UTF-8 bytes of a string whose code units are below 256. *)
Fixpoint utf8 (s : string) : list N :=
  match s with
  | EmptyString => []
  | String c s' =>
      let n := N_of_ascii c in
      if (n <? 128)%N then n :: utf8 s'
      else (192 + n / 64)%N :: (128 + n mod 64)%N :: utf8 s'
  end.

Definition base64_alphabet : string :=
  "ABCDEFGHIJKLMNOPQRSTUVWXYZabcdefghijklmnopqrstuvwxyz0123456789+/".

Definition base64_char (n : N) : ascii :=
  match String.get (N.to_nat n) base64_alphabet with
  | Some c => c
  | None => "="%char
  end.

Fixpoint base64 (bytes : list N) : string :=
  match bytes with
  | [] => ""
  | [a] =>
      String (base64_char (a / 4))
        (String (base64_char (a mod 4 * 16)) "==")
  | [a; b] =>
      String (base64_char (a / 4))
        (String (base64_char (a mod 4 * 16 + b / 16))
           (String (base64_char (b mod 16 * 4)) "="))
  | a :: b :: c :: rest =>
      String (base64_char (a / 4))
        (String (base64_char (a mod 4 * 16 + b / 16))
           (String (base64_char (b mod 16 * 4 + c / 64))
              (String (base64_char (c mod 64)) (base64 rest))))
  end%N.

(** [baseUrl.replace(/\/$/, '')]: one trailing slash is removed. *)
Fixpoint strip_trailing_slash (s : string) : string :=
  match s with
  | EmptyString => EmptyString
  | String c EmptyString => if Ascii.eqb c "/" then EmptyString else s
  | String c s' => String c (strip_trailing_slash s')
  end.

(** ** Jira API types ([src/types/jira.ts]) *)

(** A field declared [f?: T | null]. *)
Inductive Nullish (A : Type) : Type :=
| Missing
| Null
| Present (a : A).
Arguments Missing {A}.
Arguments Null {A}.
Arguments Present {A} a.

Module JiraIssueType.
Record t := { id : string; name : string; description : option string;
                subtask : bool }.
End JiraIssueType.

Module JiraProject.
Record t := { id : string; key : string; name : string; self : string }.
End JiraProject.

Module StatusCategory.
Record t := { id : Z; key : string; name : string; colorName : string }.
End StatusCategory.

Module JiraStatus.
Record t := { id : string; name : string; description : option string;
                statusCategory : StatusCategory.t }.
End JiraStatus.

Module JiraPriority.
Record t := { id : string; name : string }.
End JiraPriority.

Module JiraUser.
Record t := { accountId : option string; name : option string;
                displayName : string; emailAddress : option string;
                active : bool }.
End JiraUser.

Module JiraComponent.
Record t := { id : string; name : string; description : option string }.
End JiraComponent.

Module JiraVersion.
Record t := { id : string; name : string; released : bool }.
End JiraVersion.

Module JiraTransition.
Record t := { id : string; name : string; to : JiraStatus.t }.
End JiraTransition.

Module Visibility.
Record t := { type : string; value : string }.
End Visibility.

Module JiraComment.
Record t := { id : string; self : string; author : JiraUser.t;
                body : string; created : string; updated : string;
                visibility : option Visibility.t }.
End JiraComment.

Module JiraCommentList.
Record t := { comments : list JiraComment.t; maxResults : Z; total : Z;
                startAt : Z }.
End JiraCommentList.

Module JiraIssueFields.
Record t := {
    summary : string;
    description : Nullish string;
    issuetype : JiraIssueType.t;
    project : JiraProject.t;
    status : JiraStatus.t;
    priority : option JiraPriority.t;
    assignee : Nullish JiraUser.t;
    reporter : option JiraUser.t;
    created : string;
    updated : string;
    resolutiondate : Nullish string;
    labels : option (list string);
    components : option (list JiraComponent.t);
    fixVersions : option (list JiraVersion.t) }.
End JiraIssueFields.

Module JiraIssue.
Record t := { id : string; key : string; self : string;
                fields : JiraIssueFields.t }.
End JiraIssue.

Module JiraSearchResult.
Record t := { issues : list JiraIssue.t; total : option Z;
                nextPageToken : option string; isLast : option bool }.
End JiraSearchResult.

(** The body of a successful [POST /issue]. *)
Module CreatedIssue.
Record t := { id : string; key : string; self : string }.
End CreatedIssue.

(** The body of [GET /issue/{key}/transitions]. *)
Module TransitionList.
Record t := { transitions : list JiraTransition.t }.
End TransitionList.

Module JiraErrorResponse.
Record t := { errorMessages : option (list string);
                errors : option (list (string * string)) }.
End JiraErrorResponse.

(** Request bodies are plain objects built property by property. *)
Definition JiraCreateIssueRequest : Type := JsObj.
Definition JiraUpdateIssueRequest : Type := JsObj.
Definition JiraTransitionRequest : Type := JsObj.
Definition JiraAddCommentRequest : Type := JsObj.

(** ** The HTTP layer (axios) *)

Inductive Method : Type := GET | POST | PUT.

(** What leaves the process for one axios call. *)
Record HttpRequest : Type := {
  method : Method;
  url : string;
  headers : list (string * string);
  timeout : Z;
  params : JsObj;
  data : option JsValue }.

Module AxiosInstance.
Record t := { baseURL : string; headers : list (string * string);
                timeout : Z }.
End AxiosInstance.

(** The response attached to an [AxiosError], when the server answered. *)
Module ErrorResponse.
Record t := { status : Z; data : option JiraErrorResponse.t }.
End ErrorResponse.

(** Values that are thrown in the program. *)
Inductive Thrown : Type :=
| JsError (message : string)
| AxiosError (message : string) (response : option ErrorResponse.t)
| JsThrown (v : JsValue).

(** The type parameter of [client.get<T>] / [client.post<T>]. *)
Inductive Payload : Type -> Type :=
| SearchResultP : Payload JiraSearchResult.t
| IssueP : Payload JiraIssue.t
| CreatedIssueP : Payload CreatedIssue.t
| TransitionListP : Payload TransitionList.t
| CommentListP : Payload JiraCommentList.t
| CommentP : Payload JiraComment.t
| AnyP : Payload unit.

(** The promise of an axios call settles: it is fulfilled with the body of a
    2xx response, or rejected. *)
Inductive Settled (T : Type) : Type :=
| Fulfilled (data : T)
| Rejected (reason : Thrown).
Arguments Fulfilled {T} data.
Arguments Rejected {T} reason.

(** The remote side: what the next call settles to, given the calls issued
    so far. *)
Definition Remote : Type :=
  forall T : Type, Payload T -> list HttpRequest -> HttpRequest -> Settled T.

(** ** The process state and the monad of the program *)

Module JiraClient.
Record t := { client : AxiosInstance.t; baseUrl : string }.
End JiraClient.

(** The state of the server process: the module-level [jiraClient] object,
    and the log of the calls issued so far. *)
Record Process : Type := {
  jiraClient : JiraClient.t;
  issued : list HttpRequest }.

Inductive Completion (A : Type) : Type :=
| Normal (a : A)
| Abrupt (reason : Thrown).
Arguments Normal {A} a.
Arguments Abrupt {A} reason.

Definition M (A : Type) : Type := Process -> Completion A * Process.

Definition ret {A} (a : A) : M A := fun s => (Normal a, s).

Definition throw {A} (e : Thrown) : M A := fun s => (Abrupt e, s).

Definition bind {A B} (m : M A) (k : A -> M B) : M B :=
  fun s =>
    match m s with
    | (Normal a, s') => k a s'
    | (Abrupt e, s') => (Abrupt e, s')
    end.

(** [try { m } catch (error) { h error }] *)
Definition try_catch {A} (m : M A) (h : Thrown -> M A) : M A :=
  fun s =>
    match m s with
    | (Normal a, s') => (Normal a, s')
    | (Abrupt e, s') => h e s'
    end.

Definition get_this : M JiraClient.t := fun s => (Normal (jiraClient s), s).

Declare Scope js_scope.
Delimit Scope js_scope with js.
Notation "x <- m ;; k" := (bind m (fun x => k))
  (at level 100, m at next level, right associativity) : js_scope.
Notation "m ;;; k" := (bind m (fun _ => k))
  (at level 100, right associativity) : js_scope.
Local Open Scope js_scope.

(** [new JiraClient(baseUrl, username, apiToken)] *)
Definition new_JiraClient (baseUrl username apiToken : string) : JiraClient.t :=
  let baseUrl := strip_trailing_slash baseUrl in
  let auth := base64 (utf8 (username ++ ":" ++ apiToken)) in
  {| JiraClient.client :=
       {| AxiosInstance.baseURL := baseUrl ++ "/rest/api/3";
          AxiosInstance.headers :=
            [("Authorization", "Basic " ++ auth);
             ("Content-Type", "application/json");
             ("Accept", "application/json")];
          AxiosInstance.timeout := 30000 |};
     JiraClient.baseUrl := baseUrl |}.

(** The request an axios instance issues for a method, path, query and body. *)
Definition request_of (inst : AxiosInstance.t) (m : Method) (path : string)
    (params : JsObj) (body : option JsValue) : HttpRequest :=
  {| method := m;
     url := AxiosInstance.baseURL inst ++ path;
     headers := AxiosInstance.headers inst;
     timeout := AxiosInstance.timeout inst;
     params := params;
     data := body |}.

(** ** The client facade ([src/jira-client.ts]) *)

Section Program.

(** The Jira instance the process talks to. *)
Variable jira : Remote.

(** One call on an axios instance: the request is issued, the promise settles,
    [await] yields the body or throws the rejection reason. *)
Definition axios_request {T} (p : Payload T) (inst : AxiosInstance.t)
    (m : Method) (path : string) (params : JsObj) (body : option JsValue) : M T :=
  fun s =>
    let req := request_of inst m path params body in
    let s' := {| jiraClient := jiraClient s; issued := issued s ++ [req] |} in
    match jira T p (issued s) req with
    | Fulfilled d => (Normal d, s')
    | Rejected e => (Abrupt e, s')
    end.

Definition axios_get {T} (p : Payload T) (inst : AxiosInstance.t)
    (path : string) (params : JsObj) : M T :=
  axios_request p inst GET path params None.

Definition axios_post {T} (p : Payload T) (inst : AxiosInstance.t)
    (path : string) (body : JsObj) : M T :=
  axios_request p inst POST path [] (Some (JsObject body)).

Definition axios_put {T} (p : Payload T) (inst : AxiosInstance.t)
    (path : string) (body : JsObj) : M T :=
  axios_request p inst PUT path [] (Some (JsObject body)).

Definition or_empty {A} (o : option (list A)) : list A :=
  match o with Some l => l | None => [] end.

(** The list [messages] built by [handleError]. *)
Definition error_messages (errorData : JiraErrorResponse.t) : list string :=
  or_empty (JiraErrorResponse.errorMessages errorData)
  ++ map (fun kv => fst kv ++ ": " ++ snd kv)
         (or_empty (JiraErrorResponse.errors errorData)).

Definition api_error_message (status : Z) (messages : list string) : string :=
  "Jira API Error (" ++ number_to_string status ++ "): " ++ join ", " messages.

Definition handleError {A} (error : Thrown) : M A :=
  match error with
  | AxiosError message response =>
      match response with
      | Some {| ErrorResponse.status := status;
                ErrorResponse.data := Some errorData |} =>
          throw (JsError (api_error_message status (error_messages errorData)))
      | _ => throw (JsError ("Jira API Error: " ++ message))
      end
  | _ => throw error
  end.

Definition default_search_fields : string :=
  "key,summary,status,issuetype,assignee,reporter,created,updated,priority,project".

(** The [params] object of [searchIssues]. *)
Definition search_params (jql : string) (maxResults : Z)
    (nextPageToken : option string) (fields : option (list string)) : JsObj :=
  let params := [("jql", JsString jql); ("maxResults", JsNumber maxResults)] in
  let params :=
    match nextPageToken with
    | Some token =>
        if truthy_string token
        then obj_set "nextPageToken" (JsString token) params
        else params
    | None => params
    end in
  match fields with
  | Some ((_ :: _) as fields) => obj_set "fields" (JsString (join "," fields)) params
  | _ => obj_set "fields" (JsString default_search_fields) params
  end.

Definition searchIssues (jql : string) (maxResults : option Z)
    (nextPageToken : option string) (fields : option (list string))
    : M JiraSearchResult.t :=
  let maxResults := match maxResults with Some n => n | None => 50%Z end in
  try_catch
    (let params := search_params jql maxResults nextPageToken fields in
     this <- get_this ;;
     axios_get SearchResultP (JiraClient.client this) "/search/jql" params)
    handleError.

Definition getIssue (issueKey : string) (fields : option (list string))
    : M JiraIssue.t :=
  try_catch
    (let params :=
       match fields with
       | Some fields => [("fields", JsString (join "," fields))]
       | None => []
       end in
     this <- get_this ;;
     axios_get IssueP (JiraClient.client this) ("/issue/" ++ issueKey) params)
    handleError.

Definition createIssue (request : JiraCreateIssueRequest) : M JiraIssue.t :=
  try_catch
    (this <- get_this ;;
     response <- axios_post CreatedIssueP (JiraClient.client this) "/issue" request ;;
     getIssue (CreatedIssue.key response) None)
    handleError.

Definition updateIssue (issueKey : string) (request : JiraUpdateIssueRequest)
    : M unit :=
  try_catch
    (this <- get_this ;;
     axios_put AnyP (JiraClient.client this) ("/issue/" ++ issueKey) request)
    handleError.

Definition getTransitions (issueKey : string) : M (list JiraTransition.t) :=
  try_catch
    (this <- get_this ;;
     response <- axios_get TransitionListP (JiraClient.client this)
                   ("/issue/" ++ issueKey ++ "/transitions") [] ;;
     ret (TransitionList.transitions response))
    handleError.

Definition transitionIssue (issueKey : string) (request : JiraTransitionRequest)
    : M unit :=
  try_catch
    (this <- get_this ;;
     axios_post AnyP (JiraClient.client this)
       ("/issue/" ++ issueKey ++ "/transitions") request)
    handleError.

Definition getComments (issueKey : string) : M (list JiraComment.t) :=
  try_catch
    (this <- get_this ;;
     response <- axios_get CommentListP (JiraClient.client this)
                   ("/issue/" ++ issueKey ++ "/comment") [] ;;
     ret (JiraCommentList.comments response))
    handleError.

Definition addComment (issueKey : string) (request : JiraAddCommentRequest)
    : M JiraComment.t :=
  try_catch
    (this <- get_this ;;
     axios_post CommentP (JiraClient.client this)
       ("/issue/" ++ issueKey ++ "/comment") request)
    handleError.

End Program.

(** ** Tool arguments ([src/tools/*.ts])

    An argument record holds what a handler finds in arguments that conform
    to the input schema its tool advertises, which is the input type of its
    zod schema: a required property at its type, an optional one at its type
    or [undefined].  The zod schemas are never run, and the dispatcher's cast
    ([args as SearchIssuesArgs]) is erased: the type [SearchIssuesArgs]
    inferred from the schema says that [maxResults] is a number, but no
    default is applied to the arguments, so [maxResults] is optional here as
    it is in the input schema; the default parameter of [searchIssues]
    supplies 50.  The handlers on arguments of any kind are in [Untyped],
    further down. *)

Inductive VisibilityType : Type := group | role.

Definition VisibilityType_string (t : VisibilityType) : string :=
  match t with group => "group" | role => "role" end.

Module SearchIssuesArgs.
Record t := { jql : string; maxResults : option Z;
                nextPageToken : option string;
                fields : option (list string) }.
End SearchIssuesArgs.

Module GetIssueArgs.
Record t := { issueKey : string; fields : option (list string) }.
End GetIssueArgs.

Module CreateIssueArgs.
Record t := { projectKey : string; issueType : string; summary : string;
                description : option string; priority : option string;
                assignee : option string; labels : option (list string);
                components : option (list string);
                customFields : option JsObj }.
End CreateIssueArgs.

Module UpdateIssueArgs.
Record t := { issueKey : string; fields : JsObj }.
End UpdateIssueArgs.

Module GetTransitionsArgs.
Record t := { issueKey : string }.
End GetTransitionsArgs.

Module TransitionIssueArgs.
Record t := { issueKey : string; transitionId : string;
                fields : option JsObj }.
End TransitionIssueArgs.

Module GetCommentsArgs.
Record t := { issueKey : string }.
End GetCommentsArgs.

Module AddCommentArgs.
Record t := { issueKey : string; body : string;
                visibilityType : option VisibilityType;
                visibilityValue : option string }.
End AddCommentArgs.

(** *** Decoding a raw value at a type

    [Shape A] reads a JavaScript value at type [A]: [Some a] when the value
    inhabits the type.  The zod combinators used by the schemas are shapes
    ([safeParse] succeeds exactly when the shape is defined). *)

Definition Shape (A : Type) : Type := JsValue -> option A.

Module z.

Definition string : Shape String.string :=
    fun v => match v with JsString s => Some s | _ => None end.

Definition number : Shape Z :=
    fun v => match v with JsNumber n => Some n | _ => None end.

Definition array {A} (item : Shape A) : Shape (list A) :=
    fun v =>
      match v with
      | JsArray l =>
          (fix all (l : list JsValue) : option (list A) :=
             match l with
             | [] => Some []
             | x :: r =>
                 match item x, all r with
                 | Some a, Some r' => Some (a :: r')
                 | _, _ => None
                 end
             end) l
      | _ => None
      end.

  (** [z.record(z.any())]: any object, kept as it is. *)
Definition record_any : Shape JsObj :=
    fun v => match v with JsObject o => Some o | _ => None end.

  (** [z.enum(['group', 'role'])] *)
Definition enum_group_role : Shape VisibilityType :=
    fun v =>
      match v with
      | JsString s =>
          if s =? "group" then Some group
          else if s =? "role" then Some role
          else None
      | _ => None
      end.

  (** [.optional()]: [undefined] is accepted and stays [undefined]. *)
Definition optional {A} (inner : Shape A) : Shape (option A) :=
    fun v =>
      match v with
      | JsUndefined => Some None
      | _ => match inner v with Some a => Some (Some a) | None => None end
      end.

  (** The property [k] of a [z.object({...})]: a missing key reads as
      [undefined]; a value that is not an object is rejected. *)
Definition field {A} (k : String.string) (inner : Shape A) : Shape A :=
    fun v => match v with JsObject o => inner (prop k o) | _ => None end.

End z.

Definition opt_bind {A B} (o : option A) (k : A -> option B) : option B :=
  match o with Some a => k a | None => None end.

Notation "x <~ o ; k" := (opt_bind o (fun x => k))
  (at level 100, o at next level, right associativity, only parsing).

(** [addCommentSchema] ([src/tools/comments.ts], lines 53-58). *)
Definition addCommentSchema : Shape AddCommentArgs.t :=
  fun v =>
    issueKey <~ z.field "issueKey" z.string v ;
    body <~ z.field "body" z.string v ;
    visibilityType <~ z.field "visibilityType" (z.optional z.enum_group_role) v ;
    visibilityValue <~ z.field "visibilityValue" (z.optional z.string) v ;
    Some {| AddCommentArgs.issueKey := issueKey;
            AddCommentArgs.body := body;
            AddCommentArgs.visibilityType := visibilityType;
            AddCommentArgs.visibilityValue := visibilityValue |}.

(** Arguments that conform to the input schema of a tool, read as its
    argument record. *)
Definition as_SearchIssuesArgs : Shape SearchIssuesArgs.t :=
  fun v =>
    jql <~ z.field "jql" z.string v ;
    maxResults <~ z.field "maxResults" (z.optional z.number) v ;
    nextPageToken <~ z.field "nextPageToken" (z.optional z.string) v ;
    fields <~ z.field "fields" (z.optional (z.array z.string)) v ;
    Some {| SearchIssuesArgs.jql := jql;
            SearchIssuesArgs.maxResults := maxResults;
            SearchIssuesArgs.nextPageToken := nextPageToken;
            SearchIssuesArgs.fields := fields |}.

Definition as_GetIssueArgs : Shape GetIssueArgs.t :=
  fun v =>
    issueKey <~ z.field "issueKey" z.string v ;
    fields <~ z.field "fields" (z.optional (z.array z.string)) v ;
    Some {| GetIssueArgs.issueKey := issueKey; GetIssueArgs.fields := fields |}.

Definition as_CreateIssueArgs : Shape CreateIssueArgs.t :=
  fun v =>
    projectKey <~ z.field "projectKey" z.string v ;
    issueType <~ z.field "issueType" z.string v ;
    summary <~ z.field "summary" z.string v ;
    description <~ z.field "description" (z.optional z.string) v ;
    priority <~ z.field "priority" (z.optional z.string) v ;
    assignee <~ z.field "assignee" (z.optional z.string) v ;
    labels <~ z.field "labels" (z.optional (z.array z.string)) v ;
    components <~ z.field "components" (z.optional (z.array z.string)) v ;
    customFields <~ z.field "customFields" (z.optional z.record_any) v ;
    Some {| CreateIssueArgs.projectKey := projectKey;
            CreateIssueArgs.issueType := issueType;
            CreateIssueArgs.summary := summary;
            CreateIssueArgs.description := description;
            CreateIssueArgs.priority := priority;
            CreateIssueArgs.assignee := assignee;
            CreateIssueArgs.labels := labels;
            CreateIssueArgs.components := components;
            CreateIssueArgs.customFields := customFields |}.

Definition as_UpdateIssueArgs : Shape UpdateIssueArgs.t :=
  fun v =>
    issueKey <~ z.field "issueKey" z.string v ;
    fields <~ z.field "fields" z.record_any v ;
    Some {| UpdateIssueArgs.issueKey := issueKey;
            UpdateIssueArgs.fields := fields |}.

Definition as_GetTransitionsArgs : Shape GetTransitionsArgs.t :=
  fun v =>
    issueKey <~ z.field "issueKey" z.string v ;
    Some {| GetTransitionsArgs.issueKey := issueKey |}.

Definition as_TransitionIssueArgs : Shape TransitionIssueArgs.t :=
  fun v =>
    issueKey <~ z.field "issueKey" z.string v ;
    transitionId <~ z.field "transitionId" z.string v ;
    fields <~ z.field "fields" (z.optional z.record_any) v ;
    Some {| TransitionIssueArgs.issueKey := issueKey;
            TransitionIssueArgs.transitionId := transitionId;
            TransitionIssueArgs.fields := fields |}.

Definition as_GetCommentsArgs : Shape GetCommentsArgs.t :=
  fun v =>
    issueKey <~ z.field "issueKey" z.string v ;
    Some {| GetCommentsArgs.issueKey := issueKey |}.

Definition as_AddCommentArgs : Shape AddCommentArgs.t := addCommentSchema.

(** *** The zod schemas

    [schema.safeParse(v)] succeeds exactly when the shape is defined on [v].
    No schema is run by the server; they are what the argument types are
    inferred from. *)











(** ** Response envelopes *)

Record TextContent : Type := { type : string; text : string }.

Record CallToolResult : Type := {
  content : list TextContent;
  isError : option bool }.

(** [{ content: [{ type: 'text', text: JSON.stringify(o, null, 2) }] }] *)
Definition text_result (o : JsObj) : CallToolResult :=
  {| content := [{| type := "text"; text := JSON_stringify o |}];
     isError := None |}.

Definition opt_string (o : option string) : JsValue :=
  match o with Some s => JsString s | None => JsUndefined end.

Definition nullish_string (o : Nullish string) : JsValue :=
  match o with
  | Missing => JsUndefined
  | Null => JsNull
  | Present s => JsString s
  end.

Definition strings (l : list string) : JsValue := JsArray (map JsString l).

(** ** The handlers *)

(** *** [jira_search] ([src/tools/search-issues.ts]) *)

Definition search_issue (issue : JiraIssue.t) : JsValue :=
  let f := JiraIssue.fields issue in
  JsObject
    [("key", JsString (JiraIssue.key issue));
     ("summary", JsString (JiraIssueFields.summary f));
     ("status", JsString (JiraStatus.name (JiraIssueFields.status f)));
     ("issueType", JsString (JiraIssueType.name (JiraIssueFields.issuetype f)));
     ("priority",
       match JiraIssueFields.priority f with
       | Some p => JsString (JiraPriority.name p)
       | None => JsUndefined
       end);
     ("assignee",
       match JiraIssueFields.assignee f with
       | Present u => JsString (JiraUser.displayName u)
       | _ => JsUndefined
       end);
     ("created", JsString (JiraIssueFields.created f));
     ("updated", JsString (JiraIssueFields.updated f))].

(** The object [response] of [handleSearchIssues] (lines 50-76). *)
Definition search_response (result : JiraSearchResult.t) : JsObj :=
  let response :=
    [("issueCount", JsNumber (Z.of_nat (length (JiraSearchResult.issues result))));
     ("issues", JsArray (map search_issue (JiraSearchResult.issues result)))] in
  let response :=
    match JiraSearchResult.total result with
    | Some total => obj_set "total" (JsNumber total) response
    | None => response
    end in
  let otherwise :=
    match JiraSearchResult.isLast result with
    | Some isLast =>
        obj_set "hasMoreResults" (JsBool (negb isLast))
          (obj_set "isLast" (JsBool isLast) response)
    | None => response
    end in
  match JiraSearchResult.nextPageToken result with
  | Some token =>
      if truthy_string token
      then obj_set "hasMoreResults" (JsBool true)
             (obj_set "nextPageToken" (JsString token) response)
      else otherwise
  | None => otherwise
  end.

(** *** [jira_get_issue] *)

Definition user_summary (u : JiraUser.t) : JsValue :=
  JsObject [("displayName", JsString (JiraUser.displayName u));
            ("emailAddress", opt_string (JiraUser.emailAddress u))].

Definition get_issue_response (issue : JiraIssue.t) : JsObj :=
  let f := JiraIssue.fields issue in
  [("key", JsString (JiraIssue.key issue));
   ("id", JsString (JiraIssue.id issue));
   ("self", JsString (JiraIssue.self issue));
   ("fields", JsObject
      [("summary", JsString (JiraIssueFields.summary f));
       ("description", nullish_string (JiraIssueFields.description f));
       ("status", JsObject
          [("name", JsString (JiraStatus.name (JiraIssueFields.status f)));
           ("category", JsString (StatusCategory.name
              (JiraStatus.statusCategory (JiraIssueFields.status f))))]);
       ("issueType", JsObject
          [("name", JsString (JiraIssueType.name (JiraIssueFields.issuetype f)));
           ("subtask", JsBool (JiraIssueType.subtask (JiraIssueFields.issuetype f)))]);
       ("project", JsObject
          [("key", JsString (JiraProject.key (JiraIssueFields.project f)));
           ("name", JsString (JiraProject.name (JiraIssueFields.project f)))]);
       ("priority",
         match JiraIssueFields.priority f with
         | Some p => JsObject [("name", JsString (JiraPriority.name p))]
         | None => JsNull
         end);
       ("assignee",
         match JiraIssueFields.assignee f with
         | Present u => user_summary u
         | _ => JsNull
         end);
       ("reporter",
         match JiraIssueFields.reporter f with
         | Some u => user_summary u
         | None => JsNull
         end);
       ("created", JsString (JiraIssueFields.created f));
       ("updated", JsString (JiraIssueFields.updated f));
       ("resolutiondate", nullish_string (JiraIssueFields.resolutiondate f));
       ("labels",
         match JiraIssueFields.labels f with
         | Some l => strings l
         | None => JsUndefined
         end);
       ("components",
         match JiraIssueFields.components f with
         | Some l => strings (map JiraComponent.name l)
         | None => JsUndefined
         end);
       ("fixVersions",
         match JiraIssueFields.fixVersions f with
         | Some l => strings (map JiraVersion.name l)
         | None => JsUndefined
         end)])].

(** *** [jira_create_issue] *)

(** [{ accountId: s }] or [{ name: s }] (lines 91-93). *)
Definition assignee_field (assignee : string) : JsValue :=
  if includes "@" assignee || (20 <? String.length assignee)%nat
  then JsObject [("accountId", JsString assignee)]
  else JsObject [("name", JsString assignee)].

(** [request.fields] before the custom fields are merged (lines 69-102). *)
Definition create_issue_fields (args : CreateIssueArgs.t) : JsObj :=
  let fields :=
    [("project", JsObject [("key", JsString (CreateIssueArgs.projectKey args))]);
     ("summary", JsString (CreateIssueArgs.summary args));
     ("issuetype", JsObject [("name", JsString (CreateIssueArgs.issueType args))])] in
  let fields :=
    match CreateIssueArgs.description args with
    | Some description =>
        if truthy_string description
        then obj_set "description" (JsString description) fields
        else fields
    | None => fields
    end in
  let fields :=
    match CreateIssueArgs.priority args with
    | Some priority =>
        if truthy_string priority
        then obj_set "priority" (JsObject [("name", JsString priority)]) fields
        else fields
    | None => fields
    end in
  let fields :=
    match CreateIssueArgs.assignee args with
    | Some assignee =>
        if truthy_string assignee
        then obj_set "assignee" (assignee_field assignee) fields
        else fields
    | None => fields
    end in
  let fields :=
    match CreateIssueArgs.labels args with
    | Some ((_ :: _) as labels) => obj_set "labels" (strings labels) fields
    | _ => fields
    end in
  match CreateIssueArgs.components args with
  | Some ((_ :: _) as components) =>
      obj_set "components"
        (JsArray (map (fun name => JsObject [("name", JsString name)]) components))
        fields
  | _ => fields
  end.

(** The [request] passed to [client.createIssue] (lines 69-106). *)
Definition create_issue_request (args : CreateIssueArgs.t) : JiraCreateIssueRequest :=
  let fields := create_issue_fields args in
  let fields :=
    match CreateIssueArgs.customFields args with
    | Some customFields => Object_assign fields customFields
    | None => fields
    end in
  [("fields", JsObject fields)].

Definition create_issue_response (issue : JiraIssue.t) : JsObj :=
  let f := JiraIssue.fields issue in
  [("success", JsBool true);
   ("issue", JsObject
      [("key", JsString (JiraIssue.key issue));
       ("id", JsString (JiraIssue.id issue));
       ("self", JsString (JiraIssue.self issue));
       ("summary", JsString (JiraIssueFields.summary f));
       ("status", JsString (JiraStatus.name (JiraIssueFields.status f)));
       ("issueType", JsString (JiraIssueType.name (JiraIssueFields.issuetype f)))])].

(** *** [jira_update_issue] *)

Definition update_issue_response (issueKey : string) (updatedIssue : JiraIssue.t) : JsObj :=
  let f := JiraIssue.fields updatedIssue in
  [("success", JsBool true);
   ("message", JsString ("Issue " ++ issueKey ++ " updated successfully"));
   ("issue", JsObject
      [("key", JsString (JiraIssue.key updatedIssue));
       ("summary", JsString (JiraIssueFields.summary f));
       ("status", JsString (JiraStatus.name (JiraIssueFields.status f)));
       ("updated", JsString (JiraIssueFields.updated f))])].

(** *** [jira_get_transitions], [jira_transition_issue] *)

Definition transition_summary (t : JiraTransition.t) : JsValue :=
  JsObject
    [("id", JsString (JiraTransition.id t));
     ("name", JsString (JiraTransition.name t));
     ("to", JsObject
        [("name", JsString (JiraStatus.name (JiraTransition.to t)));
         ("id", JsString (JiraStatus.id (JiraTransition.to t)));
         ("category", JsString (StatusCategory.name
            (JiraStatus.statusCategory (JiraTransition.to t))))])].

Definition get_transitions_response (issueKey : string)
    (transitions : list JiraTransition.t) : JsObj :=
  [("issueKey", JsString issueKey);
   ("transitions", JsArray (map transition_summary transitions))].

Definition transition_request (args : TransitionIssueArgs.t) : JiraTransitionRequest :=
  let request :=
    [("transition",
      JsObject [("id", JsString (TransitionIssueArgs.transitionId args))])] in
  match TransitionIssueArgs.fields args with
  | Some fields => obj_set "fields" (JsObject fields) request
  | None => request
  end.

Definition transition_issue_response (issueKey : string) (updatedIssue : JiraIssue.t) : JsObj :=
  let f := JiraIssue.fields updatedIssue in
  [("success", JsBool true);
   ("message", JsString ("Issue " ++ issueKey ++ " transitioned successfully"));
   ("issue", JsObject
      [("key", JsString (JiraIssue.key updatedIssue));
       ("summary", JsString (JiraIssueFields.summary f));
       ("status", JsObject
          [("name", JsString (JiraStatus.name (JiraIssueFields.status f)));
           ("category", JsString (StatusCategory.name
              (JiraStatus.statusCategory (JiraIssueFields.status f))))])])].

(** *** [jira_get_comments], [jira_add_comment] ([src/tools/comments.ts]) *)

Definition visibility_value (v : option Visibility.t) : JsValue :=
  match v with
  | Some v => JsObject [("type", JsString (Visibility.type v));
                        ("value", JsString (Visibility.value v))]
  | None => JsUndefined
  end.

Definition comment_summary (c : JiraComment.t) : JsValue :=
  JsObject
    [("id", JsString (JiraComment.id c));
     ("author", user_summary (JiraComment.author c));
     ("body", JsString (JiraComment.body c));
     ("created", JsString (JiraComment.created c));
     ("updated", JsString (JiraComment.updated c));
     ("visibility", visibility_value (JiraComment.visibility c))].

Definition get_comments_response (issueKey : string)
    (comments : list JiraComment.t) : JsObj :=
  [("issueKey", JsString issueKey);
   ("total", JsNumber (Z.of_nat (length comments)));
   ("comments", JsArray (map comment_summary comments))].

(** The [request] of [handleAddComment] (lines 91-100). *)
Definition add_comment_request (args : AddCommentArgs.t) : JiraAddCommentRequest :=
  let request := [("body", JsString (AddCommentArgs.body args))] in
  match AddCommentArgs.visibilityType args, AddCommentArgs.visibilityValue args with
  | Some visibilityType, Some visibilityValue =>
      if truthy_string visibilityValue
      then obj_set "visibility"
             (JsObject [("type", JsString (VisibilityType_string visibilityType));
                        ("value", JsString visibilityValue)])
             request
      else request
  | _, _ => request
  end.

Definition add_comment_response (issueKey : string) (comment : JiraComment.t) : JsObj :=
  [("success", JsBool true);
   ("message", JsString ("Comment added to " ++ issueKey));
   ("comment", JsObject
      [("id", JsString (JiraComment.id comment));
       ("author", JsObject
          [("displayName", JsString (JiraUser.displayName (JiraComment.author comment)))]);
       ("body", JsString (JiraComment.body comment));
       ("created", JsString (JiraComment.created comment))])].

Section Tools.

Variable jira : Remote.

(** The handlers' parameter [client] is the reference to the one
    [JiraClient] object of the process, held in [jiraClient]; its methods
    find it in the state. *)

Definition handleSearchIssues (args : SearchIssuesArgs.t) : M CallToolResult :=
  result <- searchIssues jira
              (SearchIssuesArgs.jql args)
              (SearchIssuesArgs.maxResults args)
              (SearchIssuesArgs.nextPageToken args)
              (SearchIssuesArgs.fields args) ;;
  ret (text_result (search_response result)).

Definition handleGetIssue (args : GetIssueArgs.t) : M CallToolResult :=
  issue <- getIssue jira (GetIssueArgs.issueKey args) (GetIssueArgs.fields args) ;;
  ret (text_result (get_issue_response issue)).

Definition handleCreateIssue (args : CreateIssueArgs.t) : M CallToolResult :=
  let request := create_issue_request args in
  issue <- createIssue jira request ;;
  ret (text_result (create_issue_response issue)).

Definition handleUpdateIssue (args : UpdateIssueArgs.t) : M CallToolResult :=
  let request := [("fields", JsObject (UpdateIssueArgs.fields args))] in
  updateIssue jira (UpdateIssueArgs.issueKey args) request ;;;
  updatedIssue <- getIssue jira (UpdateIssueArgs.issueKey args) None ;;
  ret (text_result (update_issue_response (UpdateIssueArgs.issueKey args) updatedIssue)).

Definition handleGetTransitions (args : GetTransitionsArgs.t) : M CallToolResult :=
  transitions <- getTransitions jira (GetTransitionsArgs.issueKey args) ;;
  ret (text_result
         (get_transitions_response (GetTransitionsArgs.issueKey args) transitions)).

Definition handleTransitionIssue (args : TransitionIssueArgs.t) : M CallToolResult :=
  let request := transition_request args in
  transitionIssue jira (TransitionIssueArgs.issueKey args) request ;;;
  updatedIssue <- getIssue jira (TransitionIssueArgs.issueKey args) None ;;
  ret (text_result
         (transition_issue_response (TransitionIssueArgs.issueKey args) updatedIssue)).

Definition handleGetComments (args : GetCommentsArgs.t) : M CallToolResult :=
  comments <- getComments jira (GetCommentsArgs.issueKey args) ;;
  ret (text_result (get_comments_response (GetCommentsArgs.issueKey args) comments)).

Definition handleAddComment (args : AddCommentArgs.t) : M CallToolResult :=
  let request := add_comment_request args in
  comment <- addComment jira (AddCommentArgs.issueKey args) request ;;
  ret (text_result (add_comment_response (AddCommentArgs.issueKey args) comment)).

(** ** The dispatcher ([src/index.ts], lines 79-126) *)

(** [request.params] of a tool call. *)
Record CallToolParams : Type := { name : string; arguments : JsValue }.

(** [error instanceof Error ? error.message : String(error)] *)
Definition error_message (error : Thrown) : string :=
  match error with
  | JsError message => message
  | AxiosError message _ => message
  | JsThrown v => js_String v
  end.

Definition error_result (errorMessage : string) : CallToolResult :=
  {| content :=
       [{| type := "text";
           text := JSON_stringify [("error", JsBool true);
                                   ("message", JsString errorMessage)] |}];
     isError := Some true |}.

(** The typed reading of [handler(args as T, jiraClient)]: the handler at
    the argument record, on arguments that conform to the input schema.  The
    cast does nothing at run time; what the handler does on every value is
    [Untyped], which agrees with this reading wherever it is defined. *)
Definition cast {T} (shape : Shape T) (args : JsValue)
    (handler : T -> M CallToolResult) : option (M CallToolResult) :=
  match shape args with
  | Some a => Some (handler a)
  | None => None
  end.

(** The [switch] on the tool name. *)
Definition tool_switch (name : string) (args : JsValue) : option (M CallToolResult) :=
  if name =? "jira_search" then cast as_SearchIssuesArgs args handleSearchIssues
  else if name =? "jira_get_issue" then cast as_GetIssueArgs args handleGetIssue
  else if name =? "jira_create_issue" then cast as_CreateIssueArgs args handleCreateIssue
  else if name =? "jira_update_issue" then cast as_UpdateIssueArgs args handleUpdateIssue
  else if name =? "jira_get_transitions"
       then cast as_GetTransitionsArgs args handleGetTransitions
  else if name =? "jira_transition_issue"
       then cast as_TransitionIssueArgs args handleTransitionIssue
  else if name =? "jira_get_comments" then cast as_GetCommentsArgs args handleGetComments
  else if name =? "jira_add_comment" then cast as_AddCommentArgs args handleAddComment
  else Some (throw (JsError ("Unknown tool: " ++ name))).

(** The [catch] clause of the dispatcher. *)
Definition on_error (error : Thrown) : M CallToolResult :=
  ret (error_result (error_message error)).

(** The typed reading of the tool-call handler, defined on the requests
    whose arguments conform to the input schema of the tool they name.  The
    handler on every request is [Untyped.callTool]. *)
Definition callTool (request : CallToolParams) : option (M CallToolResult) :=
  match tool_switch (name request) (arguments request) with
  | Some body => Some (try_catch body on_error)
  | None => None
  end.

End Tools.

(** The names of the tools listed by the server. *)
Definition tool_names : list string :=
  ["jira_search"; "jira_get_issue"; "jira_create_issue"; "jira_update_issue";
   "jira_get_transitions"; "jira_transition_issue"; "jira_get_comments";
   "jira_add_comment"].

Definition registered (name : string) : bool :=
  existsb (String.eqb name) tool_names.

(** ** The public methods of the facade, as one family *)

Inductive FacadeCall : Type -> Type :=
| SearchIssues (jql : string) (maxResults : option Z)
    (nextPageToken : option string) (fields : option (list string))
    : FacadeCall JiraSearchResult.t
| GetIssue (issueKey : string) (fields : option (list string))
    : FacadeCall JiraIssue.t
| CreateIssue (request : JiraCreateIssueRequest) : FacadeCall JiraIssue.t
| UpdateIssue (issueKey : string) (request : JiraUpdateIssueRequest)
    : FacadeCall unit
| GetTransitions (issueKey : string) : FacadeCall (list JiraTransition.t)
| TransitionIssue (issueKey : string) (request : JiraTransitionRequest)
    : FacadeCall unit
| GetComments (issueKey : string) : FacadeCall (list JiraComment.t)
| AddComment (issueKey : string) (request : JiraAddCommentRequest)
    : FacadeCall JiraComment.t.

Definition invoke (jira : Remote) {T} (c : FacadeCall T) : M T :=
  match c with
  | SearchIssues jql maxResults nextPageToken fields =>
      searchIssues jira jql maxResults nextPageToken fields
  | GetIssue issueKey fields => getIssue jira issueKey fields
  | CreateIssue request => createIssue jira request
  | UpdateIssue issueKey request => updateIssue jira issueKey request
  | GetTransitions issueKey => getTransitions jira issueKey
  | TransitionIssue issueKey request => transitionIssue jira issueKey request
  | GetComments issueKey => getComments jira issueKey
  | AddComment issueKey request => addComment jira issueKey request
  end.

(** The dispatcher's table: tool name, and the handler behind its cast. *)
Definition handler_table (jira : Remote)
    : list (string * (JsValue -> option (M CallToolResult))) :=
  [("jira_search", fun args => cast as_SearchIssuesArgs args (handleSearchIssues jira));
   ("jira_get_issue", fun args => cast as_GetIssueArgs args (handleGetIssue jira));
   ("jira_create_issue",
     fun args => cast as_CreateIssueArgs args (handleCreateIssue jira));
   ("jira_update_issue",
     fun args => cast as_UpdateIssueArgs args (handleUpdateIssue jira));
   ("jira_get_transitions",
     fun args => cast as_GetTransitionsArgs args (handleGetTransitions jira));
   ("jira_transition_issue",
     fun args => cast as_TransitionIssueArgs args (handleTransitionIssue jira));
   ("jira_get_comments",
     fun args => cast as_GetCommentsArgs args (handleGetComments jira));
   ("jira_add_comment", fun args => cast as_AddCommentArgs args (handleAddComment jira))].

Fixpoint lookup_handler {H : Type} (name : string) (table : list (string * H))
    : option H :=
  match table with
  | [] => None
  | (n, h) :: table' => if name =? n then Some h else lookup_handler name table'
  end.

(** ** The handlers at run time

    TypeScript's types are erased: [handler(args as T, jiraClient)] calls the
    handler on whatever [request.params.arguments] holds.  [Untyped] gives
    the facade methods and the handlers on arbitrary values, statement by
    statement, with JavaScript's own conversions: truthiness, property
    reads, template literals, [>], and the methods [join], [includes] and
    [map], which exist on some values and not on others.  A value that
    arrives in a request comes from JSON: none of its properties is a
    function.

    Two things belong to the engine and are parameters: the wording of a
    [TypeError], and the number it reads in a string that is compared with a
    number. *)

(** [ToBoolean] *)
Definition truthy (v : JsValue) : bool :=
  match v with
  | JsUndefined | JsNull => false
  | JsBool b => b
  | JsNumber n => negb (n =? 0)%Z
  | JsString s => truthy_string s
  | JsArray _ | JsObject _ => true
  end.

Inductive TypeErrorKind : Type :=
| CannotReadProperty (base : JsValue) (property : string)
| NotAFunction (receiver : JsValue) (method : string)
| NotPrimitive (v : JsValue).

Module Engine.
Record t := {
    (** the message of the [TypeError] thrown *)
    message : TypeErrorKind -> string;
    (** [s > n] for a string [s] and a number [n]: whether the number read in
        [s] is greater than [n] *)
    greater : string -> Z -> bool }.
End Engine.

(** A step that can throw and touches nothing. *)
Definition and_then {A B} (c : Completion A) (k : A -> Completion B) : Completion B :=
  match c with
  | Normal a => k a
  | Abrupt e => Abrupt e
  end.

Definition eval {A} (c : Completion A) : M A := fun s => (c, s).

(** The own enumerable properties of an array or of a string: its indices. *)
Fixpoint indexed (i : nat) (l : list JsValue) : JsObj :=
  match l with
  | [] => []
  | x :: r => (number_to_string (Z.of_nat i), x) :: indexed (S i) r
  end.

Fixpoint code_units (s : string) : list JsValue :=
  match s with
  | EmptyString => []
  | String c s' => JsString (String c EmptyString) :: code_units s'
  end.

(** What [Object.assign] copies from a source that is not [undefined] or
    [null]. *)
Definition own_entries (source : JsValue) : JsObj :=
  match source with
  | JsObject o => o
  | JsArray l => indexed 0 l
  | JsString s => indexed 0 (code_units s)
  | _ => []
  end.

(** [v.length], for [v] other than [undefined] and [null]. *)
Definition length_of (v : JsValue) : JsValue :=
  match v with
  | JsString s => JsNumber (Z.of_nat (String.length s))
  | JsArray l => JsNumber (Z.of_nat (length l))
  | JsObject o => prop "length" o
  | _ => JsUndefined
  end.

Module Untyped.

Section Run.

Variable jira : Remote.
Variable engine : Engine.t.

Definition TypeError (kind : TypeErrorKind) : Thrown :=
  JsError (Engine.message engine kind).

(** [base.k], for the names [k] that the handlers read: no string, number,
    boolean or array has one of them, and [Object.prototype] has none. *)
Definition member (base : JsValue) (k : string) : Completion JsValue :=
  match base with
  | JsUndefined | JsNull => Abrupt (TypeError (CannotReadProperty base k))
  | JsObject o => Normal (prop k o)
  | _ => Normal JsUndefined
  end.

(** [ToString], as a template literal applies it.  An array is joined with
    commas, [undefined] and [null] elements giving the empty string.  An
    object is "[object Object]", unless it has a property [toString] of its
    own: that is not a function, and the conversion throws. *)
Fixpoint ToString (v : JsValue) : Completion string :=
  match v with
  | JsUndefined => Normal "undefined"
  | JsNull => Normal "null"
  | JsBool b => Normal (if b then "true" else "false")
  | JsNumber n => Normal (number_to_string n)
  | JsString s => Normal s
  | JsArray l =>
      and_then
        ((fix items (l : list JsValue) : Completion (list string) :=
            match l with
            | [] => Normal []
            | x :: r =>
                and_then
                  match x with
                  | JsUndefined | JsNull => Normal ""
                  | _ => ToString x
                  end
                  (fun first => and_then (items r) (fun rest => Normal (first :: rest)))
            end) l)
        (fun parts => Normal (join "," parts))
  | JsObject o =>
      match obj_get "toString" o with
      | Some _ => Abrupt (TypeError (NotPrimitive v))
      | None => Normal "[object Object]"
      end
  end.

(** [v > n] for a number [n]. *)
Definition greater_than (v : JsValue) (n : Z) : Completion bool :=
  match v with
  | JsUndefined => Normal false
  | JsNull => Normal (n <? 0)%Z
  | JsBool b => Normal (n <? (if b then 1 else 0))%Z
  | JsNumber m => Normal (n <? m)%Z
  | JsString s => Normal (Engine.greater engine s n)
  | JsArray _ => and_then (ToString v) (fun s => Normal (Engine.greater engine s n))
  | JsObject o =>
      match obj_get "toString" o with
      | Some _ => Abrupt (TypeError (NotPrimitive v))
      | None => Normal false
      end
  end.

(** [v && v.length > 0] *)
Definition non_empty (v : JsValue) : Completion bool :=
  if truthy v then greater_than (length_of v) 0 else Normal false.

(** [v.join(',')], for a truthy [v]: arrays have the method. *)
Definition call_join (v : JsValue) : Completion string :=
  match v with
  | JsArray _ => ToString v
  | _ => Abrupt (TypeError (NotAFunction v "join"))
  end.

(** [v.includes('@')], for a truthy [v]: strings and arrays have the method. *)
Definition call_includes (v : JsValue) : Completion bool :=
  match v with
  | JsString s => Normal (includes "@" s)
  | JsArray l =>
      Normal (existsb (fun x => match x with JsString s => s =? "@" | _ => false end) l)
  | _ => Abrupt (TypeError (NotAFunction v "includes"))
  end.

(** [v.map(name => ({ name }))], for a truthy [v]: arrays have the method. *)
Definition call_map (v : JsValue) : Completion JsValue :=
  match v with
  | JsArray l => Normal (JsArray (map (fun name => JsObject [("name", name)]) l))
  | _ => Abrupt (TypeError (NotAFunction v "map"))
  end.

(** *** The facade *)

Definition searchIssues (jql maxResults nextPageToken fields : JsValue)
    : M JiraSearchResult.t :=
  let maxResults := match maxResults with JsUndefined => JsNumber 50 | _ => maxResults end in
  try_catch
    (let params := [("jql", jql); ("maxResults", maxResults)] in
     let params :=
       if truthy nextPageToken
       then obj_set "nextPageToken" nextPageToken params
       else params in
     listed <- eval (non_empty fields) ;;
     params <- (if listed : bool
                then joined <- eval (call_join fields) ;;
                     ret (obj_set "fields" (JsString joined) params)
                else ret (obj_set "fields" (JsString default_search_fields) params)) ;;
     this <- get_this ;;
     axios_get jira SearchResultP (JiraClient.client this) "/search/jql" params)
    handleError.

Definition getIssue (issueKey fields : JsValue) : M JiraIssue.t :=
  try_catch
    (params <- (if truthy fields
                then joined <- eval (call_join fields) ;;
                     ret [("fields", JsString joined)]
                else ret []) ;;
     issueKey <- eval (ToString issueKey) ;;
     this <- get_this ;;
     axios_get jira IssueP (JiraClient.client this) ("/issue/" ++ issueKey) params)
    handleError.

Definition createIssue (request : JiraCreateIssueRequest) : M JiraIssue.t :=
  try_catch
    (this <- get_this ;;
     response <- axios_post jira CreatedIssueP (JiraClient.client this) "/issue" request ;;
     getIssue (JsString (CreatedIssue.key response)) JsUndefined)
    handleError.

Definition updateIssue (issueKey : JsValue) (request : JiraUpdateIssueRequest)
    : M unit :=
  try_catch
    (issueKey <- eval (ToString issueKey) ;;
     this <- get_this ;;
     axios_put jira AnyP (JiraClient.client this) ("/issue/" ++ issueKey) request)
    handleError.

Definition getTransitions (issueKey : JsValue) : M (list JiraTransition.t) :=
  try_catch
    (issueKey <- eval (ToString issueKey) ;;
     this <- get_this ;;
     response <- axios_get jira TransitionListP (JiraClient.client this)
                   ("/issue/" ++ issueKey ++ "/transitions") [] ;;
     ret (TransitionList.transitions response))
    handleError.

Definition transitionIssue (issueKey : JsValue) (request : JiraTransitionRequest)
    : M unit :=
  try_catch
    (issueKey <- eval (ToString issueKey) ;;
     this <- get_this ;;
     axios_post jira AnyP (JiraClient.client this)
       ("/issue/" ++ issueKey ++ "/transitions") request)
    handleError.

Definition getComments (issueKey : JsValue) : M (list JiraComment.t) :=
  try_catch
    (issueKey <- eval (ToString issueKey) ;;
     this <- get_this ;;
     response <- axios_get jira CommentListP (JiraClient.client this)
                   ("/issue/" ++ issueKey ++ "/comment") [] ;;
     ret (JiraCommentList.comments response))
    handleError.

Definition addComment (issueKey : JsValue) (request : JiraAddCommentRequest)
    : M JiraComment.t :=
  try_catch
    (issueKey <- eval (ToString issueKey) ;;
     this <- get_this ;;
     axios_post jira CommentP (JiraClient.client this)
       ("/issue/" ++ issueKey ++ "/comment") request)
    handleError.

(** *** The handlers *)

Definition handleSearchIssues (args : JsValue) : M CallToolResult :=
  jql <- eval (member args "jql") ;;
  maxResults <- eval (member args "maxResults") ;;
  nextPageToken <- eval (member args "nextPageToken") ;;
  fields <- eval (member args "fields") ;;
  result <- searchIssues jql maxResults nextPageToken fields ;;
  ret (text_result (search_response result)).

Definition handleGetIssue (args : JsValue) : M CallToolResult :=
  issueKey <- eval (member args "issueKey") ;;
  fields <- eval (member args "fields") ;;
  issue <- getIssue issueKey fields ;;
  ret (text_result (get_issue_response issue)).

(** [{ accountId: assignee }] or [{ name: assignee }] (lines 91-93). *)
Definition assignee_field (assignee : JsValue) : Completion JsValue :=
  and_then (call_includes assignee) (fun contains =>
  and_then (if contains : bool then Normal true
            else greater_than (length_of assignee) 20) (fun account =>
  Normal (if account : bool
          then JsObject [("accountId", assignee)]
          else JsObject [("name", assignee)]))).

(** [request.fields] when [client.createIssue] is called (lines 69-106). *)
Definition create_issue_fields (args : JsValue) : Completion JsObj :=
  and_then (member args "projectKey") (fun projectKey =>
  and_then (member args "summary") (fun summary =>
  and_then (member args "issueType") (fun issueType =>
  let fields :=
    [("project", JsObject [("key", projectKey)]);
     ("summary", summary);
     ("issuetype", JsObject [("name", issueType)])] in
  and_then (member args "description") (fun description =>
  let fields :=
    if truthy description then obj_set "description" description fields else fields in
  and_then (member args "priority") (fun priority =>
  let fields :=
    if truthy priority
    then obj_set "priority" (JsObject [("name", priority)]) fields
    else fields in
  and_then (member args "assignee") (fun assignee =>
  and_then (if truthy assignee
            then and_then (assignee_field assignee) (fun field =>
                 Normal (obj_set "assignee" field fields))
            else Normal fields) (fun fields =>
  and_then (member args "labels") (fun labels =>
  and_then (non_empty labels) (fun listed =>
  let fields := if listed : bool then obj_set "labels" labels fields else fields in
  and_then (member args "components") (fun components =>
  and_then (non_empty components) (fun listed =>
  and_then (if listed : bool
            then and_then (call_map components) (fun named =>
                 Normal (obj_set "components" named fields))
            else Normal fields) (fun fields =>
  and_then (member args "customFields") (fun customFields =>
  Normal (if truthy customFields
          then Object_assign fields (own_entries customFields)
          else fields)))))))))))))).

Definition handleCreateIssue (args : JsValue) : M CallToolResult :=
  fields <- eval (create_issue_fields args) ;;
  let request := [("fields", JsObject fields)] in
  issue <- createIssue request ;;
  ret (text_result (create_issue_response issue)).

Definition handleUpdateIssue (args : JsValue) : M CallToolResult :=
  fields <- eval (member args "fields") ;;
  let request := [("fields", fields)] in
  issueKey <- eval (member args "issueKey") ;;
  updateIssue issueKey request ;;;
  updatedIssue <- getIssue issueKey JsUndefined ;;
  shown <- eval (ToString issueKey) ;;
  ret (text_result (update_issue_response shown updatedIssue)).

Definition get_transitions_response (issueKey : JsValue)
    (transitions : list JiraTransition.t) : JsObj :=
  [("issueKey", issueKey);
   ("transitions", JsArray (map transition_summary transitions))].

Definition handleGetTransitions (args : JsValue) : M CallToolResult :=
  issueKey <- eval (member args "issueKey") ;;
  transitions <- getTransitions issueKey ;;
  ret (text_result (get_transitions_response issueKey transitions)).

Definition transition_request (args : JsValue) : Completion JiraTransitionRequest :=
  and_then (member args "transitionId") (fun transitionId =>
  let request := [("transition", JsObject [("id", transitionId)])] in
  and_then (member args "fields") (fun fields =>
  Normal (if truthy fields then obj_set "fields" fields request else request))).

Definition handleTransitionIssue (args : JsValue) : M CallToolResult :=
  request <- eval (transition_request args) ;;
  issueKey <- eval (member args "issueKey") ;;
  transitionIssue issueKey request ;;;
  updatedIssue <- getIssue issueKey JsUndefined ;;
  shown <- eval (ToString issueKey) ;;
  ret (text_result (transition_issue_response shown updatedIssue)).

Definition get_comments_response (issueKey : JsValue)
    (comments : list JiraComment.t) : JsObj :=
  [("issueKey", issueKey);
   ("total", JsNumber (Z.of_nat (length comments)));
   ("comments", JsArray (map comment_summary comments))].

Definition handleGetComments (args : JsValue) : M CallToolResult :=
  issueKey <- eval (member args "issueKey") ;;
  comments <- getComments issueKey ;;
  ret (text_result (get_comments_response issueKey comments)).

(** The [request] of [handleAddComment] (lines 91-100). *)
Definition add_comment_request (args : JsValue) : Completion JiraAddCommentRequest :=
  and_then (member args "body") (fun body =>
  let request := [("body", body)] in
  and_then (member args "visibilityType") (fun visibilityType =>
  and_then (member args "visibilityValue") (fun visibilityValue =>
  Normal (if truthy visibilityType && truthy visibilityValue
          then obj_set "visibility"
                 (JsObject [("type", visibilityType); ("value", visibilityValue)])
                 request
          else request)))).

Definition handleAddComment (args : JsValue) : M CallToolResult :=
  request <- eval (add_comment_request args) ;;
  issueKey <- eval (member args "issueKey") ;;
  comment <- addComment issueKey request ;;
  shown <- eval (ToString issueKey) ;;
  ret (text_result (add_comment_response shown comment)).

(** *** The dispatcher ([src/index.ts], lines 79-126) *)

(** The [switch] on the tool name. *)
Definition tool_switch (name : string) (args : JsValue) : M CallToolResult :=
  if name =? "jira_search" then handleSearchIssues args
  else if name =? "jira_get_issue" then handleGetIssue args
  else if name =? "jira_create_issue" then handleCreateIssue args
  else if name =? "jira_update_issue" then handleUpdateIssue args
  else if name =? "jira_get_transitions" then handleGetTransitions args
  else if name =? "jira_transition_issue" then handleTransitionIssue args
  else if name =? "jira_get_comments" then handleGetComments args
  else if name =? "jira_add_comment" then handleAddComment args
  else throw (JsError ("Unknown tool: " ++ name)).

(** The tool-call handler, on every request. *)
Definition callTool (request : CallToolParams) : M CallToolResult :=
  try_catch (tool_switch (name request) (arguments request)) on_error.

(** The cases of the [switch]: tool name and handler. *)
Definition handler_table : list (string * (JsValue -> M CallToolResult)) :=
  [("jira_search", handleSearchIssues);
   ("jira_get_issue", handleGetIssue);
   ("jira_create_issue", handleCreateIssue);
   ("jira_update_issue", handleUpdateIssue);
   ("jira_get_transitions", handleGetTransitions);
   ("jira_transition_issue", handleTransitionIssue);
   ("jira_get_comments", handleGetComments);
   ("jira_add_comment", handleAddComment)].

End Run.

End Untyped.

(** An engine, for the examples. *)
Definition sample_engine : Engine.t :=
  {| Engine.message :=
       fun kind =>
         match kind with
         | CannotReadProperty base property =>
             "Cannot read properties of "
             ++ match base with JsNull => "null" | _ => "undefined" end
             ++ " (reading '" ++ property ++ "')"
         | NotAFunction _ method => "args." ++ method ++ " is not a function"
         | NotPrimitive _ => "Cannot convert object to primitive value"
         end;
     Engine.greater :=
       fun s n =>
         match decimal_value 0 s with
         | Some m => (n <? Z.of_N m)%Z
         | None => false
         end |}.

(** The computation issues at most one call, a [GET] without a body. *)
Definition reads_at_most_once {A} (m : M A) : Prop :=
  forall s,
    exists calls,
      issued (snd (m s)) = (issued s ++ calls)%list
      /\ length calls <= 1
      /\ Forall (fun r => method r = GET /\ data r = None) calls.

(** ** Properties of a computation *)

(** The computation leaves the [jiraClient] object as it found it. *)
Definition preserves_client {A} (m : M A) : Prop :=
  forall s, jiraClient (snd (m s)) = jiraClient s.

(** The calls issued so far are kept: the log only grows. *)
Definition extends_log {A} (m : M A) : Prop :=
  forall s, exists calls, issued (snd (m s)) = (issued s ++ calls)%list.

(** The outcome is a function of the [jiraClient] object alone: nothing else
    of the state the computation starts from is read. *)
Definition state_independent {A} (m : M A) : Prop :=
  forall s1 s2,
    jiraClient s1 = jiraClient s2 ->
    fst (m s1) = fst (m s2) /\ jiraClient (snd (m s1)) = jiraClient (snd (m s2)).

(** A remote whose answer to a request does not depend on earlier calls. *)
Definition history_insensitive (jira : Remote) : Prop :=
  forall T (p : Payload T) h1 h2 req, jira T p h1 req = jira T p h2 req.

(** The three properties together. *)
Definition stateless (jira : Remote) {A} (m : M A) : Prop :=
  preserves_client m
  /\ extends_log m
  /\ (history_insensitive jira -> state_independent m).

(** The three pagination properties of a response object. *)
Definition pagination_signal (response : JsObj)
    : option JsValue * option JsValue * option JsValue :=
  (obj_get "nextPageToken" response,
   obj_get "isLast" response,
   obj_get "hasMoreResults" response).

(** The error that [handleError] throws for a rejection reason. *)
Definition thrown_for (reason : Thrown) : Thrown :=
  match reason with
  | AxiosError message (Some {| ErrorResponse.status := status;
                                ErrorResponse.data := Some errorData |}) =>
      JsError (api_error_message status (error_messages errorData))
  | AxiosError message _ => JsError ("Jira API Error: " ++ message)
  | _ => reason
  end.

(** The [fields] object of a posted create request. *)
Definition posted_fields (body : option JsValue) : JsObj :=
  match body with
  | Some (JsObject request) =>
      match prop "fields" request with
      | JsObject fields => fields
      | _ => []
      end
  | _ => []
  end.

Definition posted_project_key (fields : JsObj) : JsValue :=
  match prop "project" fields with
  | JsObject project => prop "key" project
  | _ => JsUndefined
  end.

(** A remote that, on the fetch that follows a create call, returns the
    summary and the project key that were posted. *)
Definition returns_what_was_posted (jira : Remote) : Prop :=
  forall history post created get issue,
    jira _ CreatedIssueP history post = Fulfilled created ->
    jira _ IssueP (history ++ [post])%list get = Fulfilled issue ->
    forall summary projectKey,
      prop "summary" (posted_fields (data post)) = JsString summary ->
      posted_project_key (posted_fields (data post)) = JsString projectKey ->
      JiraIssueFields.summary (JiraIssue.fields issue) = summary
      /\ JiraProject.key (JiraIssueFields.project (JiraIssue.fields issue)) = projectKey.

(** ** Sample data: a process and some remotes *)

Module Sample.

Definition status : JiraStatus.t :=
  {| JiraStatus.id := "10001"; JiraStatus.name := "To Do";
     JiraStatus.description := None;
     JiraStatus.statusCategory :=
       {| StatusCategory.id := 2; StatusCategory.key := "new";
          StatusCategory.name := "To Do"; StatusCategory.colorName := "blue-gray" |} |}.

Definition user : JiraUser.t :=
  {| JiraUser.accountId := Some "5b10a2844c20165700ede21g"; JiraUser.name := None;
     JiraUser.displayName := "Mia Krystof"; JiraUser.emailAddress := None;
     JiraUser.active := true |}.

Definition issue (key summary projectKey : string) : JiraIssue.t :=
  {| JiraIssue.id := "10000"; JiraIssue.key := key;
     JiraIssue.self := "https://jira.example.com/rest/api/3/issue/10000";
     JiraIssue.fields :=
       {| JiraIssueFields.summary := summary;
          JiraIssueFields.description := Null;
          JiraIssueFields.issuetype :=
            {| JiraIssueType.id := "10002"; JiraIssueType.name := "Task";
               JiraIssueType.description := None; JiraIssueType.subtask := false |};
          JiraIssueFields.project :=
            {| JiraProject.id := "10003"; JiraProject.key := projectKey;
               JiraProject.name := "Example";
               JiraProject.self := "https://jira.example.com/rest/api/3/project/10003" |};
          JiraIssueFields.status := status;
          JiraIssueFields.priority := None;
          JiraIssueFields.assignee := Null;
          JiraIssueFields.reporter := Some user;
          JiraIssueFields.created := "2024-01-01T00:00:00.000+0000";
          JiraIssueFields.updated := "2024-01-02T00:00:00.000+0000";
          JiraIssueFields.resolutiondate := Null;
          JiraIssueFields.labels := Some [];
          JiraIssueFields.components := None;
          JiraIssueFields.fixVersions := None |} |}.

Definition created : CreatedIssue.t :=
  {| CreatedIssue.id := "10000"; CreatedIssue.key := "PROJ-1";
     CreatedIssue.self := "https://jira.example.com/rest/api/3/issue/10000" |}.

Definition comment : JiraComment.t :=
  {| JiraComment.id := "10100";
     JiraComment.self := "https://jira.example.com/rest/api/3/issue/10000/comment/10100";
     JiraComment.author := user; JiraComment.body := "hello";
     JiraComment.created := "2024-01-03T00:00:00.000+0000";
     JiraComment.updated := "2024-01-03T00:00:00.000+0000";
     JiraComment.visibility := None |}.

Definition string_of (v : JsValue) : string :=
  match v with JsString s => s | _ => "" end.

(** A remote that accepts every call; a fetch returns the summary and the
    project key of the body posted last. *)
Definition echo : Remote :=
  fun T p history req =>
    match p in Payload T0 return Settled T0 with
    | SearchResultP =>
        Fulfilled {| JiraSearchResult.issues := [issue "PROJ-1" "First" "PROJ"];
                     JiraSearchResult.total := None;
                     JiraSearchResult.nextPageToken := None;
                     JiraSearchResult.isLast := Some true |}
    | IssueP =>
        let fields := posted_fields (data (last history req)) in
        Fulfilled (issue "PROJ-1" (string_of (prop "summary" fields))
                     (string_of (posted_project_key fields)))
    | CreatedIssueP => Fulfilled created
    | TransitionListP => Fulfilled {| TransitionList.transitions := [] |}
    | CommentListP =>
        Fulfilled {| JiraCommentList.comments := [comment];
                     JiraCommentList.maxResults := 50;
                     JiraCommentList.total := 1;
                     JiraCommentList.startAt := 0 |}
    | CommentP => Fulfilled comment
    | AnyP => Fulfilled tt
    end.

(** A remote that answers every search with the given page. *)
Definition paging (page : JiraSearchResult.t) : Remote :=
  fun T p history req =>
    match p in Payload T0 return Settled T0 with
    | SearchResultP => Fulfilled page
    | _ => Rejected (AxiosError "Network Error" None)
    end.

(** A remote on which every call is rejected with the given reason. *)
Definition rejecting (reason : Thrown) : Remote :=
  fun T p history req => Rejected reason.

(** No answer at all: a transport failure. *)
Definition network_down : Remote := rejecting (AxiosError "Network Error" None).

(** A 400 answer with a Jira error body. *)
Definition bad_request : Remote :=
  rejecting
    (AxiosError "Request failed with status code 400"
       (Some {| ErrorResponse.status := 400;
                ErrorResponse.data :=
                  Some {| JiraErrorResponse.errorMessages :=
                            Some ["Issue does not exist"];
                          JiraErrorResponse.errors :=
                            Some [("summary", "Field required")] |} |})).

(** The process right after start-up. *)
Definition boot : Process :=
  {| jiraClient := new_JiraClient "https://jira.example.com/" "user" "token";
     issued := [] |}.

(** A create call: the typed summary is "Wanted", the custom fields carry
    their own summary. *)
Definition custom : JsObj :=
  [("summary", JsString "Other"); ("customfield_10010", JsNumber 5)].

Definition create_args (assignee : option string) (customFields : option JsObj)
    : CreateIssueArgs.t :=
  {| CreateIssueArgs.projectKey := "PROJ";
     CreateIssueArgs.issueType := "Task";
     CreateIssueArgs.summary := "Wanted";
     CreateIssueArgs.description := None;
     CreateIssueArgs.priority := None;
     CreateIssueArgs.assignee := assignee;
     CreateIssueArgs.labels := Some ["backend"];
     CreateIssueArgs.components := None;
     CreateIssueArgs.customFields := customFields |}.

(** The fields object a create call puts on the wire. *)
Definition sent_fields (args : CreateIssueArgs.t) : JsObj :=
  posted_fields (Some (JsObject (create_issue_request args))).

End Sample.

(** ** The tool definitions ([src/tools/*.ts]) and the tool list *)

(** A property of type string, array of strings, or object, with its
    description. *)
Definition string_property (description : string) : JsValue :=
  JsObject [("type", JsString "string"); ("description", JsString description)].

Definition string_array_property (description : string) : JsValue :=
  JsObject [("type", JsString "array");
            ("items", JsObject [("type", JsString "string")]);
            ("description", JsString description)].

Definition object_property (description : string) : JsValue :=
  JsObject [("type", JsString "object"); ("description", JsString description)].

Definition object_schema (properties : JsObj) (required : list string) : JsValue :=
  JsObject [("type", JsString "object");
            ("properties", JsObject properties);
            ("required", strings required)].

Definition issue_key_property : JsValue :=
  string_property "Issue key (e.g., PROJ-123) or ID".

(** A double quote, for the descriptions that quote their examples. *)
Definition q : string := String dquote EmptyString.

Definition searchIssuesTool : JsObj :=
  [("name", JsString "jira_search");
   ("description",
    JsString
      ("Search for Jira issues using JQL (Jira Query Language). Examples: "
       ++ q ++ "project = PROJ AND status = Open" ++ q ++ ", "
       ++ q ++ "assignee = currentUser() ORDER BY created DESC" ++ q
       ++ ". Use nextPageToken from response to paginate."));
   ("inputSchema",
    object_schema
      [("jql", string_property "JQL (Jira Query Language) query string");
       ("maxResults",
        JsObject
          [("type", JsString "number");
           ("description",
            JsString "Maximum number of results to return (default: 50)");
           ("default", JsNumber 50)]);
       ("nextPageToken",
        string_property
          "Token for fetching next page of results (from previous search response)");
       ("fields",
        string_array_property
          "List of fields to include in response (default: all fields)")]
      ["jql"])].

Definition getIssueTool : JsObj :=
  [("name", JsString "jira_get_issue");
   ("description",
    JsString
      "Get detailed information about a specific Jira issue by its key (e.g., PROJ-123) or ID");
   ("inputSchema",
    object_schema
      [("issueKey", issue_key_property);
       ("fields",
        string_array_property
          "List of fields to include in response (default: all fields)")]
      ["issueKey"])].

Definition createIssueTool : JsObj :=
  [("name", JsString "jira_create_issue");
   ("description", JsString "Create a new Jira issue in a specified project");
   ("inputSchema",
    object_schema
      [("projectKey", string_property "Project key (e.g., PROJ)");
       ("issueType", string_property "Issue type name (e.g., Bug, Task, Story)");
       ("summary", string_property "Issue summary/title");
       ("description", string_property "Issue description");
       ("priority", string_property "Priority name (e.g., High, Medium, Low)");
       ("assignee", string_property "Assignee username or account ID");
       ("labels", string_array_property "Array of labels");
       ("components", string_array_property "Array of component names");
       ("customFields", object_property "Custom fields as key-value pairs")]
      ["projectKey"; "issueType"; "summary"])].

Definition updateIssueTool : JsObj :=
  [("name", JsString "jira_update_issue");
   ("description",
    JsString
      "Update fields of an existing Jira issue. Common fields: summary, description, priority, assignee, labels, components");
   ("inputSchema",
    object_schema
      [("issueKey", issue_key_property);
       ("fields",
        object_property
          ("Fields to update as key-value pairs. Examples: {"
           ++ q ++ "summary" ++ q ++ ": " ++ q ++ "New title" ++ q ++ ", "
           ++ q ++ "description" ++ q ++ ": " ++ q ++ "New description" ++ q ++ ", "
           ++ q ++ "priority" ++ q ++ ": {" ++ q ++ "name" ++ q ++ ": "
           ++ q ++ "High" ++ q ++ "}}"))]
      ["issueKey"; "fields"])].

Definition getTransitionsTool : JsObj :=
  [("name", JsString "jira_get_transitions");
   ("description", JsString "Get available status transitions for a Jira issue");
   ("inputSchema", object_schema [("issueKey", issue_key_property)] ["issueKey"])].

Definition transitionIssueTool : JsObj :=
  [("name", JsString "jira_transition_issue");
   ("description",
    JsString
      "Transition a Jira issue to a new status. Use jira_get_transitions first to get available transition IDs");
   ("inputSchema",
    object_schema
      [("issueKey", issue_key_property);
       ("transitionId",
        string_property "Transition ID to execute (get from jira_get_transitions)");
       ("fields", object_property "Optional fields to set during transition")]
      ["issueKey"; "transitionId"])].

Definition getCommentsTool : JsObj :=
  [("name", JsString "jira_get_comments");
   ("description", JsString "Get all comments for a Jira issue");
   ("inputSchema", object_schema [("issueKey", issue_key_property)] ["issueKey"])].

Definition addCommentTool : JsObj :=
  [("name", JsString "jira_add_comment");
   ("description", JsString "Add a comment to a Jira issue");
   ("inputSchema",
    object_schema
      [("issueKey", issue_key_property);
       ("body", string_property "Comment text");
       ("visibilityType",
        JsObject
          [("type", JsString "string");
           ("enum", strings ["group"; "role"]);
           ("description", JsString "Visibility restriction type (optional)")]);
       ("visibilityValue",
        string_property "Group or role name for visibility restriction (optional)")]
      ["issueKey"; "body"])].

(** The result of the [ListToolsRequestSchema] handler ([src/index.ts],
    lines 65-76). *)
Definition listTools : JsObj :=
  [("tools",
    JsArray
      (map JsObject
         [searchIssuesTool; getIssueTool; createIssueTool; updateIssueTool;
          getTransitionsTool; transitionIssueTool; getCommentsTool;
          addCommentTool]))].

(** Reading a tool definition: its name, the properties its input schema
    declares, and the ones it requires. *)
Definition listed_tools : list JsObj :=
  match prop "tools" listTools with
  | JsArray tools =>
      flat_map (fun tool => match tool with JsObject o => [o] | _ => [] end) tools
  | _ => []
  end.


Definition tool_name (tool : JsObj) : string :=
  match prop "name" tool with JsString n => n | _ => "" end.




(** ** The test suite script

    The script that runs nine checks against a Jira instance through the
    facade.  Its state is the list [results], the two variables of [main]
    that the checks share, the calls issued so far, and the number of times
    the clock was read.  What the script prints is not part of this state:
    nothing reads it back.  The tests on the shape of an answer
    ([!result || !Array.isArray(result.issues)] and the like) hold of every
    answer of the declared type, so they do not appear. *)

Inductive TestStatus : Type := PASS | FAIL | SKIP.

Module TestResult.
Record t := { name : string; status : TestStatus; message : string;
              duration : option Z }.
End TestResult.

(** [process.env], as far as the script reads it. *)
Module Env.
Record t := { JIRA_BASE_URL : option string;
              JIRA_USERNAME : option string;
              JIRA_API_TOKEN : option string;
              TEST_PROJECT_KEY : option string }.
End Env.

Record Suite : Type := {
  results : list TestResult.t;
  accessibleIssueKey : string;
  createdIssueKey : string;
  requests : list HttpRequest;
  clock_reads : nat }.

Definition Script (A : Type) : Type := Suite -> Completion A * Suite.

Definition script_ret {A} (a : A) : Script A := fun u => (Normal a, u).

Definition script_throw {A} (e : Thrown) : Script A := fun u => (Abrupt e, u).

Definition script_bind {A B} (m : Script A) (k : A -> Script B) : Script B :=
  fun u =>
    match m u with
    | (Normal a, u') => k a u'
    | (Abrupt e, u') => (Abrupt e, u')
    end.

Definition script_try_catch {A} (m : Script A) (h : Thrown -> Script A) : Script A :=
  fun u =>
    match m u with
    | (Normal a, u') => (Normal a, u')
    | (Abrupt e, u') => h e u'
    end.

Declare Scope script_scope.
Delimit Scope script_scope with script.
Notation "x <- m ;; k" := (script_bind m (fun x => k))
  (at level 100, m at next level, right associativity) : script_scope.
Notation "m ;;; k" := (script_bind m (fun _ => k))
  (at level 100, right associativity) : script_scope.

(** A method of the facade, called on the client the script made. *)
Definition on_client (client : JiraClient.t) {A} (m : M A) : Script A :=
  fun u =>
    let '(completion, p) := m {| jiraClient := client; issued := requests u |} in
    (completion,
     {| results := results u;
        accessibleIssueKey := accessibleIssueKey u;
        createdIssueKey := createdIssueKey u;
        requests := issued p;
        clock_reads := clock_reads u |}).

Definition set_accessibleIssueKey (key : string) : Script unit :=
  fun u =>
    (Normal tt,
     {| results := results u;
        accessibleIssueKey := key;
        createdIssueKey := createdIssueKey u;
        requests := requests u;
        clock_reads := clock_reads u |}).

Definition set_createdIssueKey (key : string) : Script unit :=
  fun u =>
    (Normal tt,
     {| results := results u;
        accessibleIssueKey := accessibleIssueKey u;
        createdIssueKey := key;
        requests := requests u;
        clock_reads := clock_reads u |}).

Definition get_accessibleIssueKey : Script string :=
  fun u => (Normal (accessibleIssueKey u), u).

Definition get_createdIssueKey : Script string :=
  fun u => (Normal (createdIssueKey u), u).

Definition get_results : Script (list TestResult.t) :=
  fun u => (Normal (results u), u).

(** [logTest]: the result is pushed on [results]. *)
Definition logTest (result : TestResult.t) : Script unit :=
  fun u =>
    (Normal tt,
     {| results := results u ++ [result];
        accessibleIssueKey := accessibleIssueKey u;
        createdIssueKey := createdIssueKey u;
        requests := requests u;
        clock_reads := clock_reads u |}).

Section TestSuite.

Local Open Scope script_scope.

Variable jira : Remote.

(** The clock: what the n-th reading yields, and how a time prints. *)
Variable now : nat -> Z.
Variable toISOString : Z -> string.

Definition Date_now : Script Z :=
  fun u =>
    (Normal (now (clock_reads u)),
     {| results := results u;
        accessibleIssueKey := accessibleIssueKey u;
        createdIssueKey := createdIssueKey u;
        requests := requests u;
        clock_reads := S (clock_reads u) |}).

Definition runTest (name : string) (testFn : Script unit) (skipCondition : bool)
    : Script unit :=
  if skipCondition then
    logTest {| TestResult.name := name; TestResult.status := SKIP;
               TestResult.message := "Skipped - missing required config";
               TestResult.duration := None |}
  else
    start <- Date_now ;;
    script_try_catch
      (testFn ;;;
       finish <- Date_now ;;
       let duration := (finish - start)%Z in
       logTest {| TestResult.name := name; TestResult.status := PASS;
                  TestResult.message := "Success";
                  TestResult.duration := Some duration |})
      (fun error =>
         finish <- Date_now ;;
         let duration := (finish - start)%Z in
         let message := error_message error in
         logTest {| TestResult.name := name; TestResult.status := FAIL;
                    TestResult.message := message;
                    TestResult.duration := Some duration |}).

Definition test_basic_connectivity (client : JiraClient.t) (TEST_PROJECT_KEY : string)
    : Script unit :=
  let jql :=
    if truthy_string TEST_PROJECT_KEY
    then "project = " ++ TEST_PROJECT_KEY ++ " order by created DESC"
    else "assignee = currentUser() order by created DESC" in
  result <- on_client client (searchIssues jira jql (Some 1%Z) None None) ;;
  script_ret tt.

Definition test_find_accessible_issue (client : JiraClient.t) : Script unit :=
  result <- on_client client
              (searchIssues jira
                 "assignee = currentUser() OR reporter = currentUser()"
                 (Some 1%Z) None None) ;;
  match JiraSearchResult.issues result with
  | issue :: _ => set_accessibleIssueKey (JiraIssue.key issue)
  | [] => script_ret tt
  end.

Definition test_get_issue (client : JiraClient.t) : Script unit :=
  accessibleIssueKey <- get_accessibleIssueKey ;;
  issue <- on_client client (getIssue jira accessibleIssueKey None) ;;
  if truthy_string (JiraIssue.key issue) then script_ret tt
  else script_throw (JsError "Invalid issue response").

Definition test_get_transitions (client : JiraClient.t) : Script unit :=
  accessibleIssueKey <- get_accessibleIssueKey ;;
  transitions <- on_client client (getTransitions jira accessibleIssueKey) ;;
  script_ret tt.

Definition test_get_comments (client : JiraClient.t) : Script unit :=
  accessibleIssueKey <- get_accessibleIssueKey ;;
  comments <- on_client client (getComments jira accessibleIssueKey) ;;
  script_ret tt.

Definition test_search_by_project (client : JiraClient.t) (TEST_PROJECT_KEY : string)
    : Script unit :=
  result <- on_client client
              (searchIssues jira
                 ("project = " ++ TEST_PROJECT_KEY ++ " ORDER BY created DESC")
                 (Some 5%Z) None None) ;;
  script_ret tt.

Definition test_create_issue (client : JiraClient.t) (TEST_PROJECT_KEY : string)
    : Script unit :=
  date <- Date_now ;;
  issue <- on_client client
             (createIssue jira
                [("fields",
                  JsObject
                    [("project", JsObject [("key", JsString TEST_PROJECT_KEY)]);
                     ("summary",
                      JsString ("[MCP Test] Automated test issue - "
                                ++ toISOString date));
                     ("description",
                      JsString
                        "This is a test issue created by the Jira MCP Server test suite. You can safely delete this.");
                     ("issuetype", JsObject [("name", JsString "Task")])])]) ;;
  if truthy_string (JiraIssue.key issue)
  then set_createdIssueKey (JiraIssue.key issue)
  else script_throw (JsError "Failed to create issue").

Definition test_update_issue (client : JiraClient.t) : Script unit :=
  createdIssueKey <- get_createdIssueKey ;;
  if truthy_string createdIssueKey then
    date <- Date_now ;;
    on_client client
      (updateIssue jira createdIssueKey
         [("fields",
           JsObject
             [("description",
               JsString ("Updated by test suite - " ++ toISOString date))])])
  else
    script_throw (JsError "No issue to update (creation was skipped or failed)").

Definition test_add_comment (client : JiraClient.t) : Script unit :=
  createdIssueKey <- get_createdIssueKey ;;
  if truthy_string createdIssueKey then
    date <- Date_now ;;
    comment <- on_client client
                 (addComment jira createdIssueKey
                    [("body",
                      JsString
                        ("Test comment added by MCP Server test suite at "
                         ++ toISOString date))]) ;;
    if truthy_string (JiraComment.id comment) then script_ret tt
    else script_throw (JsError "Failed to add comment")
  else
    script_throw (JsError "No issue to comment on (creation was skipped or failed)").

Definition count_status (status : TestStatus) (results : list TestResult.t) : nat :=
  length
    (filter
       (fun r =>
          match TestResult.status r, status with
          | PASS, PASS | FAIL, FAIL | SKIP, SKIP => true
          | _, _ => false
          end)
       results).

Definition or_empty_string (o : option string) : string :=
  match o with Some s => s | None => "" end.

(** [main]: the value is the code the process exits with. *)
Definition main (env : Env.t) : Script Z :=
  let TEST_PROJECT_KEY := or_empty_string (Env.TEST_PROJECT_KEY env) in
  match Env.JIRA_BASE_URL env, Env.JIRA_USERNAME env, Env.JIRA_API_TOKEN env with
  | Some JIRA_BASE_URL, Some JIRA_USERNAME, Some JIRA_API_TOKEN =>
      if truthy_string JIRA_BASE_URL && truthy_string JIRA_USERNAME
         && truthy_string JIRA_API_TOKEN
      then
        let client := new_JiraClient JIRA_BASE_URL JIRA_USERNAME JIRA_API_TOKEN in
        runTest "1. Basic Connectivity (Search)"
          (test_basic_connectivity client TEST_PROJECT_KEY) false ;;;
        set_accessibleIssueKey "" ;;;
        runTest "2. Find Accessible Issue"
          (test_find_accessible_issue client) false ;;;
        accessible <- get_accessibleIssueKey ;;
        runTest "3. Get Issue Details" (test_get_issue client)
          (negb (truthy_string accessible)) ;;;
        accessible <- get_accessibleIssueKey ;;
        runTest "4. Get Available Transitions" (test_get_transitions client)
          (negb (truthy_string accessible)) ;;;
        accessible <- get_accessibleIssueKey ;;
        runTest "5. Get Issue Comments" (test_get_comments client)
          (negb (truthy_string accessible)) ;;;
        runTest "6. Search Issues by Project"
          (test_search_by_project client TEST_PROJECT_KEY)
          (negb (truthy_string TEST_PROJECT_KEY)) ;;;
        set_createdIssueKey "" ;;;
        runTest "7. Create Test Issue"
          (test_create_issue client TEST_PROJECT_KEY) true ;;;
        created <- get_createdIssueKey ;;
        runTest "8. Update Test Issue" (test_update_issue client)
          (negb (truthy_string created)) ;;;
        created <- get_createdIssueKey ;;
        runTest "9. Add Comment to Test Issue" (test_add_comment client)
          (negb (truthy_string created)) ;;;
        results <- get_results ;;
        let passed := count_status PASS results in
        let failed := count_status FAIL results in
        if (0 <? failed)%nat then script_ret 1%Z
        else if (passed =? 0)%nat then script_ret 1%Z
        else script_ret 0%Z
      else script_ret 1%Z
  | _, _, _ => script_ret 1%Z
  end.

End TestSuite.

(** The state of the script when [main] is called. *)
Definition script_start : Suite :=
  {| results := [];
     accessibleIssueKey := "";
     createdIssueKey := "";
     requests := [];
     clock_reads := 0 |}.

(** A configured environment without a project key, and a clock that
    advances by one millisecond at each reading. *)
Definition configured_env : Env.t :=
  {| Env.JIRA_BASE_URL := Some "https://jira.example.com";
     Env.JIRA_USERNAME := Some "user";
     Env.JIRA_API_TOKEN := Some "token";
     Env.TEST_PROJECT_KEY := None |}.

Definition ticking : nat -> Z := Z.of_nat.

Definition epoch : Z -> string := fun _ => "1970-01-01T00:00:00.000Z".

(** ** Properties of a run of the script *)

(** Started in a state that satisfies [pre], the computation completes
    normally, in a state that satisfies [post]. *)
Definition ensures {A} (pre : Suite -> Prop) (m : Script A)
    (post : A -> Suite -> Prop) : Prop :=
  forall u, pre u -> exists a u', m u = (Normal a, u') /\ post a u'.

(** A check that may run: it leaves [results] and [createdIssueKey] alone,
    and issues at most one call, which only reads. *)
Definition harmless (testFn : Script unit) : Prop :=
  forall u,
    results (snd (testFn u)) = results u
    /\ createdIssueKey (snd (testFn u)) = createdIssueKey u
    /\ exists calls,
         requests (snd (testFn u)) = (requests u ++ calls)%list
         /\ Forall (fun r => method r = GET /\ data r = None) calls
         /\ length calls <= 1.

Definition ran (r : TestResult.t) : bool :=
  match TestResult.status r with SKIP => false | _ => true end.

(** The state after the checks named in [expected] were logged, each with a
    status its entry allows: no issue was created, the calls only read, and
    there are no more calls than checks that ran. *)
Definition logged (expected : list (string * (TestStatus -> Prop))) (u : Suite) : Prop :=
  Forall2
    (fun entry r =>
       TestResult.name r = fst entry /\ snd entry (TestResult.status r))
    expected (results u)
  /\ createdIssueKey u = ""
  /\ Forall (fun r => method r = GET /\ data r = None) (requests u)
  /\ length (requests u) <= length (filter ran (results u)).

(** The nine checks of [main], in order, with the statuses each can have:
    the first two always run, the sixth runs when there is a project key, the
    last three never run. *)
Definition suite_checks (projectKey : string) : list (string * (TestStatus -> Prop)) :=
  [("1. Basic Connectivity (Search)", fun status => status <> SKIP);
   ("2. Find Accessible Issue", fun status => status <> SKIP);
   ("3. Get Issue Details", fun _ => True);
   ("4. Get Available Transitions", fun _ => True);
   ("5. Get Issue Comments", fun _ => True);
   ("6. Search Issues by Project", fun status => status = SKIP <-> projectKey = "");
   ("7. Create Test Issue", fun status => status = SKIP);
   ("8. Update Test Issue", fun status => status = SKIP);
   ("9. Add Comment to Test Issue", fun status => status = SKIP)].

(** The exit code [main] computes from the results. *)
Definition verdict (results : list TestResult.t) : Z :=
  if (0 <? count_status FAIL results)%nat then 1%Z
  else if (count_status PASS results =? 0)%nat then 1%Z
  else 0%Z.

(** ** Properties of the calls a computation issues *)

(** Started on the client [c], the computation appends calls that all
    satisfy [P], and leaves the client in place. *)
Definition sends (c : JiraClient.t) (P : HttpRequest -> Prop) {A} (m : M A) : Prop :=
  forall s,
    jiraClient s = c ->
    exists calls,
      issued (snd (m s)) = (issued s ++ calls)%list
      /\ Forall P calls
      /\ jiraClient (snd (m s)) = c.

(** A call carries the configuration of the client: its headers, its timeout,
    and a URL under its base URL. *)
Definition configured_by (c : JiraClient.t) (r : HttpRequest) : Prop :=
  headers r = AxiosInstance.headers (JiraClient.client c)
  /\ timeout r = AxiosInstance.timeout (JiraClient.client c)
  /\ exists path,
       url r = AxiosInstance.baseURL (JiraClient.client c) ++ "/" ++ path.

(** A call that only reads: a [GET] without a body. *)
Definition read_only (r : HttpRequest) : Prop :=
  method r = GET /\ data r = None.

(** * Properties *)

(** ** Objects *)

Lemma obj_get_set_eq (k : string) (v : JsValue) (o : JsObj) :
  obj_get k (obj_set k v o) = Some v.
Proof.
  induction o as [|[k' v'] o IH]; simpl.
  - now rewrite String.eqb_refl.
  - destruct (k =? k') eqn:E; simpl.
    + now rewrite String.eqb_refl.
    + now rewrite E.
Qed.

Lemma obj_get_set_ne (k k' : string) (v : JsValue) (o : JsObj) :
  k <> k' -> obj_get k (obj_set k' v o) = obj_get k o.
Proof.
  intros Hne. apply String.eqb_neq in Hne.
  induction o as [|[k1 v1] o IH]; simpl.
  - now rewrite Hne.
  - destruct (k' =? k1) eqn:E; simpl.
    + apply String.eqb_eq in E. subst k1. now rewrite Hne.
    + now rewrite IH.
Qed.

Lemma obj_get_set (k k' : string) (v : JsValue) (o : JsObj) :
  obj_get k (obj_set k' v o) = if k =? k' then Some v else obj_get k o.
Proof.
  destruct (String.eqb_spec k k') as [->|Hne].
  - apply obj_get_set_eq.
  - now apply obj_get_set_ne.
Qed.

Lemma obj_get_None_not_In (k : string) (o : JsObj) :
  ~ In k (map fst o) -> obj_get k o = None.
Proof.
  induction o as [|[k' v'] o IH]; simpl; intros Hnot; [reflexivity|].
  destruct (String.eqb_spec k k') as [->|Hne].
  - exfalso. apply Hnot. now left.
  - apply IH. intros Hin. apply Hnot. now right.
Qed.

Lemma obj_get_define_ne (k k' : string) (v : JsValue) (o : JsObj) :
  k <> k' -> obj_get k (define_property k' v o) = obj_get k o.
Proof.
  intros Hne. apply String.eqb_neq in Hne.
  induction o as [|[k1 v1] o IH]; simpl.
  - now rewrite Hne.
  - destruct (enumerated_before k' k1); simpl.
    + now rewrite Hne.
    + now rewrite IH.
Qed.

Lemma obj_get_define_eq (k : string) (v : JsValue) (o : JsObj) :
  obj_get k o = None -> obj_get k (define_property k v o) = Some v.
Proof.
  induction o as [|[k1 v1] o IH]; simpl.
  - now rewrite String.eqb_refl.
  - destruct (k =? k1) eqn:E; [discriminate|]. intros Hk.
    destruct (enumerated_before k k1); simpl.
    + now rewrite String.eqb_refl.
    + rewrite E. now apply IH.
Qed.

(** Assigning [k'] leaves every other property as it is. *)
Lemma obj_get_assign_property_ne (k k' : string) (v : JsValue) (o : JsObj) :
  k <> k' -> obj_get k (assign_property k' v o) = obj_get k o.
Proof.
  intros Hne. unfold assign_property.
  destruct (obj_get k' o); [now apply obj_get_set_ne|].
  destruct (k' =? "__proto__"); [reflexivity | now apply obj_get_define_ne].
Qed.

(** Assigning a name other than [__proto__] makes it a property with the
    assigned value. *)
Lemma obj_get_assign_property_eq (k : string) (v : JsValue) (o : JsObj) :
  k <> "__proto__" -> obj_get k (assign_property k v o) = Some v.
Proof.
  intros Hne. apply String.eqb_neq in Hne. unfold assign_property.
  destruct (obj_get k o) eqn:Hk; [apply obj_get_set_eq|].
  rewrite Hne. now apply obj_get_define_eq.
Qed.

(** Assigning [__proto__] on an object that has no such property adds none. *)
Lemma obj_get_assign_property_proto (k : string) (v : JsValue) (o : JsObj) :
  obj_get "__proto__" o = None ->
  obj_get "__proto__" (assign_property k v o) = None.
Proof.
  intros Hproto. destruct (String.eqb_spec k "__proto__") as [->|Hne].
  - unfold assign_property. rewrite Hproto. exact Hproto.
  - rewrite obj_get_assign_property_ne; [exact Hproto | congruence].
Qed.

(** [Object.assign]: a key of the source other than [__proto__] takes the
    source's value, every other key keeps the target's. *)
Lemma obj_get_assign (k : string) (source : JsObj) :
  k <> "__proto__" ->
  NoDup (map fst source) ->
  forall target,
    obj_get k (Object_assign target source)
    = match obj_get k source with
      | Some v => Some v
      | None => obj_get k target
      end.
Proof.
  intros Hproto. unfold Object_assign.
  induction source as [|[k1 v1] source IH]; simpl; intros Hnd target.
  - reflexivity.
  - inversion Hnd as [|? ? Hnotin Hnd']; subst.
    rewrite (IH Hnd').
    destruct (String.eqb_spec k k1) as [<-|Hne].
    + rewrite (obj_get_None_not_In _ _ Hnotin).
      now apply obj_get_assign_property_eq.
    + destruct (obj_get k source); [reflexivity|].
      now apply obj_get_assign_property_ne.
Qed.

Lemma obj_get_assign_proto (source target : JsObj) :
  obj_get "__proto__" target = None ->
  obj_get "__proto__" (Object_assign target source) = None.
Proof.
  unfold Object_assign. revert target.
  induction source as [|[k1 v1] source IH]; simpl; intros target Hproto.
  - exact Hproto.
  - apply IH. now apply obj_get_assign_property_proto.
Qed.

Lemma includes_In (c : ascii) (s : string) :
  includes c s = true <-> In c (list_ascii_of_string s).
Proof.
  induction s as [|c' s IH]; simpl.
  - split; [discriminate | tauto].
  - destruct (Ascii.eqb_spec c' c) as [->|Hne].
    + split; auto.
    + rewrite IH. split; [now right | intros [H|H]; [contradiction | exact H]].
Qed.

Lemma truthy_string_nonempty (s : string) : truthy_string s = true <-> s <> "".
Proof.
  unfold truthy_string.
  destruct (String.eqb_spec s "") as [->|Hne]; simpl; split; congruence.
Qed.

(** ** Running the facade *)

Ltac run :=
  cbv beta iota delta
    [bind try_catch ret throw get_this axios_request axios_get axios_post
     axios_put handleError];
  cbn [fst snd jiraClient issued].

Ltac settle :=
  match goal with
  | |- context [match ?jira ?T ?p ?h ?r with Fulfilled _ => _ | Rejected _ => _ end] =>
      let E := fresh "Settle" in
      destruct (jira T p h r) as [?data|?reason] eqn:E
  end.

(** What [searchIssues] puts on the wire. *)
Lemma searchIssues_issued (jira : Remote) jql maxResults nextPageToken fields s :
  issued (snd (searchIssues jira jql maxResults nextPageToken fields s))
  = (issued s
     ++ [request_of (JiraClient.client (jiraClient s)) GET "/search/jql"
           (search_params jql
              (match maxResults with Some n => n | None => 50%Z end)
              nextPageToken fields)
           None])%list.
Proof.
  unfold searchIssues. run. settle; run.
  - reflexivity.
  - destruct reason as [m|m [[st [d|]]|]|v]; reflexivity.
Qed.

Lemma handleSearchIssues_run (jira : Remote) (args : SearchIssuesArgs.t) s :
  handleSearchIssues jira args s
  = match searchIssues jira (SearchIssuesArgs.jql args)
            (SearchIssuesArgs.maxResults args)
            (SearchIssuesArgs.nextPageToken args)
            (SearchIssuesArgs.fields args) s with
    | (Normal result, s') => (Normal (text_result (search_response result)), s')
    | (Abrupt e, s') => (Abrupt e, s')
    end.
Proof. reflexivity. Qed.

Lemma search_params_fields jql maxResults nextPageToken fields :
  obj_get "fields" (search_params jql maxResults nextPageToken fields)
  = Some (JsString
            match fields with
            | Some (f :: l) => join "," (f :: l)
            | _ => default_search_fields
            end).
Proof.
  unfold search_params.
  destruct fields as [[|f fs]|]; apply obj_get_set_eq.
Qed.

(** ** Search: pagination signal and field list *)

(** C1 (amended): the handler returns the projection [search_response] of the
    facade result; in it, a non-empty continuation token is carried over with
    [hasMoreResults] true; with no token, or an empty one, a defined
    is-last-page boolean is carried over with [hasMoreResults] its negation;
    with neither, the response has no pagination property at all. *)
Theorem search_pagination_policy (jira : Remote) (args : SearchIssuesArgs.t)
    (s : Process) (result : JiraSearchResult.t) :
  handleSearchIssues jira args s
  = match searchIssues jira (SearchIssuesArgs.jql args)
            (SearchIssuesArgs.maxResults args)
            (SearchIssuesArgs.nextPageToken args)
            (SearchIssuesArgs.fields args) s with
    | (Normal result, s') => (Normal (text_result (search_response result)), s')
    | (Abrupt e, s') => (Abrupt e, s')
    end
  /\ pagination_signal (search_response result)
     = let fallback :=
         match JiraSearchResult.isLast result with
         | Some isLast => (None, Some (JsBool isLast), Some (JsBool (negb isLast)))
         | None => (None, None, None)
         end in
       match JiraSearchResult.nextPageToken result with
       | Some token =>
           if token =? "" then fallback
           else (Some (JsString token), None, Some (JsBool true))
       | None => fallback
       end.
Proof.
  split; [apply handleSearchIssues_run|].
  destruct result as [issues [total|] [token|] [isLast|]];
    unfold search_response, truthy_string;
    cbn [JiraSearchResult.issues JiraSearchResult.total
         JiraSearchResult.nextPageToken JiraSearchResult.isLast];
    try destruct (token =? ""); reflexivity.
Qed.

(** C1, counterexample: a result whose continuation token is the empty string
    and whose is-last-page boolean is absent.  The token is not carried over
    and [hasMoreResults] is not reported. *)
Lemma empty_token_not_reported :
  let page := {| JiraSearchResult.issues := [];
                 JiraSearchResult.total := None;
                 JiraSearchResult.nextPageToken := Some "";
                 JiraSearchResult.isLast := None |} in
  let args := {| SearchIssuesArgs.jql := "project = PROJ";
                 SearchIssuesArgs.maxResults := None;
                 SearchIssuesArgs.nextPageToken := None;
                 SearchIssuesArgs.fields := None |} in
  ~ (forall result token,
        JiraSearchResult.nextPageToken result = Some token ->
        obj_get "nextPageToken" (search_response result) = Some (JsString token)
        /\ obj_get "hasMoreResults" (search_response result) = Some (JsBool true))
  /\ JiraSearchResult.nextPageToken page = Some ""
  /\ pagination_signal (search_response page) = (None, None, None)
  /\ fst (handleSearchIssues (Sample.paging page) args Sample.boot)
     = Normal (text_result [("issueCount", JsNumber 0); ("issues", JsArray [])]).
Proof.
  intros page args. repeat split.
  intros Hclaim. destruct (Hclaim page "" eq_refl) as [Htoken _].
  discriminate Htoken.
Qed.

(** C8: a search whose field list is omitted or empty asks for the ten
    default fields; a non-empty list is sent as it is, joined by commas.  Both
    through the facade method and through the handler, whatever the outcome of
    the call. *)
Theorem search_field_list (jira : Remote) (jql : string) (maxResults : option Z)
    (nextPageToken : option string) (fields : option (list string))
    (s : Process) :
  let sent :=
    JsString
      match fields with
      | Some (f :: l) => join "," (f :: l)
      | _ => join "," ["key"; "summary"; "status"; "issuetype"; "assignee";
                       "reporter"; "created"; "updated"; "priority"; "project"]
      end in
  let args := {| SearchIssuesArgs.jql := jql;
                 SearchIssuesArgs.maxResults := maxResults;
                 SearchIssuesArgs.nextPageToken := nextPageToken;
                 SearchIssuesArgs.fields := fields |} in
  exists query,
    obj_get "fields" query = Some sent
    /\ issued (snd (searchIssues jira jql maxResults nextPageToken fields s))
       = (issued s
          ++ [request_of (JiraClient.client (jiraClient s)) GET "/search/jql"
                query None])%list
    /\ issued (snd (handleSearchIssues jira args s))
       = (issued s
          ++ [request_of (JiraClient.client (jiraClient s)) GET "/search/jql"
                query None])%list.
Proof.
  intros sent args.
  exists (search_params jql
            (match maxResults with Some n => n | None => 50%Z end)
            nextPageToken fields).
  split; [|split].
  - rewrite search_params_fields. subst sent. now destruct fields as [[|f fs]|].
  - apply searchIssues_issued.
  - rewrite handleSearchIssues_run. subst args. cbn [SearchIssuesArgs.jql
      SearchIssuesArgs.maxResults SearchIssuesArgs.nextPageToken
      SearchIssuesArgs.fields].
    rewrite <- (searchIssues_issued jira jql maxResults nextPageToken fields s).
    now destruct (searchIssues jira jql maxResults nextPageToken fields s) as [[r|e] s'].
Qed.

(** ** Issue creation *)

Lemma getIssue_issued (jira : Remote) issueKey fields s :
  issued (snd (getIssue jira issueKey fields s))
  = (issued s
     ++ [request_of (JiraClient.client (jiraClient s)) GET ("/issue/" ++ issueKey)
           (match fields with
            | Some fields => [("fields", JsString (join "," fields))]
            | None => []
            end)
           None])%list.
Proof.
  unfold getIssue. run. settle; run.
  - reflexivity.
  - destruct reason as [m|m [[st [d|]]|]|v]; reflexivity.
Qed.

(** The calls of [createIssue]: the create call, then, if it is fulfilled, the
    fetch of the created key. *)
Lemma createIssue_issued (jira : Remote) (request : JiraCreateIssueRequest) s :
  let post := request_of (JiraClient.client (jiraClient s)) POST "/issue" []
                (Some (JsObject request)) in
  issued (snd (createIssue jira request s))
  = (issued s
     ++ post
     :: match jira _ CreatedIssueP (issued s) post with
        | Fulfilled created =>
            [request_of (JiraClient.client (jiraClient s)) GET
               ("/issue/" ++ CreatedIssue.key created) [] None]
        | Rejected _ => []
        end)%list.
Proof.
  intros post. unfold createIssue. run. fold post. settle.
  - pose proof (getIssue_issued jira (CreatedIssue.key data0) None
                  {| jiraClient := jiraClient s; issued := (issued s ++ [post])%list |})
      as Hget.
    cbn [jiraClient issued] in Hget.
    destruct (getIssue jira (CreatedIssue.key data0) None _) as [[issue|e] s'];
      cbn [snd] in Hget |- *.
    + rewrite Hget, <- app_assoc. reflexivity.
    + destruct e as [m|m [[st [d|]]|]|v]; run;
        rewrite Hget, <- app_assoc; reflexivity.
  - destruct reason as [m|m [[st [d|]]|]|v]; reflexivity.
Qed.

Lemma handleCreateIssue_run (jira : Remote) (args : CreateIssueArgs.t) s :
  handleCreateIssue jira args s
  = match createIssue jira (create_issue_request args) s with
    | (Normal issue, s') => (Normal (text_result (create_issue_response issue)), s')
    | (Abrupt e, s') => (Abrupt e, s')
    end.
Proof. reflexivity. Qed.

Lemma handleCreateIssue_issued (jira : Remote) (args : CreateIssueArgs.t) s :
  exists rest,
    issued (snd (handleCreateIssue jira args s))
    = (issued s
       ++ request_of (JiraClient.client (jiraClient s)) POST "/issue" []
            (Some (JsObject (create_issue_request args)))
       :: rest)%list.
Proof.
  rewrite handleCreateIssue_run.
  pose proof (createIssue_issued jira (create_issue_request args) s) as H.
  cbv zeta in H.
  destruct (createIssue jira (create_issue_request args) s) as [[issue|e] s'];
    cbn [snd] in H |- *; rewrite H; eexists; reflexivity.
Qed.

Lemma obj_get_assign_absent (k : string) (source : JsObj) :
  obj_get k source = None ->
  forall target, obj_get k (Object_assign target source) = obj_get k target.
Proof.
  unfold Object_assign.
  induction source as [|[k1 v1] source IH]; simpl; intros Hk target.
  - reflexivity.
  - destruct (String.eqb_spec k k1) as [->|Hne]; [discriminate|].
    rewrite (IH Hk). now apply obj_get_assign_property_ne.
Qed.

(** The built-in fields carry the assignee whenever the argument is a
    non-empty string. *)
Lemma create_issue_fields_assignee (args : CreateIssueArgs.t) (assignee : string) :
  CreateIssueArgs.assignee args = Some assignee ->
  assignee <> "" ->
  obj_get "assignee" (create_issue_fields args) = Some (assignee_field assignee).
Proof.
  intros Ha Hne. apply truthy_string_nonempty in Hne.
  unfold create_issue_fields. rewrite Ha, Hne.
  destruct (CreateIssueArgs.labels args) as [[|l ls]|];
    destruct (CreateIssueArgs.components args) as [[|c cs]|];
    rewrite !obj_get_set; reflexivity.
Qed.

Lemma create_issue_fields_project (args : CreateIssueArgs.t) :
  obj_get "project" (create_issue_fields args)
  = Some (JsObject [("key", JsString (CreateIssueArgs.projectKey args))])
  /\ obj_get "summary" (create_issue_fields args)
     = Some (JsString (CreateIssueArgs.summary args)).
Proof.
  unfold create_issue_fields.
  destruct (CreateIssueArgs.description args) as [d|]; [destruct (truthy_string d)|];
    (destruct (CreateIssueArgs.priority args) as [p|]; [destruct (truthy_string p)|]);
    (destruct (CreateIssueArgs.assignee args) as [a|]; [destruct (truthy_string a)|]);
    destruct (CreateIssueArgs.labels args) as [[|l ls]|];
    destruct (CreateIssueArgs.components args) as [[|c cs]|];
    split; reflexivity.
Qed.

(** None of the built-in fields is named [__proto__]. *)
Lemma create_issue_fields_no_proto (args : CreateIssueArgs.t) :
  obj_get "__proto__" (create_issue_fields args) = None.
Proof.
  unfold create_issue_fields.
  destruct (CreateIssueArgs.description args) as [d|]; [destruct (truthy_string d)|];
    (destruct (CreateIssueArgs.priority args) as [p|]; [destruct (truthy_string p)|]);
    (destruct (CreateIssueArgs.assignee args) as [a|]; [destruct (truthy_string a)|]);
    destruct (CreateIssueArgs.labels args) as [[|l ls]|];
    destruct (CreateIssueArgs.components args) as [[|c cs]|];
    reflexivity.
Qed.

(** C10 (amended): with custom fields supplied, the body of the create call
    is the built-in fields object with the custom fields assigned over it by
    [Object.assign].  Every key of the custom fields other than [__proto__]
    has the custom value in the body, also when it is the name of a built-in
    field; every other key keeps the built-in value; and the body has no
    [__proto__] property, whatever the custom fields say. *)
Theorem custom_fields_merged_last (jira : Remote) (args : CreateIssueArgs.t)
    (customFields : JsObj) (s : Process) :
  CreateIssueArgs.customFields args = Some customFields ->
  NoDup (map fst customFields) ->
  exists fields rest,
    issued (snd (handleCreateIssue jira args s))
    = (issued s
       ++ request_of (JiraClient.client (jiraClient s)) POST "/issue" []
            (Some (JsObject [("fields", JsObject fields)]))
       :: rest)%list
    /\ fields = Object_assign (create_issue_fields args) customFields
    /\ (forall k,
          k <> "__proto__" ->
          obj_get k fields
          = match obj_get k customFields with
            | Some v => Some v
            | None => obj_get k (create_issue_fields args)
            end)
    /\ obj_get "__proto__" fields = None.
Proof.
  intros Hcf Hnd.
  destruct (handleCreateIssue_issued jira args s) as [rest Hrest].
  exists (Object_assign (create_issue_fields args) customFields), rest.
  split; [|split; [|split]].
  - rewrite Hrest. unfold create_issue_request. now rewrite Hcf.
  - reflexivity.
  - intros k Hk. now apply obj_get_assign.
  - apply obj_get_assign_proto. apply create_issue_fields_no_proto.
Qed.

Lemma custom_fields_merged_last_witness :
  exists fields rest,
    issued (snd (handleCreateIssue Sample.echo
                   (Sample.create_args None (Some Sample.custom)) Sample.boot))
    = request_of (JiraClient.client (jiraClient Sample.boot)) POST "/issue" []
        (Some (JsObject [("fields", JsObject fields)]))
      :: rest
    /\ obj_get "summary" fields = Some (JsString "Other")
    /\ obj_get "issuetype" fields = Some (JsObject [("name", JsString "Task")]).
Proof.
  assert (Hnd : NoDup (map fst Sample.custom)).
  { repeat constructor; simpl; intuition discriminate. }
  destruct (custom_fields_merged_last Sample.echo
              (Sample.create_args None (Some Sample.custom)) Sample.custom
              Sample.boot eq_refl Hnd) as (fields & rest & Hsent & _ & Hget & _).
  exists fields, rest. split; [exact Hsent|].
  split; (rewrite Hget; [reflexivity | discriminate]).
Defined.

(** C10, counterexample: a custom field named [__proto__].  It is not merged
    into the body: the fields sent are the built-in ones, and the [summary]
    inside the [__proto__] entry is not sent either. *)
Lemma proto_entry_is_not_merged :
  let customFields := [("__proto__", JsObject [("summary", JsString "Other")])] in
  let args := Sample.create_args None (Some customFields) in
  ~ (forall k v,
        obj_get k customFields = Some v ->
        obj_get k (Sample.sent_fields args) = Some v)
  /\ Sample.sent_fields args
     = [("project", JsObject [("key", JsString "PROJ")]);
        ("summary", JsString "Wanted");
        ("issuetype", JsObject [("name", JsString "Task")]);
        ("labels", JsArray [JsString "backend"])]
  /\ issued (snd (handleCreateIssue Sample.echo args Sample.boot))
     = [request_of (JiraClient.client (jiraClient Sample.boot)) POST "/issue" []
          (Some (JsObject [("fields", JsObject (Sample.sent_fields args))]));
        request_of (JiraClient.client (jiraClient Sample.boot)) GET "/issue/PROJ-1" []
          None].
Proof.
  intros customFields args. split; [|split; reflexivity].
  intros Hclaim.
  specialize (Hclaim "__proto__" (JsObject [("summary", JsString "Other")]) eq_refl).
  discriminate Hclaim.
Qed.

(** C7 (amended): when the assignee argument is a non-empty string and the
    custom fields have no [assignee] entry, the body of the create call names
    the assignee by [accountId] if the string contains "@" or is longer than
    20 characters, and by [name] otherwise. *)
Theorem assignee_identifier (jira : Remote) (args : CreateIssueArgs.t)
    (assignee : string) (s : Process) :
  CreateIssueArgs.assignee args = Some assignee ->
  assignee <> "" ->
  match CreateIssueArgs.customFields args with
  | Some customFields => obj_get "assignee" customFields = None
  | None => True
  end ->
  exists fields rest,
    issued (snd (handleCreateIssue jira args s))
    = (issued s
       ++ request_of (JiraClient.client (jiraClient s)) POST "/issue" []
            (Some (JsObject [("fields", JsObject fields)]))
       :: rest)%list
    /\ (In "@"%char (list_ascii_of_string assignee) \/ 20 < String.length assignee ->
        obj_get "assignee" fields
        = Some (JsObject [("accountId", JsString assignee)]))
    /\ (~ (In "@"%char (list_ascii_of_string assignee) \/ 20 < String.length assignee) ->
        obj_get "assignee" fields = Some (JsObject [("name", JsString assignee)])).
Proof.
  intros Ha Hne Hcf.
  destruct (handleCreateIssue_issued jira args s) as [rest Hrest].
  pose proof (create_issue_fields_assignee args assignee Ha Hne) as Hbuilt.
  assert (Htest :
    includes "@" assignee || (20 <? String.length assignee)%nat = true
    <-> In "@"%char (list_ascii_of_string assignee) \/ 20 < String.length assignee).
  { rewrite orb_true_iff, includes_In, Nat.ltb_lt. reflexivity. }
  unfold create_issue_request in Hrest.
  destruct (CreateIssueArgs.customFields args) as [customFields|].
  - exists (Object_assign (create_issue_fields args) customFields), rest.
    split; [exact Hrest|].
    rewrite (obj_get_assign_absent _ _ Hcf), Hbuilt. unfold assignee_field.
    split; intros H.
    + apply Htest in H. now rewrite H.
    + destruct (includes "@" assignee || (20 <? String.length assignee)%nat) eqn:E;
        [exfalso; apply H, Htest; reflexivity | reflexivity].
  - exists (create_issue_fields args), rest.
    split; [exact Hrest|].
    rewrite Hbuilt. unfold assignee_field.
    split; intros H.
    + apply Htest in H. now rewrite H.
    + destruct (includes "@" assignee || (20 <? String.length assignee)%nat) eqn:E;
        [exfalso; apply H, Htest; reflexivity | reflexivity].
Qed.

Lemma assignee_identifier_witness :
  exists fields rest,
    issued (snd (handleCreateIssue Sample.echo
                   (Sample.create_args (Some "mia@example.com") None) Sample.boot))
    = request_of (JiraClient.client (jiraClient Sample.boot)) POST "/issue" []
        (Some (JsObject [("fields", JsObject fields)]))
      :: rest
    /\ obj_get "assignee" fields
       = Some (JsObject [("accountId", JsString "mia@example.com")]).
Proof.
  assert (Hne : "mia@example.com" <> "") by discriminate.
  destruct (assignee_identifier Sample.echo
              (Sample.create_args (Some "mia@example.com") None)
              "mia@example.com" Sample.boot eq_refl Hne I)
    as (fields & rest & Hsent & Haccount & _).
  exists fields, rest. split; [exact Hsent|].
  apply Haccount. left. simpl. tauto.
Defined.

(** C7, counterexamples: an empty assignee string yields no assignee field at
    all; an [assignee] entry of the custom fields replaces the field built
    from the argument. *)
Lemma assignee_dropped_or_replaced :
  ~ (forall args assignee,
        CreateIssueArgs.assignee args = Some assignee ->
        obj_get "assignee" (Sample.sent_fields args)
        = Some (JsObject [("accountId", JsString assignee)])
        \/ obj_get "assignee" (Sample.sent_fields args)
           = Some (JsObject [("name", JsString assignee)]))
  /\ obj_get "assignee" (Sample.sent_fields (Sample.create_args (Some "") None))
     = None
  /\ obj_get "assignee"
       (Sample.sent_fields
          (Sample.create_args (Some "bob") (Some [("assignee", JsNull)])))
     = Some JsNull.
Proof.
  repeat split.
  intros Hclaim.
  destruct (Hclaim (Sample.create_args (Some "") None) "" eq_refl) as [H|H];
    discriminate H.
Qed.

(** A normal completion of [createIssue]: the create call was fulfilled, and
    the issue is the body of the fetch that followed. *)
Lemma createIssue_normal (jira : Remote) (request : JiraCreateIssueRequest)
    s issue s' :
  createIssue jira request s = (Normal issue, s') ->
  let post := request_of (JiraClient.client (jiraClient s)) POST "/issue" []
                (Some (JsObject request)) in
  exists created,
    jira _ CreatedIssueP (issued s) post = Fulfilled created
    /\ jira _ IssueP (issued s ++ [post])%list
         (request_of (JiraClient.client (jiraClient s)) GET
            ("/issue/" ++ CreatedIssue.key created) [] None)
       = Fulfilled issue.
Proof.
  intros Hrun post. unfold createIssue in Hrun. revert Hrun. run. fold post.
  settle.
  - unfold getIssue. run. settle; run.
    + intros Hrun. exists data0. split; [reflexivity|]. congruence.
    + destruct reason as [m|m [[st [d|]]|]|v]; run; discriminate.
  - destruct reason as [m|m [[st [d|]]|]|v]; discriminate.
Qed.

Lemma echo_returns_what_was_posted : returns_what_was_posted Sample.echo.
Proof.
  intros history post created get issue _ Hget summary projectKey Hs Hk.
  unfold Sample.echo in Hget. rewrite last_last in Hget.
  injection Hget as <-. cbn. now rewrite Hs, Hk.
Qed.

(** C3 (amended): when the custom fields have no [summary] and no [project]
    entry, and the remote returns on the fetch what was posted, the issue
    returned by the facade has the requested project key and the requested
    summary; the handler's response reports that summary, and has no property
    for the project. *)
Theorem created_issue_matches_request (jira : Remote) (args : CreateIssueArgs.t)
    (s s' : Process) (issue : JiraIssue.t) :
  returns_what_was_posted jira ->
  match CreateIssueArgs.customFields args with
  | Some customFields =>
      obj_get "summary" customFields = None /\ obj_get "project" customFields = None
  | None => True
  end ->
  createIssue jira (create_issue_request args) s = (Normal issue, s') ->
  JiraProject.key (JiraIssueFields.project (JiraIssue.fields issue))
  = CreateIssueArgs.projectKey args
  /\ JiraIssueFields.summary (JiraIssue.fields issue) = CreateIssueArgs.summary args
  /\ exists reported,
       handleCreateIssue jira args s
       = (Normal (text_result [("success", JsBool true); ("issue", JsObject reported)]),
          s')
       /\ obj_get "summary" reported = Some (JsString (CreateIssueArgs.summary args))
       /\ map fst reported = ["key"; "id"; "self"; "summary"; "status"; "issueType"].
Proof.
  intros Hremote Hcf Hrun.
  destruct (createIssue_normal _ _ _ _ _ Hrun) as (created & Hpost & Hget).
  destruct (create_issue_fields_project args) as [Hproject Hsummary].
  assert (Hsent :
    exists fields,
      create_issue_request args = [("fields", JsObject fields)]
      /\ obj_get "project" fields
         = Some (JsObject [("key", JsString (CreateIssueArgs.projectKey args))])
      /\ obj_get "summary" fields = Some (JsString (CreateIssueArgs.summary args))).
  { unfold create_issue_request.
    destruct (CreateIssueArgs.customFields args) as [customFields|].
    - destruct Hcf as [Hs Hp]. eexists. split; [reflexivity|].
      now rewrite !obj_get_assign_absent.
    - eexists. split; [reflexivity|]. now split. }
  destruct Hsent as (fields & Hreq & Hp & Hs).
  rewrite Hreq in Hpost, Hget.
  destruct (Hremote _ _ _ _ _ Hpost Hget
              (CreateIssueArgs.summary args) (CreateIssueArgs.projectKey args))
    as [Hsum Hkey].
  - cbn. unfold prop. now rewrite Hs.
  - cbn. unfold posted_project_key, prop. now rewrite Hp.
  - split; [exact Hkey|]. split; [exact Hsum|].
    eexists. split; [|split].
    + rewrite handleCreateIssue_run, Hrun. reflexivity.
    + cbn. now rewrite Hsum.
    + reflexivity.
Qed.

Lemma created_issue_matches_request_witness :
  JiraProject.key
    (JiraIssueFields.project (JiraIssue.fields (Sample.issue "PROJ-1" "Wanted" "PROJ")))
  = "PROJ"
  /\ JiraIssueFields.summary (JiraIssue.fields (Sample.issue "PROJ-1" "Wanted" "PROJ"))
     = "Wanted".
Proof.
  pose proof (created_issue_matches_request Sample.echo
                (Sample.create_args (Some "bob")
                   (Some [("customfield_10010", JsNumber 5)]))
                Sample.boot
                (snd (createIssue Sample.echo
                        (create_issue_request
                           (Sample.create_args (Some "bob")
                              (Some [("customfield_10010", JsNumber 5)])))
                        Sample.boot))
                (Sample.issue "PROJ-1" "Wanted" "PROJ")
                echo_returns_what_was_posted (conj eq_refl eq_refl) eq_refl)
    as (Hkey & Hsummary & _).
  split; [exact Hkey | exact Hsummary].
Defined.

(** C3, counterexample: the remote returns what was posted, the typed summary
    is "Wanted", the custom fields carry the summary "Other": the issue in the
    handler's response has the summary "Other". *)
Lemma custom_summary_is_returned :
  let args := Sample.create_args None (Some Sample.custom) in
  returns_what_was_posted Sample.echo
  /\ CreateIssueArgs.summary args = "Wanted"
  /\ fst (handleCreateIssue Sample.echo args Sample.boot)
     = Normal (text_result
                 (create_issue_response (Sample.issue "PROJ-1" "Other" "PROJ")))
  /\ JiraIssueFields.summary (JiraIssue.fields (Sample.issue "PROJ-1" "Other" "PROJ"))
     <> CreateIssueArgs.summary args.
Proof.
  intros args. split; [exact echo_returns_what_was_posted|].
  split; [reflexivity|]. split; [reflexivity|]. discriminate.
Qed.

(** ** The facade: failures and call counts *)

Ltac fail_cases reason :=
  destruct reason as [?m|?m [[?st [?d|]]|]|?v].

Lemma handleError_throws {A} (reason : Thrown) (s : Process) :
  @handleError A reason s = (Abrupt (thrown_for reason), s).
Proof. fail_cases reason; reflexivity. Qed.

(** An error that went through [handleError] goes through it unchanged. *)
Lemma thrown_for_idempotent (reason : Thrown) :
  thrown_for (thrown_for reason) = thrown_for reason.
Proof. fail_cases reason; reflexivity. Qed.

(** Unfolding the monad, with [handleError] kept folded. *)
Ltac run_calls :=
  cbv beta iota delta
    [bind try_catch ret throw get_this axios_request axios_get axios_post
     axios_put];
  cbn [fst snd jiraClient issued].

(** The failures of a method made of one call: the call was rejected, and it
    is the only call issued. *)
Ltac single_call_failure :=
  let Hrun := fresh "Hrun" in
  run_calls; settle;
  [ discriminate
  | rewrite handleError_throws; intros Hrun;
    match goal with
    | Settle : ?jira ?T ?p _ ?req = Rejected ?reason |- _ =>
        exists T, p, [], req, reason;
        injection Hrun as <- <-;
        cbn [issued app]; rewrite app_nil_r;
        repeat split; [exact Settle | apply Nat.le_0_l]
    end ].

Lemma facade_failure_reason (jira : Remote) {T} (c : FacadeCall T)
    (s s' : Process) (e : Thrown) :
  invoke jira c s = (Abrupt e, s') ->
  exists T' (p : Payload T') earlier req reason,
    issued s' = (issued s ++ earlier ++ [req])%list
    /\ jira T' p (issued s ++ earlier)%list req = Rejected reason
    /\ e = thrown_for reason
    /\ length earlier <= 1.
Proof.
  destruct c; cbn [invoke];
    [ unfold searchIssues | unfold getIssue | | unfold updateIssue
    | unfold getTransitions | unfold transitionIssue | unfold getComments
    | unfold addComment ];
    try single_call_failure.
  unfold createIssue. run_calls. settle.
  - unfold getIssue. run_calls. settle; [discriminate|].
    rewrite !handleError_throws, thrown_for_idempotent. intros Hrun.
    injection Hrun as <- <-. cbn [issued].
    match goal with
    | Settle : ?jira ?T ?p (_ ++ [?post])%list ?req = Rejected ?reason |- _ =>
        exists T, p, [post], req, reason
    end.
    rewrite <- app_assoc. repeat split; [assumption | apply Nat.le_refl].
  - rewrite handleError_throws. intros Hrun. injection Hrun as <- <-.
    match goal with
    | Settle : ?jira ?T ?p _ ?req = Rejected ?reason |- _ =>
        exists T, p, [], req, reason
    end.
    cbn [issued app]. rewrite app_nil_r.
    repeat split; [assumption | apply Nat.le_0_l].
Qed.

(** The first call of a method is fixed by the method and its arguments; if
    it is rejected, the method throws for that rejection and has issued that
    call only. *)
Lemma facade_first_call_rejected {T} (c : FacadeCall T) (s : Process) :
  exists T' (p : Payload T') req,
    forall (jira : Remote) reason,
      jira T' p (issued s) req = Rejected reason ->
      invoke jira c s
      = (Abrupt (thrown_for reason),
         {| jiraClient := jiraClient s; issued := issued s ++ [req] |}).
Proof.
  destruct c; cbn [invoke];
    [ unfold searchIssues | unfold getIssue | unfold createIssue
    | unfold updateIssue | unfold getTransitions | unfold transitionIssue
    | unfold getComments | unfold addComment ];
    do 3 eexists; intros jira reason Hrejected; run_calls;
    rewrite Hrejected, handleError_throws; reflexivity.
Qed.

(** C5 (amended): a facade method whose call is rejected issues no further
    call (no retry) and throws one error for the rejection; and it fails in
    no other way: the last call it issued was rejected, and the error is the
    one for that rejection.  For an axios error with a response body the
    message is "Jira API Error (<status>): " followed by the error messages
    and the "field: message" entries of the body, joined by ", "; for an axios
    error without a response, or without a body, it is "Jira API Error: "
    followed by the axios message, with no status; any other reason is
    rethrown as it is. *)
Theorem facade_failure {T} (c : FacadeCall T) (s : Process) :
  let error_for (reason : Thrown) : Thrown :=
    match reason with
    | AxiosError message
        (Some {| ErrorResponse.status := status;
                 ErrorResponse.data := Some errorData |}) =>
        JsError
          ("Jira API Error (" ++ number_to_string status ++ "): "
           ++ join ", "
                (List.app
                   (or_empty (JiraErrorResponse.errorMessages errorData))
                   (map (fun kv => fst kv ++ ": " ++ snd kv)
                      (or_empty (JiraErrorResponse.errors errorData)))))
    | AxiosError message _ => JsError ("Jira API Error: " ++ message)
    | _ => reason
    end in
  (exists T' (p : Payload T') req,
     forall (jira : Remote) reason,
       jira T' p (issued s) req = Rejected reason ->
       invoke jira c s
       = (Abrupt (error_for reason),
          {| jiraClient := jiraClient s; issued := issued s ++ [req] |}))
  /\ forall (jira : Remote) s' e,
       invoke jira c s = (Abrupt e, s') ->
       exists T' (p : Payload T') earlier req reason,
         issued s' = (issued s ++ earlier ++ [req])%list
         /\ length earlier <= 1
         /\ jira T' p (issued s ++ earlier)%list req = Rejected reason
         /\ e = error_for reason.
Proof.
  intros error_for. split.
  - exact (facade_first_call_rejected c s).
  - intros jira s' e Hrun.
    destruct (facade_failure_reason jira c s s' e Hrun)
      as (T' & p & earlier & req & reason & Hlog & Hrej & He & Hlen).
    exists T', p, earlier, req, reason. repeat split; assumption.
Qed.

Lemma facade_failure_witness :
  fst (invoke Sample.bad_request (GetIssue "PROJ-9" None) Sample.boot)
  = Abrupt (JsError "Jira API Error (400): Issue does not exist, summary: Field required")
  /\ exists req,
       issued (snd (invoke Sample.bad_request (GetIssue "PROJ-9" None) Sample.boot))
       = [req].
Proof.
  destruct (facade_failure (GetIssue "PROJ-9" None) Sample.boot)
    as [(T' & p & req & Hfirst) Hlast].
  rewrite (Hfirst Sample.bad_request _ eq_refl).
  split; [reflexivity|].
  destruct (Hlast Sample.bad_request
              (snd (invoke Sample.bad_request (GetIssue "PROJ-9" None) Sample.boot))
              (JsError "Jira API Error (400): Issue does not exist, summary: Field required")
              eq_refl) as (_ & _ & _ & _ & _ & _ & _ & _ & _).
  exists req. reflexivity.
Defined.

(** C5, counterexample: a transport failure.  No response, hence no status:
    the message is "Jira API Error: Network Error", which is not of the form
    "Jira API Error (<status>): <messages>". *)
Lemma transport_failure_has_no_status :
  ~ (forall (jira : Remote) (c : FacadeCall JiraIssue.t) s e s',
        invoke jira c s = (Abrupt e, s') ->
        exists status messages,
          e = JsError ("Jira API Error (" ++ number_to_string status ++ "): "
                       ++ join ", " messages))
  /\ invoke Sample.network_down (GetIssue "PROJ-1" None) Sample.boot
     = (Abrupt (JsError "Jira API Error: Network Error"),
        {| jiraClient := jiraClient Sample.boot;
           issued := [request_of (JiraClient.client (jiraClient Sample.boot))
                        GET "/issue/PROJ-1" [] None] |}).
Proof.
  split; [|reflexivity].
  intros Hclaim.
  destruct (Hclaim Sample.network_down (GetIssue "PROJ-1" None) Sample.boot _ _ eq_refl)
    as (status & messages & He).
  cbn in He. congruence.
Qed.

Ltac single_call_log :=
  run; settle; run;
  [ eexists; reflexivity
  | match goal with reason : Thrown |- _ => fail_cases reason end;
    eexists; reflexivity ].

(** C6 (amended): [createIssue] issues the create call; if that call is
    fulfilled it issues the fetch of the created key and nothing else, and the
    issue it returns is the body of the fetch; if the create call is rejected
    no second call is issued.  Every other method issues exactly one call,
    whatever its outcome. *)
Theorem facade_call_count (jira : Remote) {T} (c : FacadeCall T) (s : Process) :
  match c with
  | CreateIssue request =>
      let post := request_of (JiraClient.client (jiraClient s)) POST "/issue" []
                    (Some (JsObject request)) in
      match jira _ CreatedIssueP (issued s) post with
      | Fulfilled created =>
          let get := request_of (JiraClient.client (jiraClient s)) GET
                       ("/issue/" ++ CreatedIssue.key created) [] None in
          issued (snd (createIssue jira request s)) = (issued s ++ [post; get])%list
          /\ match jira _ IssueP (issued s ++ [post])%list get with
             | Fulfilled issue => fst (createIssue jira request s) = Normal issue
             | Rejected _ => exists e, fst (createIssue jira request s) = Abrupt e
             end
      | Rejected _ =>
          issued (snd (createIssue jira request s)) = (issued s ++ [post])%list
          /\ exists e, fst (createIssue jira request s) = Abrupt e
      end
  | _ => exists req, issued (snd (invoke jira c s)) = (issued s ++ [req])%list
  end.
Proof.
  destruct c; cbn [invoke];
    [ unfold searchIssues | unfold getIssue | | unfold updateIssue
    | unfold getTransitions | unfold transitionIssue | unfold getComments
    | unfold addComment ];
    try single_call_log.
  pose proof (createIssue_issued jira request s) as Hlog. cbv zeta in Hlog |- *.
  rewrite Hlog. clear Hlog.
  unfold createIssue. run_calls. settle.
  - split; [reflexivity|].
    unfold getIssue. run_calls. settle.
    + reflexivity.
    + rewrite !handleError_throws. eexists. reflexivity.
  - split; [reflexivity|]. rewrite handleError_throws. eexists. reflexivity.
Qed.

(** C6, counterexample: the remote is unreachable; [createIssue] issues the
    create call and no fetch. *)
Lemma create_rejected_one_call :
  ~ (forall (jira : Remote) request s,
        length (issued (snd (createIssue jira request s))) = length (issued s) + 2)
  /\ issued (snd (createIssue Sample.network_down
                    (create_issue_request (Sample.create_args None None))
                    Sample.boot))
     = [request_of (JiraClient.client (jiraClient Sample.boot)) POST "/issue" []
          (Some (JsObject (create_issue_request (Sample.create_args None None))))].
Proof.
  split; [|reflexivity].
  intros Hclaim.
  specialize (Hclaim Sample.network_down
                (create_issue_request (Sample.create_args None None)) Sample.boot).
  discriminate Hclaim.
Qed.

(** ** The add-comment tool *)

Lemma addComment_issued (jira : Remote) issueKey request s :
  issued (snd (addComment jira issueKey request s))
  = (issued s
     ++ [request_of (JiraClient.client (jiraClient s)) POST
           ("/issue/" ++ issueKey ++ "/comment") [] (Some (JsObject request))])%list.
Proof.
  unfold addComment. run. settle; run.
  - reflexivity.
  - fail_cases reason; reflexivity.
Qed.

Lemma handleAddComment_issued (jira : Remote) (args : AddCommentArgs.t) s :
  issued (snd (handleAddComment jira args s))
  = (issued s
     ++ [request_of (JiraClient.client (jiraClient s)) POST
           ("/issue/" ++ AddCommentArgs.issueKey args ++ "/comment") []
           (Some (JsObject (add_comment_request args)))])%list.
Proof.
  pose proof (addComment_issued jira (AddCommentArgs.issueKey args)
                (add_comment_request args) s) as Hlog.
  unfold handleAddComment. cbv zeta. unfold bind.
  destruct (addComment jira _ _ s) as [[comment|e] s']; exact Hlog.
Qed.

(** The comment carries a visibility restriction exactly when both the type
    and a non-empty value are given. *)
Lemma add_comment_request_visibility (args : AddCommentArgs.t) :
  add_comment_request args
  = match AddCommentArgs.visibilityType args, AddCommentArgs.visibilityValue args with
    | Some t, Some v =>
        if v =? "" then [("body", JsString (AddCommentArgs.body args))]
        else [("body", JsString (AddCommentArgs.body args));
              ("visibility",
               JsObject [("type", JsString (VisibilityType_string t));
                         ("value", JsString v)])]
    | _, _ => [("body", JsString (AddCommentArgs.body args))]
    end.
Proof.
  unfold add_comment_request, truthy_string.
  destruct (AddCommentArgs.visibilityType args) as [t|];
    destruct (AddCommentArgs.visibilityValue args) as [v|]; try reflexivity.
  now destruct (v =? "").
Qed.

(** C2 (amended): raw add-comment arguments with a visibility type and no
    visibility value are accepted by [addCommentSchema]; the dispatcher runs
    the handler on them, and the handler issues the add-comment call with a
    body that has the comment text and no visibility restriction.  And for
    all arguments that the schema accepts, the one call issued carries a
    visibility restriction exactly when both a type and a value are given
    and the value is not the empty string; the restriction is then the given
    type and value. *)
Theorem visibility_type_without_value (jira : Remote) (raw : JsObj) (s : Process) :
  (forall (issueKey body : string) (t : VisibilityType),
      prop "issueKey" raw = JsString issueKey ->
      prop "body" raw = JsString body ->
      prop "visibilityType" raw = JsString (VisibilityType_string t) ->
      prop "visibilityValue" raw = JsUndefined ->
      exists run,
        addCommentSchema (JsObject raw)
        = Some {| AddCommentArgs.issueKey := issueKey;
                  AddCommentArgs.body := body;
                  AddCommentArgs.visibilityType := Some t;
                  AddCommentArgs.visibilityValue := None |}
        /\ callTool jira {| name := "jira_add_comment"; arguments := JsObject raw |}
           = Some run
        /\ issued (snd (run s))
           = (issued s
              ++ [request_of (JiraClient.client (jiraClient s)) POST
                    ("/issue/" ++ issueKey ++ "/comment") []
                    (Some (JsObject [("body", JsString body)]))])%list)
  /\ (forall args : AddCommentArgs.t,
        addCommentSchema (JsObject raw) = Some args ->
        exists run request,
          callTool jira {| name := "jira_add_comment"; arguments := JsObject raw |}
          = Some run
          /\ issued (snd (run s))
             = (issued s
                ++ [request_of (JiraClient.client (jiraClient s)) POST
                      ("/issue/" ++ AddCommentArgs.issueKey args ++ "/comment") []
                      (Some (JsObject request))])%list
          /\ obj_get "body" request = Some (JsString (AddCommentArgs.body args))
          /\ forall restriction,
               obj_get "visibility" request = Some restriction
               <-> exists t v,
                     AddCommentArgs.visibilityType args = Some t
                     /\ AddCommentArgs.visibilityValue args = Some v
                     /\ v <> ""
                     /\ restriction
                        = JsObject [("type", JsString (VisibilityType_string t));
                                    ("value", JsString v)]).
Proof.
  assert (Hruns : forall args : AddCommentArgs.t,
    addCommentSchema (JsObject raw) = Some args ->
    callTool jira {| name := "jira_add_comment"; arguments := JsObject raw |}
    = Some (try_catch (handleAddComment jira args) on_error)
    /\ issued (snd (try_catch (handleAddComment jira args) on_error s))
       = (issued s
          ++ [request_of (JiraClient.client (jiraClient s)) POST
                ("/issue/" ++ AddCommentArgs.issueKey args ++ "/comment") []
                (Some (JsObject (add_comment_request args)))])%list).
  { intros args Hschema. split.
    - unfold callTool, tool_switch. cbn [name arguments String.eqb Ascii.eqb Bool.eqb].
      unfold cast, as_AddCommentArgs. rewrite Hschema. reflexivity.
    - unfold try_catch.
      pose proof (handleAddComment_issued jira args s) as Hlog.
      destruct (handleAddComment jira args s) as [[result|e] s']; exact Hlog. }
  split.
  - intros issueKey body t Hkey Hbody Htype Hvalue.
    assert (Hschema :
      addCommentSchema (JsObject raw)
      = Some {| AddCommentArgs.issueKey := issueKey;
                AddCommentArgs.body := body;
                AddCommentArgs.visibilityType := Some t;
                AddCommentArgs.visibilityValue := None |}).
    { unfold addCommentSchema, z.field. rewrite Hkey, Hbody, Htype, Hvalue.
      now destruct t. }
    destruct (Hruns _ Hschema) as [Hcall Hlog].
    eexists. split; [exact Hschema|]. split; [exact Hcall | exact Hlog].
  - intros args Hschema. destruct (Hruns _ Hschema) as [Hcall Hlog].
    exists (try_catch (handleAddComment jira args) on_error), (add_comment_request args).
    split; [exact Hcall|]. split; [exact Hlog|].
    rewrite add_comment_request_visibility.
    destruct (AddCommentArgs.visibilityType args) as [t|];
      destruct (AddCommentArgs.visibilityValue args) as [v|];
      try destruct (String.eqb_spec v "") as [->|Hne];
      (split; [reflexivity|]); intros restriction; split;
      try (intros Hget; discriminate Hget);
      try (intros (t' & v' & Ht & Hv & Hne' & _); congruence).
    + intros Hget. injection Hget as <-. exists t, v. now repeat split.
    + intros (t' & v' & Ht & Hv & _ & ->).
      injection Ht as <-. injection Hv as <-. reflexivity.
Qed.

Lemma visibility_type_without_value_witness :
  exists run,
    callTool Sample.echo
      {| name := "jira_add_comment";
         arguments := JsObject [("issueKey", JsString "PROJ-1");
                                ("body", JsString "hello");
                                ("visibilityType", JsString "group")] |}
    = Some run
    /\ issued (snd (run Sample.boot))
       = [request_of (JiraClient.client (jiraClient Sample.boot)) POST
            "/issue/PROJ-1/comment" []
            (Some (JsObject [("body", JsString "hello")]))].
Proof.
  destruct (proj1 (visibility_type_without_value Sample.echo
                     [("issueKey", JsString "PROJ-1"); ("body", JsString "hello");
                      ("visibilityType", JsString "group")]
                     Sample.boot)
              "PROJ-1" "hello" group
              eq_refl eq_refl eq_refl eq_refl) as (run & _ & Hcall & Hlog).
  exists run. split; [exact Hcall | exact Hlog].
Defined.

(** C2, counterexample: [visibilityType] is "role", there is no
    [visibilityValue].  The schema accepts the arguments, the call is not
    rejected, and the comment is posted without a visibility restriction. *)
Lemma role_without_value_is_posted :
  let raw := JsObject [("issueKey", JsString "PROJ-1"); ("body", JsString "hello");
                       ("visibilityType", JsString "role")] in
  addCommentSchema raw
  = Some {| AddCommentArgs.issueKey := "PROJ-1";
            AddCommentArgs.body := "hello";
            AddCommentArgs.visibilityType := Some role;
            AddCommentArgs.visibilityValue := None |}
  /\ match callTool Sample.echo {| name := "jira_add_comment"; arguments := raw |} with
     | Some run =>
         run Sample.boot
         = (Normal (text_result (add_comment_response "PROJ-1" Sample.comment)),
            {| jiraClient := jiraClient Sample.boot;
               issued :=
                 [request_of (JiraClient.client (jiraClient Sample.boot)) POST
                    "/issue/PROJ-1/comment" []
                    (Some (JsObject [("body", JsString "hello")]))] |})
     | None => False
     end.
Proof. split; reflexivity. Qed.

(** ** What a computation does to the process state *)

Section Frame.

Variable jira : Remote.

Lemma stateless_ret {A} (a : A) : stateless jira (ret a).
Proof.
  repeat split; cbn; try assumption.
  exists []. now rewrite app_nil_r.
Qed.

Lemma stateless_throw {A} (e : Thrown) : stateless jira (@throw A e).
Proof.
  repeat split; cbn; try assumption.
  exists []. now rewrite app_nil_r.
Qed.

Lemma stateless_get_this : stateless jira get_this.
Proof.
  repeat split; cbn; try (now f_equal); try assumption.
  exists []. now rewrite app_nil_r.
Qed.

Lemma stateless_handleError {A} (e : Thrown) : stateless jira (@handleError A e).
Proof.
  split; [|split].
  - intros s. now rewrite handleError_throws.
  - intros s. exists []. rewrite handleError_throws. cbn. now rewrite app_nil_r.
  - intros _ s1 s2 Hclient. rewrite !handleError_throws. cbn. now split.
Qed.

Lemma stateless_axios_request {T} (p : Payload T) inst m path params body :
  stateless jira (axios_request jira p inst m path params body).
Proof.
  split; [|split].
  - intros s. unfold axios_request. now destruct (jira T p _ _).
  - intros s. exists [request_of inst m path params body].
    unfold axios_request. now destruct (jira T p _ _).
  - intros Hremote s1 s2 Hclient. unfold axios_request.
    rewrite (Hremote T p (issued s1) (issued s2)).
    destruct (jira T p _ _); cbn; now split.
Qed.

Lemma stateless_bind {A B} (m : M A) (k : A -> M B) :
  stateless jira m -> (forall a, stateless jira (k a)) -> stateless jira (bind m k).
Proof.
  intros (Hm1 & Hm2 & Hm3) Hk. split; [|split].
  - intros s. unfold bind. specialize (Hm1 s).
    destruct (m s) as [[a|e] s']; cbn in *; [|exact Hm1].
    destruct (Hk a) as (Hk1 & _). now rewrite Hk1.
  - intros s. unfold bind. destruct (Hm2 s) as [calls Hcalls].
    destruct (m s) as [[a|e] s']; cbn in *; [|now exists calls].
    destruct (Hk a) as (_ & Hk2 & _). destruct (Hk2 s') as [calls' Hcalls'].
    exists (calls ++ calls')%list. now rewrite Hcalls', Hcalls, app_assoc.
  - intros Hremote s1 s2 Hclient. unfold bind.
    destruct (Hm3 Hremote s1 s2 Hclient) as [Hfst Hsnd].
    destruct (m s1) as [[a1|e1] s1'], (m s2) as [[a2|e2] s2']; cbn in *;
      try discriminate.
    + injection Hfst as ->. destruct (Hk a2) as (_ & _ & Hk3).
      now apply Hk3.
    + injection Hfst as ->. now split.
Qed.

Lemma stateless_try_catch {A} (m : M A) (h : Thrown -> M A) :
  stateless jira m -> (forall e, stateless jira (h e)) -> stateless jira (try_catch m h).
Proof.
  intros (Hm1 & Hm2 & Hm3) Hh. split; [|split].
  - intros s. unfold try_catch. specialize (Hm1 s).
    destruct (m s) as [[a|e] s']; cbn in *; [exact Hm1|].
    destruct (Hh e) as (Hh1 & _). now rewrite Hh1.
  - intros s. unfold try_catch. destruct (Hm2 s) as [calls Hcalls].
    destruct (m s) as [[a|e] s']; cbn in *; [now exists calls|].
    destruct (Hh e) as (_ & Hh2 & _). destruct (Hh2 s') as [calls' Hcalls'].
    exists (calls ++ calls')%list. now rewrite Hcalls', Hcalls, app_assoc.
  - intros Hremote s1 s2 Hclient. unfold try_catch.
    destruct (Hm3 Hremote s1 s2 Hclient) as [Hfst Hsnd].
    destruct (m s1) as [[a1|e1] s1'], (m s2) as [[a2|e2] s2']; cbn in *;
      try discriminate.
    + now split.
    + injection Hfst as ->. destruct (Hh e2) as (_ & _ & Hh3).
      now apply Hh3.
Qed.

Create HintDb stateless discriminated.

#[local] Hint Resolve stateless_ret stateless_throw stateless_get_this
  stateless_handleError stateless_axios_request : stateless.

Ltac stateless_steps :=
  cbv zeta;
  repeat (first [apply stateless_try_catch | apply stateless_bind]; [|intro]);
  unfold axios_get, axios_post, axios_put, on_error;
  auto with stateless.

Lemma stateless_invoke {T} (c : FacadeCall T) : stateless jira (invoke jira c).
Proof.
  destruct c; cbn [invoke];
    [ unfold searchIssues | unfold getIssue | unfold createIssue, getIssue
    | unfold updateIssue | unfold getTransitions | unfold transitionIssue
    | unfold getComments | unfold addComment ];
    stateless_steps.
Qed.

Lemma stateless_tool_switch (name : string) (args : JsValue) (body : M CallToolResult) :
  tool_switch jira name args = Some body -> stateless jira body.
Proof.
  unfold tool_switch, cast.
  repeat match goal with
         | |- context [if ?b then _ else _] => destruct b
         | |- context [match ?shape args with Some _ => _ | None => _ end] =>
             destruct (shape args) as [a|]; [|discriminate]
         end;
    intros Hbody; injection Hbody as <-;
    [ unfold handleSearchIssues | unfold handleGetIssue | unfold handleCreateIssue
    | unfold handleUpdateIssue | unfold handleGetTransitions
    | unfold handleTransitionIssue | unfold handleGetComments
    | unfold handleAddComment | ];
    cbv zeta;
    repeat (apply stateless_bind; [|intro]);
    try match goal with
        | |- stateless jira (searchIssues _ ?a ?b ?c ?d) =>
            exact (stateless_invoke (SearchIssues a b c d))
        | |- stateless jira (getIssue _ ?a ?b) => exact (stateless_invoke (GetIssue a b))
        | |- stateless jira (createIssue _ ?a) => exact (stateless_invoke (CreateIssue a))
        | |- stateless jira (updateIssue _ ?a ?b) =>
            exact (stateless_invoke (UpdateIssue a b))
        | |- stateless jira (getTransitions _ ?a) =>
            exact (stateless_invoke (GetTransitions a))
        | |- stateless jira (transitionIssue _ ?a ?b) =>
            exact (stateless_invoke (TransitionIssue a b))
        | |- stateless jira (getComments _ ?a) => exact (stateless_invoke (GetComments a))
        | |- stateless jira (addComment _ ?a ?b) =>
            exact (stateless_invoke (AddComment a b))
        end;
    auto with stateless.
Qed.

Lemma stateless_callTool (request : CallToolParams) (run : M CallToolResult) :
  callTool jira request = Some run -> stateless jira run.
Proof.
  unfold callTool.
  destruct (tool_switch jira (name request) (arguments request)) as [body|] eqn:Hbody;
    [|discriminate].
  intros Hrun. injection Hrun as <-.
  apply stateless_try_catch.
  - exact (stateless_tool_switch _ _ _ Hbody).
  - intros e. unfold on_error. auto with stateless.
Qed.

End Frame.

(** ** The dispatcher *)

(** The [switch] is a lookup of the name in the table of the eight tools. *)
Lemma tool_switch_table (jira : Remote) (name : string) (args : JsValue) :
  tool_switch jira name args
  = match lookup_handler name (handler_table jira) with
    | Some handler => handler args
    | None => Some (throw (JsError ("Unknown tool: " ++ name)))
    end.
Proof.
  unfold tool_switch, handler_table. cbn [lookup_handler].
  repeat match goal with
         | |- context [if ?b then _ else _] => destruct b; [reflexivity|]
         end.
  reflexivity.
Qed.

Lemma lookup_handler_registered (jira : Remote) (name : string) :
  registered name
  = match lookup_handler name (handler_table jira) with
    | Some _ => true
    | None => false
    end.
Proof.
  unfold registered, tool_names, handler_table. cbn [existsb lookup_handler].
  repeat match goal with
         | |- context [if ?b then _ else _] => destruct b; [reflexivity|]
         end.
  reflexivity.
Qed.

(** Whatever the [try] block does, the dispatcher's [catch] clause leaves no
    abrupt completion. *)
Lemma catch_clause_total (body : M CallToolResult) (s : Process) :
  exists result s', try_catch body on_error s = (Normal result, s').
Proof.
  unfold try_catch, on_error, ret.
  destruct (body s) as [[result|error] s']; eauto.
Qed.

(** The [switch] of the dispatcher is a lookup of the name among its cases. *)
Lemma untyped_tool_switch_table (jira : Remote) (engine : Engine.t)
    (name : string) (args : JsValue) :
  Untyped.tool_switch jira engine name args
  = match lookup_handler name (Untyped.handler_table jira engine) with
    | Some handler => handler args
    | None => throw (JsError ("Unknown tool: " ++ name))
    end.
Proof.
  unfold Untyped.tool_switch, Untyped.handler_table. cbn [lookup_handler].
  repeat match goal with
         | |- context [if ?b then _ else _] => destruct b; [reflexivity|]
         end.
  reflexivity.
Qed.

Lemma untyped_lookup_registered (jira : Remote) (engine : Engine.t) (name : string) :
  registered name
  = match lookup_handler name (Untyped.handler_table jira engine) with
    | Some _ => true
    | None => false
    end.
Proof.
  unfold registered, tool_names, Untyped.handler_table. cbn [existsb lookup_handler].
  repeat match goal with
         | |- context [if ?b then _ else _] => destruct b; [reflexivity|]
         end.
  reflexivity.
Qed.

(** C4: on every request, whatever its arguments, the dispatcher looks the
    handler up by the tool name.  For a name that is not registered the
    outcome is the error envelope with the message "Unknown tool: <name>",
    and no call has been issued.  For a registered name the handler is run on
    the arguments as they are; its result is returned as it is, and anything
    thrown in the call chain, a [TypeError] on ill-formed arguments included,
    becomes the error envelope: [isError] true, and as text the JSON object
    with [error] true and the message.  In every case the dispatcher
    completes normally, as its [catch] clause does around any [try] block at
    all. *)
Theorem dispatcher_contract (jira : Remote) (engine : Engine.t)
    (request : CallToolParams) (s : Process) :
  let envelope (message : string) : CallToolResult :=
    {| content :=
         [{| type := "text";
             text := JSON_stringify [("error", JsBool true);
                                     ("message", JsString message)] |}];
       isError := Some true |} in
  let run := Untyped.callTool jira engine request in
  (exists result s', run s = (Normal result, s'))
  /\ (forall (body : M CallToolResult) s0,
        exists result s', try_catch body on_error s0 = (Normal result, s'))
  /\ match lookup_handler (name request) (Untyped.handler_table jira engine) with
     | Some handler =>
         registered (name request) = true
         /\ run s
            = match handler (arguments request) s with
              | (Normal result, s') => (Normal result, s')
              | (Abrupt error, s') =>
                  (Normal (envelope
                             match error with
                             | JsError message => message
                             | AxiosError message _ => message
                             | JsThrown v => js_String v
                             end),
                   s')
              end
     | None =>
         registered (name request) = false
         /\ run s = (Normal (envelope ("Unknown tool: " ++ name request)), s)
     end.
Proof.
  intros envelope run. subst run. unfold Untyped.callTool.
  split; [apply catch_clause_total | split; [apply catch_clause_total|]].
  rewrite untyped_tool_switch_table, (untyped_lookup_registered jira engine).
  destruct (lookup_handler (name request) (Untyped.handler_table jira engine))
    as [handler|].
  - split; [reflexivity|]. unfold try_catch.
    destruct (handler (arguments request) s) as [[result|error] s']; reflexivity.
  - split; reflexivity.
Qed.

(** C9: no operation changes the [jiraClient] object: not a facade method,
    not a tool call, whose only trace in the process is the calls it appended
    to the log.  So a tool call finds the object as an earlier call found it
    and, the answers of the remote being the same, has the outcome it would
    have had without the earlier call. *)
Theorem no_state_between_calls (jira : Remote)
    (request1 request2 : CallToolParams) (run1 run2 : M CallToolResult)
    (s : Process) :
  callTool jira request1 = Some run1 ->
  callTool jira request2 = Some run2 ->
  (forall T (c : FacadeCall T) s0, jiraClient (snd (invoke jira c s0)) = jiraClient s0)
  /\ jiraClient (snd (run1 s)) = jiraClient s
  /\ (exists calls, issued (snd (run1 s)) = (issued s ++ calls)%list)
  /\ jiraClient (snd (run2 (snd (run1 s)))) = jiraClient s
  /\ (history_insensitive jira -> fst (run2 (snd (run1 s))) = fst (run2 s)).
Proof.
  intros Hrun1 Hrun2.
  destruct (stateless_callTool jira _ _ Hrun1) as (Hclient1 & Hlog1 & _).
  destruct (stateless_callTool jira _ _ Hrun2) as (Hclient2 & _ & Hindep2).
  split; [|split; [|split; [|split]]].
  - intros T c s0. destruct (stateless_invoke jira c) as (Hclient & _).
    apply Hclient.
  - apply Hclient1.
  - apply Hlog1.
  - now rewrite Hclient2, Hclient1.
  - intros Hremote. apply (Hindep2 Hremote). apply Hclient1.
Qed.

Lemma paging_history_insensitive (page : JiraSearchResult.t) :
  history_insensitive (Sample.paging page).
Proof. intros T p h1 h2 req. reflexivity. Qed.

Lemma no_state_between_calls_witness :
  let page := {| JiraSearchResult.issues := [Sample.issue "PROJ-1" "First" "PROJ"];
                 JiraSearchResult.total := Some 7%Z;
                 JiraSearchResult.nextPageToken := Some "next";
                 JiraSearchResult.isLast := None |} in
  let search :=
    try_catch
      (handleSearchIssues (Sample.paging page)
         {| SearchIssuesArgs.jql := "project = PROJ";
            SearchIssuesArgs.maxResults := Some 1%Z;
            SearchIssuesArgs.nextPageToken := None;
            SearchIssuesArgs.fields := None |})
      on_error in
  let comments :=
    try_catch
      (handleGetComments (Sample.paging page)
         {| GetCommentsArgs.issueKey := "PROJ-1" |})
      on_error in
  jiraClient (snd (comments (snd (search Sample.boot)))) = jiraClient Sample.boot
  /\ fst (comments (snd (search Sample.boot))) = fst (comments Sample.boot).
Proof.
  intros page search comments.
  destruct (no_state_between_calls (Sample.paging page)
              {| name := "jira_search";
                 arguments := JsObject [("jql", JsString "project = PROJ");
                                        ("maxResults", JsNumber 1)] |}
              {| name := "jira_get_comments";
                 arguments := JsObject [("issueKey", JsString "PROJ-1")] |}
              search comments Sample.boot eq_refl eq_refl)
    as (_ & _ & _ & Hclient & Hsame).
  split; [exact Hclient|].
  apply Hsame. apply paging_history_insensitive.
Defined.

(** * The handlers at run time *)

(** ** Arguments that conform to the input schema *)

Section Agreement.

Variable jira : Remote.
Variable engine : Engine.t.

Lemma array_of_strings (l : list JsValue) (l' : list string) :
  z.array z.string (JsArray l) = Some l' -> l = map JsString l'.
Proof.
  cbn. revert l'. induction l as [|x l IH]; intros l' H.
  - injection H as <-. reflexivity.
  - destruct x; try discriminate H.
    destruct ((fix all (l : list JsValue) : option (list string) :=
                 match l with
                 | [] => Some []
                 | x :: r =>
                     match z.string x, all r with
                     | Some a, Some r' => Some (a :: r')
                     | _, _ => None
                     end
                 end) l) as [r'|] eqn:Hr; [|discriminate H].
    cbn in H. injection H as <-. cbn. f_equal. now apply IH.
Qed.

Lemma ToString_strings (l : list string) :
  Untyped.ToString engine (JsArray (map JsString l)) = Normal (join "," l).
Proof.
  cbn [Untyped.ToString].
  assert (Hitems :
    (fix items (l : list JsValue) : Completion (list string) :=
       match l with
       | [] => Normal []
       | x :: r =>
           and_then
             match x with
             | JsUndefined | JsNull => Normal ""
             | _ => Untyped.ToString engine x
             end
             (fun first => and_then (items r) (fun rest => Normal (first :: rest)))
       end) (map JsString l) = Normal l).
  { induction l as [|x l IH]; [reflexivity|].
    cbn [map]. rewrite IH. reflexivity. }
  rewrite Hitems. reflexivity.
Qed.

Lemma shape_string (v : JsValue) (s : string) : z.string v = Some s -> v = JsString s.
Proof. destruct v; cbn; congruence. Qed.

Lemma shape_number (v : JsValue) (n : Z) : z.number v = Some n -> v = JsNumber n.
Proof. destruct v; cbn; congruence. Qed.

Lemma shape_record (v : JsValue) (o : JsObj) : z.record_any v = Some o -> v = JsObject o.
Proof. destruct v; cbn; congruence. Qed.

Lemma shape_strings (v : JsValue) (l : list string) :
  z.array z.string v = Some l -> v = JsArray (map JsString l).
Proof.
  destruct v; try discriminate. intros H. f_equal. now apply array_of_strings.
Qed.

Lemma shape_enum (v : JsValue) (t : VisibilityType) :
  z.enum_group_role v = Some t -> v = JsString (VisibilityType_string t).
Proof.
  destruct v; try discriminate. cbn.
  destruct (String.eqb_spec s "group") as [->|_]; [intros [= <-]; reflexivity|].
  destruct (String.eqb_spec s "role") as [->|_]; [intros [= <-]; reflexivity|].
  discriminate.
Qed.

Lemma shape_optional {A} (inner : Shape A) (v : JsValue) (o : option A) :
  z.optional inner v = Some o ->
  (v = JsUndefined /\ o = None) \/ (exists a, inner v = Some a /\ o = Some a /\ v <> JsUndefined).
Proof.
  unfold z.optional. destruct v; try (intros [= <-]; left; now split);
    (destruct (inner _) as [a|] eqn:E; [|discriminate]);
    intros [= <-]; right; exists a; repeat split; discriminate.
Qed.

(** Reading the shapes off an accepted arguments value. *)
Ltac accepted H o :=
  match type of H with
  | _ ?raw = Some _ =>
      destruct raw as [| | | | | |o]; try discriminate H
  end;
  cbv beta iota delta [as_SearchIssuesArgs as_GetIssueArgs as_CreateIssueArgs
                  as_UpdateIssueArgs as_GetTransitionsArgs as_TransitionIssueArgs
                  as_GetCommentsArgs as_AddCommentArgs addCommentSchema
                  opt_bind z.field] in H;
  repeat match type of H with
         | context [match ?shape (prop ?k o) with Some _ => _ | None => _ end] =>
             let E := fresh "Shape" in
             destruct (shape (prop k o)) eqn:E; [|discriminate H]
         end;
  injection H as <-;
  repeat match goal with
         | E : z.string _ = Some _ |- _ => apply shape_string in E
         | E : z.number _ = Some _ |- _ => apply shape_number in E
         | E : z.record_any _ = Some _ |- _ => apply shape_record in E
         | E : z.array z.string _ = Some _ |- _ => apply shape_strings in E
         | E : z.enum_group_role _ = Some _ |- _ => apply shape_enum in E
         | E : z.optional _ _ = Some _ |- _ =>
             apply shape_optional in E;
             destruct E as [[E ->]|(? & E & -> & _)]
         end.

Ltac run_untyped :=
  cbv beta iota zeta delta
    [Untyped.handleSearchIssues Untyped.handleGetIssue Untyped.handleCreateIssue
     Untyped.handleUpdateIssue Untyped.handleGetTransitions
     Untyped.handleTransitionIssue Untyped.handleGetComments Untyped.handleAddComment
     Untyped.member eval bind ret and_then];
  cbn [SearchIssuesArgs.jql SearchIssuesArgs.maxResults SearchIssuesArgs.nextPageToken
       SearchIssuesArgs.fields GetIssueArgs.issueKey GetIssueArgs.fields
       UpdateIssueArgs.issueKey UpdateIssueArgs.fields GetTransitionsArgs.issueKey
       TransitionIssueArgs.issueKey TransitionIssueArgs.transitionId
       TransitionIssueArgs.fields GetCommentsArgs.issueKey
       AddCommentArgs.issueKey AddCommentArgs.body AddCommentArgs.visibilityType
       AddCommentArgs.visibilityValue].

Lemma getComments_typed (issueKey : string) (s : Process) :
  Untyped.getComments jira engine (JsString issueKey) s = getComments jira issueKey s.
Proof. reflexivity. Qed.

Lemma getTransitions_typed (issueKey : string) (s : Process) :
  Untyped.getTransitions jira engine (JsString issueKey) s = getTransitions jira issueKey s.
Proof. reflexivity. Qed.

Lemma updateIssue_typed (issueKey : string) request (s : Process) :
  Untyped.updateIssue jira engine (JsString issueKey) request s
  = updateIssue jira issueKey request s.
Proof. reflexivity. Qed.

Lemma transitionIssue_typed (issueKey : string) request (s : Process) :
  Untyped.transitionIssue jira engine (JsString issueKey) request s
  = transitionIssue jira issueKey request s.
Proof. reflexivity. Qed.

Lemma addComment_typed (issueKey : string) request (s : Process) :
  Untyped.addComment jira engine (JsString issueKey) request s
  = addComment jira issueKey request s.
Proof. reflexivity. Qed.

Lemma getIssue_typed (issueKey : string) (fields : option (list string)) (s : Process) :
  Untyped.getIssue jira engine (JsString issueKey)
    match fields with
    | Some l => JsArray (map JsString l)
    | None => JsUndefined
    end s
  = getIssue jira issueKey fields s.
Proof.
  destruct fields as [l|]; [|reflexivity].
  unfold Untyped.getIssue, getIssue, Untyped.call_join. cbn [truthy].
  unfold try_catch, bind, eval. rewrite ToString_strings. reflexivity.
Qed.

Lemma createIssue_typed (request : JiraCreateIssueRequest) (s : Process) :
  Untyped.createIssue jira engine request s = createIssue jira request s.
Proof. reflexivity. Qed.

Lemma non_empty_strings (l : list string) :
  Untyped.non_empty engine (JsArray (map JsString l))
  = Normal match l with [] => false | _ :: _ => true end.
Proof.
  destruct l as [|f l]; [reflexivity|].
  unfold Untyped.non_empty. cbn [truthy length_of Untyped.greater_than length map].
  reflexivity.
Qed.

Lemma searchIssues_typed (jql : string) (maxResults : option Z)
    (nextPageToken : option string) (fields : option (list string)) (s : Process) :
  Untyped.searchIssues jira engine (JsString jql)
    match maxResults with Some n => JsNumber n | None => JsUndefined end
    match nextPageToken with Some t => JsString t | None => JsUndefined end
    match fields with Some l => JsArray (map JsString l) | None => JsUndefined end
    s
  = searchIssues jira jql maxResults nextPageToken fields s.
Proof.
  unfold Untyped.searchIssues, searchIssues, search_params.
  destruct fields as [l|].
  - unfold try_catch, bind, eval. rewrite non_empty_strings.
    destruct l as [|f l].
    + destruct maxResults as [n|], nextPageToken as [t|]; cbn [truthy];
        try destruct (truthy_string t); reflexivity.
    + unfold Untyped.call_join. rewrite ToString_strings.
      destruct maxResults as [n|], nextPageToken as [t|]; cbn [truthy];
        try destruct (truthy_string t); reflexivity.
  - destruct maxResults as [n|], nextPageToken as [t|]; cbn [truthy];
      try destruct (truthy_string t); reflexivity.
Qed.

Ltac run_typed :=
  cbv beta iota zeta delta
    [handleSearchIssues handleGetIssue handleCreateIssue handleUpdateIssue
     handleGetTransitions handleTransitionIssue handleGetComments handleAddComment];
  run_untyped;
  repeat match goal with
         | E : prop _ _ = _ |- _ => rewrite E; clear E
         end.

Lemma handleSearchIssues_typed (raw : JsValue) (args : SearchIssuesArgs.t) (s : Process) :
  as_SearchIssuesArgs raw = Some args ->
  Untyped.handleSearchIssues jira engine raw s = handleSearchIssues jira args s.
Proof.
  intros H. accepted H o; run_typed; rewrite <- searchIssues_typed; reflexivity.
Qed.

Lemma handleGetIssue_typed (raw : JsValue) (args : GetIssueArgs.t) (s : Process) :
  as_GetIssueArgs raw = Some args ->
  Untyped.handleGetIssue jira engine raw s = handleGetIssue jira args s.
Proof.
  intros H. accepted H o; run_typed; rewrite <- getIssue_typed; reflexivity.
Qed.

Lemma handleGetTransitions_typed (raw : JsValue) (args : GetTransitionsArgs.t)
    (s : Process) :
  as_GetTransitionsArgs raw = Some args ->
  Untyped.handleGetTransitions jira engine raw s = handleGetTransitions jira args s.
Proof. intros H. accepted H o; run_typed; reflexivity. Qed.

Lemma handleGetComments_typed (raw : JsValue) (args : GetCommentsArgs.t) (s : Process) :
  as_GetCommentsArgs raw = Some args ->
  Untyped.handleGetComments jira engine raw s = handleGetComments jira args s.
Proof. intros H. accepted H o; run_typed; reflexivity. Qed.

Lemma handleUpdateIssue_typed (raw : JsValue) (args : UpdateIssueArgs.t) (s : Process) :
  as_UpdateIssueArgs raw = Some args ->
  Untyped.handleUpdateIssue jira engine raw s = handleUpdateIssue jira args s.
Proof.
  intros H. accepted H o; run_typed; reflexivity.
Qed.

Lemma handleTransitionIssue_typed (raw : JsValue) (args : TransitionIssueArgs.t)
    (s : Process) :
  as_TransitionIssueArgs raw = Some args ->
  Untyped.handleTransitionIssue jira engine raw s = handleTransitionIssue jira args s.
Proof.
  intros H. accepted H o; run_typed;
    unfold Untyped.transition_request, Untyped.member, and_then;
    repeat match goal with
           | E : prop _ _ = _ |- _ => rewrite E; clear E
           end;
    reflexivity.
Qed.

Lemma handleAddComment_typed (raw : JsValue) (args : AddCommentArgs.t) (s : Process) :
  as_AddCommentArgs raw = Some args ->
  Untyped.handleAddComment jira engine raw s = handleAddComment jira args s.
Proof.
  intros H. accepted H o; run_typed;
    unfold Untyped.add_comment_request, Untyped.member, and_then;
    repeat match goal with
           | E : prop _ _ = _ |- _ => rewrite E; clear E
           end;
    unfold add_comment_request;
    cbn [AddCommentArgs.body AddCommentArgs.visibilityType
         AddCommentArgs.visibilityValue truthy andb];
    repeat match goal with
           | |- context [truthy_string (VisibilityType_string ?t)] =>
               destruct t; cbn [VisibilityType_string truthy_string String.eqb negb andb]
           | |- context [truthy_string ?x] =>
               destruct (truthy_string x); cbn [andb]
           end;
    reflexivity.
Qed.

Lemma nat_Z_ltb (n m : nat) : (Z.of_nat n <? Z.of_nat m)%Z = (n <? m)%nat.
Proof.
  destruct (Nat.ltb_spec n m) as [Hlt|Hle].
  - apply Z.ltb_lt. now apply Nat2Z.inj_lt.
  - apply Z.ltb_ge. now apply Nat2Z.inj_le.
Qed.

Lemma assignee_field_typed (assignee : string) :
  Untyped.assignee_field engine (JsString assignee) = Normal (assignee_field assignee).
Proof.
  unfold Untyped.assignee_field, assignee_field, Untyped.call_includes, and_then.
  destruct (includes "@" assignee); [reflexivity|].
  cbn [length_of Untyped.greater_than orb].
  change 20%Z with (Z.of_nat 20). rewrite nat_Z_ltb.
  now destruct (20 <? String.length assignee)%nat.
Qed.

Lemma call_map_strings (l : list string) :
  Untyped.call_map engine (JsArray (map JsString l))
  = Normal (JsArray (map (fun name => JsObject [("name", JsString name)]) l)).
Proof. unfold Untyped.call_map. now rewrite map_map. Qed.

Lemma create_issue_fields_typed (raw : JsValue) (args : CreateIssueArgs.t) :
  as_CreateIssueArgs raw = Some args ->
  exists fields,
    Untyped.create_issue_fields engine raw = Normal fields
    /\ create_issue_request args = [("fields", JsObject fields)].
Proof.
  intros H. accepted H o;
    unfold Untyped.create_issue_fields, Untyped.member, and_then;
    repeat match goal with
           | E : prop _ _ = _ |- _ => rewrite E; clear E
           end;
    unfold create_issue_request, create_issue_fields, strings;
    cbn [CreateIssueArgs.projectKey CreateIssueArgs.issueType CreateIssueArgs.summary
         CreateIssueArgs.description CreateIssueArgs.priority CreateIssueArgs.assignee
         CreateIssueArgs.labels CreateIssueArgs.components CreateIssueArgs.customFields
         truthy own_entries];
    rewrite ?non_empty_strings, ?assignee_field_typed, ?call_map_strings;
    repeat match goal with
           | |- context [truthy_string ?x] =>
               destruct (truthy_string x);
               rewrite ?non_empty_strings, ?assignee_field_typed, ?call_map_strings
           | |- context [match ?l with [] => _ | _ :: _ => _ end] =>
               destruct l;
               rewrite ?non_empty_strings, ?assignee_field_typed, ?call_map_strings
           end;
    eexists; split; reflexivity.
Qed.

Lemma handleCreateIssue_typed (raw : JsValue) (args : CreateIssueArgs.t) (s : Process) :
  as_CreateIssueArgs raw = Some args ->
  Untyped.handleCreateIssue jira engine raw s = handleCreateIssue jira args s.
Proof.
  intros H. destruct (create_issue_fields_typed raw args H) as (fields & Hraw & Htyped).
  unfold Untyped.handleCreateIssue, handleCreateIssue, bind, eval.
  rewrite Hraw, Htyped. reflexivity.
Qed.

(** The dispatcher on arguments that conform to the input schema of the tool
    named: it runs as the typed handler does. *)
Lemma callTool_typed (request : CallToolParams) (run : M CallToolResult) (s : Process) :
  callTool jira request = Some run ->
  Untyped.callTool jira engine request s = run s.
Proof.
  unfold callTool, Untyped.callTool, tool_switch, Untyped.tool_switch, cast.
  destruct (name request =? "jira_search").
  { destruct (as_SearchIssuesArgs _) eqn:E; [|discriminate]. intros [= <-].
    unfold try_catch. now rewrite (handleSearchIssues_typed _ _ _ E). }
  destruct (name request =? "jira_get_issue").
  { destruct (as_GetIssueArgs _) eqn:E; [|discriminate]. intros [= <-].
    unfold try_catch. now rewrite (handleGetIssue_typed _ _ _ E). }
  destruct (name request =? "jira_create_issue").
  { destruct (as_CreateIssueArgs _) eqn:E; [|discriminate]. intros [= <-].
    unfold try_catch. now rewrite (handleCreateIssue_typed _ _ _ E). }
  destruct (name request =? "jira_update_issue").
  { destruct (as_UpdateIssueArgs _) eqn:E; [|discriminate]. intros [= <-].
    unfold try_catch. now rewrite (handleUpdateIssue_typed _ _ _ E). }
  destruct (name request =? "jira_get_transitions").
  { destruct (as_GetTransitionsArgs _) eqn:E; [|discriminate]. intros [= <-].
    unfold try_catch. now rewrite (handleGetTransitions_typed _ _ _ E). }
  destruct (name request =? "jira_transition_issue").
  { destruct (as_TransitionIssueArgs _) eqn:E; [|discriminate]. intros [= <-].
    unfold try_catch. now rewrite (handleTransitionIssue_typed _ _ _ E). }
  destruct (name request =? "jira_get_comments").
  { destruct (as_GetCommentsArgs _) eqn:E; [|discriminate]. intros [= <-].
    unfold try_catch. now rewrite (handleGetComments_typed _ _ _ E). }
  destruct (name request =? "jira_add_comment").
  { destruct (as_AddCommentArgs _) eqn:E; [|discriminate]. intros [= <-].
    unfold try_catch. now rewrite (handleAddComment_typed _ _ _ E). }
  intros [= <-]. reflexivity.
Qed.

End Agreement.

(** ** The calls of the read handlers, on any arguments *)

Section Reads.

Variable jira : Remote.
Variable engine : Engine.t.

Lemma reads_nothing {A} (m : M A) :
  (forall s, snd (m s) = s) -> reads_at_most_once m.
Proof.
  intros Hm s. exists []. rewrite Hm, app_nil_r.
  repeat split; [apply Nat.le_0_l | constructor].
Qed.

Lemma reads_ret {A} (a : A) : reads_at_most_once (ret a).
Proof. now apply reads_nothing. Qed.

Lemma reads_eval_bind {A B} (c : Completion A) (k : A -> M B) :
  (forall a, reads_at_most_once (k a)) -> reads_at_most_once (bind (eval c) k).
Proof.
  intros Hk. destruct c as [a|e].
  - exact (Hk a).
  - now apply reads_nothing.
Qed.

Lemma reads_bind_ret {A B} (m : M A) (k : A -> B) :
  reads_at_most_once m -> reads_at_most_once (bind m (fun a => ret (k a))).
Proof.
  intros Hm s. destruct (Hm s) as (calls & Hcalls & Hbound).
  exists calls. split; [|exact Hbound].
  unfold bind, ret. now destruct (m s) as [[a|e] s'].
Qed.

Lemma reads_catch {A} (m : M A) (h : Thrown -> M A) :
  (forall e s, snd (h e s) = s) ->
  reads_at_most_once m -> reads_at_most_once (try_catch m h).
Proof.
  intros Hh Hm s. destruct (Hm s) as (calls & Hcalls & Hbound).
  exists calls. split; [|exact Hbound].
  unfold try_catch. destruct (m s) as [[a|e] s']; [exact Hcalls|].
  now rewrite Hh.
Qed.

Lemma reads_handleError {A} (m : M A) :
  reads_at_most_once m -> reads_at_most_once (try_catch m handleError).
Proof. apply reads_catch. intros e s. now rewrite handleError_throws. Qed.

Lemma reads_on_error (m : M CallToolResult) :
  reads_at_most_once m -> reads_at_most_once (try_catch m on_error).
Proof. apply reads_catch. reflexivity. Qed.

Lemma reads_get {T} (p : Payload T) (path : string) (params : JsObj) :
  reads_at_most_once
    (this <- get_this ;; axios_get jira p (JiraClient.client this) path params).
Proof.
  intros s. eexists. split; [|split].
  - unfold bind, get_this, axios_get, axios_request.
    destruct (jira T p _ _); reflexivity.
  - apply Nat.le_refl.
  - repeat constructor.
Qed.

Lemma reads_get_then {T B} (p : Payload T) (path : string) (params : JsObj)
    (k : T -> B) :
  reads_at_most_once
    (this <- get_this ;;
     response <- axios_get jira p (JiraClient.client this) path params ;;
     ret (k response)).
Proof.
  intros s. eexists. split; [|split].
  - unfold bind, get_this, axios_get, axios_request, ret.
    destruct (jira T p _ _); reflexivity.
  - apply Nat.le_refl.
  - repeat constructor.
Qed.

Ltac reads_steps :=
  repeat first
    [ apply reads_bind_ret
    | apply reads_handleError
    | apply reads_eval_bind; intro
    | apply reads_get
    | apply reads_get_then
    | apply reads_ret ].

Lemma reads_eval_ret_bind {A B C} (c : Completion A) (f : A -> B) (k : B -> M C) :
  (forall b, reads_at_most_once (k b)) ->
  reads_at_most_once (bind (bind (eval c) (fun a => ret (f a))) k).
Proof.
  intros Hk. destruct c as [a|e].
  - exact (Hk (f a)).
  - now apply reads_nothing.
Qed.

Lemma reads_ret_bind {A B} (a : A) (k : A -> M B) :
  reads_at_most_once (k a) -> reads_at_most_once (bind (ret a) k).
Proof. intros Hk. exact Hk. Qed.

Lemma reads_searchIssues jql maxResults nextPageToken fields :
  reads_at_most_once (Untyped.searchIssues jira engine jql maxResults nextPageToken fields).
Proof.
  unfold Untyped.searchIssues. cbv zeta. apply reads_handleError.
  apply reads_eval_bind. intros [|].
  - apply reads_eval_ret_bind. intro. apply reads_get.
  - apply reads_ret_bind. apply reads_get.
Qed.

Lemma reads_getIssue issueKey fields :
  reads_at_most_once (Untyped.getIssue jira engine issueKey fields).
Proof.
  unfold Untyped.getIssue. apply reads_handleError.
  destruct (truthy fields).
  - apply reads_eval_ret_bind. intro. apply reads_eval_bind. intro. apply reads_get.
  - apply reads_ret_bind. apply reads_eval_bind. intro. apply reads_get.
Qed.

Lemma reads_getTransitions issueKey :
  reads_at_most_once (Untyped.getTransitions jira engine issueKey).
Proof. unfold Untyped.getTransitions. reads_steps. Qed.

Lemma reads_getComments issueKey :
  reads_at_most_once (Untyped.getComments jira engine issueKey).
Proof. unfold Untyped.getComments. reads_steps. Qed.

Lemma reads_read_tools (name : string) (args : JsValue) :
  In name ["jira_search"; "jira_get_issue"; "jira_get_transitions"; "jira_get_comments"] ->
  reads_at_most_once (Untyped.tool_switch jira engine name args).
Proof.
  intros [<-|[<-|[<-|[<-|[]]]]]; cbn [Untyped.tool_switch String.eqb Ascii.eqb Bool.eqb].
  - unfold Untyped.handleSearchIssues.
    repeat (apply reads_eval_bind; intro). apply reads_bind_ret, reads_searchIssues.
  - unfold Untyped.handleGetIssue.
    repeat (apply reads_eval_bind; intro). apply reads_bind_ret, reads_getIssue.
  - unfold Untyped.handleGetTransitions.
    repeat (apply reads_eval_bind; intro). apply reads_bind_ret, reads_getTransitions.
  - unfold Untyped.handleGetComments.
    repeat (apply reads_eval_bind; intro). apply reads_bind_ret, reads_getComments.
Qed.

End Reads.

(** * Further properties *)

(** ** The calls a computation issues *)

Section Sends.

Variable jira : Remote.
Variable c : JiraClient.t.
Variable P : HttpRequest -> Prop.

Lemma sends_ret {A} (a : A) : sends c P (ret a).
Proof.
  intros s Hc. exists []. cbn. rewrite app_nil_r. now repeat split.
Qed.

Lemma sends_throw {A} (e : Thrown) : sends c P (@throw A e).
Proof.
  intros s Hc. exists []. cbn. rewrite app_nil_r. now repeat split.
Qed.

Lemma sends_handleError {A} (e : Thrown) : sends c P (@handleError A e).
Proof.
  intros s Hc. exists []. rewrite handleError_throws. cbn.
  rewrite app_nil_r. now repeat split.
Qed.

Lemma sends_axios_request {T} (p : Payload T) inst m path params body :
  P (request_of inst m path params body) ->
  sends c P (axios_request jira p inst m path params body).
Proof.
  intros HP s Hc. exists [request_of inst m path params body].
  unfold axios_request. destruct (jira T p _ _); cbn; repeat split; auto.
Qed.

Lemma sends_bind {A B} (m : M A) (k : A -> M B) :
  sends c P m -> (forall a, sends c P (k a)) -> sends c P (bind m k).
Proof.
  intros Hm Hk s Hc. unfold bind.
  destruct (Hm s Hc) as (calls & Hlog & Hall & Hc').
  destruct (m s) as [[a|e] s']; cbn in *.
  - destruct (Hk a s' Hc') as (calls' & Hlog' & Hall' & Hc'').
    exists (calls ++ calls')%list. rewrite Hlog', Hlog, app_assoc.
    repeat split; [now apply Forall_app | exact Hc''].
  - exists calls. now repeat split.
Qed.

(** [this] is the client the computation was started on. *)
Lemma sends_this {B} (k : JiraClient.t -> M B) :
  sends c P (k c) -> sends c P (bind get_this k).
Proof.
  intros Hk s Hc. unfold bind, get_this. rewrite Hc. now apply Hk.
Qed.

Lemma sends_try_catch {A} (m : M A) (h : Thrown -> M A) :
  sends c P m -> (forall e, sends c P (h e)) -> sends c P (try_catch m h).
Proof.
  intros Hm Hh s Hc. unfold try_catch.
  destruct (Hm s Hc) as (calls & Hlog & Hall & Hc').
  destruct (m s) as [[a|e] s']; cbn in *.
  - exists calls. now repeat split.
  - destruct (Hh e s' Hc') as (calls' & Hlog' & Hall' & Hc'').
    exists (calls ++ calls')%list. rewrite Hlog', Hlog, app_assoc.
    repeat split; [now apply Forall_app | exact Hc''].
Qed.

End Sends.

(** Reduces a goal [sends c P m] to [P] of each request [m] can issue. *)
Ltac sends_steps :=
  cbv zeta;
  repeat first
    [ apply sends_try_catch; [|intro]
    | apply sends_this
    | apply sends_bind; [|intro]
    | apply sends_ret
    | apply sends_throw
    | apply sends_handleError
    | apply sends_axios_request ].

Lemma configured_by_request (c : JiraClient.t) m path params body :
  configured_by c (request_of (JiraClient.client c) m ("/" ++ path) params body).
Proof. repeat split. now exists path. Qed.

(** Every facade method issues calls configured by the client. *)
Lemma invoke_configured (jira : Remote) (c : JiraClient.t) {T} (call : FacadeCall T) :
  sends c (configured_by c) (invoke jira call).
Proof.
  destruct call; cbn [invoke];
    [ unfold searchIssues | unfold getIssue | unfold createIssue, getIssue
    | unfold updateIssue | unfold getTransitions | unfold transitionIssue
    | unfold getComments | unfold addComment ];
    unfold axios_get, axios_post, axios_put; sends_steps;
    apply configured_by_request.
Qed.

(** A handler that only reshapes the result of a computation issues the calls
    of that computation, and fails as it does. *)
Lemma bind_ret_run {A B} (m : M A) (f : A -> B) (s : Process) :
  bind m (fun a => ret (f a)) s
  = match m s with
    | (Normal a, s') => (Normal (f a), s')
    | (Abrupt e, s') => (Abrupt e, s')
    end.
Proof. unfold bind, ret. now destruct (m s) as [[a|e] s']. Qed.

Lemma bind_ret_issued {A B} (m : M A) (f : A -> B) (s : Process) :
  issued (snd (bind m (fun a => ret (f a)) s)) = issued (snd (m s)).
Proof. rewrite bind_ret_run. now destruct (m s) as [[a|e] s']. Qed.

Lemma catch_issued (body : M CallToolResult) (s : Process) :
  issued (snd (try_catch body on_error s)) = issued (snd (body s)).
Proof. unfold try_catch, on_error, ret. now destruct (body s) as [[r|e] s']. Qed.

Lemma getTransitions_issued (jira : Remote) issueKey s :
  issued (snd (getTransitions jira issueKey s))
  = (issued s
     ++ [request_of (JiraClient.client (jiraClient s)) GET
           ("/issue/" ++ issueKey ++ "/transitions") [] None])%list.
Proof.
  unfold getTransitions. run. settle; run.
  - reflexivity.
  - fail_cases reason; reflexivity.
Qed.

Lemma getComments_issued (jira : Remote) issueKey s :
  issued (snd (getComments jira issueKey s))
  = (issued s
     ++ [request_of (JiraClient.client (jiraClient s)) GET
           ("/issue/" ++ issueKey ++ "/comment") [] None])%list.
Proof.
  unfold getComments. run. settle; run.
  - reflexivity.
  - fail_cases reason; reflexivity.
Qed.

(** The query of a search, property by property. *)
Lemma search_params_list jql maxResults nextPageToken fields :
  search_params jql maxResults nextPageToken fields
  = ([("jql", JsString jql); ("maxResults", JsNumber maxResults)]
     ++ match nextPageToken with
        | Some token => if token =? "" then [] else [("nextPageToken", JsString token)]
        | None => []
        end
     ++ [("fields",
          JsString match fields with
                   | Some (f :: l) => join "," (f :: l)
                   | _ => default_search_fields
                   end)])%list.
Proof.
  unfold search_params, truthy_string.
  destruct nextPageToken as [token|]; [destruct (token =? "")|];
    destruct fields as [[|f l]|]; reflexivity.
Qed.

(** ** The read tools *)

(** X1: [jira_get_issue] issues one call, a [GET] of the issue without a
    body.  Without a field list the call has no query parameter; with a list,
    also an empty one, it has the one parameter [fields], the list joined by
    commas: an empty list is sent as the empty string, it is not replaced by
    the default fields of a search. *)
Theorem get_issue_request (jira : Remote) (issueKey : string)
    (fields : option (list string)) (s : Process) :
  let args := {| GetIssueArgs.issueKey := issueKey; GetIssueArgs.fields := fields |} in
  issued (snd (handleGetIssue jira args s))
  = (issued s
     ++ [{| method := GET;
            url := AxiosInstance.baseURL (JiraClient.client (jiraClient s))
                   ++ "/issue/" ++ issueKey;
            headers := AxiosInstance.headers (JiraClient.client (jiraClient s));
            timeout := AxiosInstance.timeout (JiraClient.client (jiraClient s));
            params := match fields with
                      | None => []
                      | Some [] => [("fields", JsString "")]
                      | Some (f :: l) => [("fields", JsString (join "," (f :: l)))]
                      end;
            data := None |}])%list.
Proof.
  intros args. unfold handleGetIssue. rewrite bind_ret_issued, getIssue_issued.
  now destruct fields as [[|f l]|].
Qed.

(** X2: [jira_search] issues one call, a [GET] of [/search/jql] without a
    body.  Its query has the JQL text as given, the page size (50 when none is
    given), the continuation token only when one is given and is not the
    empty string, and the field list, in this order. *)
Theorem search_request (jira : Remote) (args : SearchIssuesArgs.t) (s : Process) :
  issued (snd (handleSearchIssues jira args s))
  = (issued s
     ++ [{| method := GET;
            url := AxiosInstance.baseURL (JiraClient.client (jiraClient s))
                   ++ "/search/jql";
            headers := AxiosInstance.headers (JiraClient.client (jiraClient s));
            timeout := AxiosInstance.timeout (JiraClient.client (jiraClient s));
            params :=
              ([("jql", JsString (SearchIssuesArgs.jql args));
                ("maxResults",
                 JsNumber match SearchIssuesArgs.maxResults args with
                          | Some n => n
                          | None => 50%Z
                          end)]
               ++ match SearchIssuesArgs.nextPageToken args with
                  | Some token =>
                      if token =? "" then [] else [("nextPageToken", JsString token)]
                  | None => []
                  end
               ++ [("fields",
                    JsString match SearchIssuesArgs.fields args with
                             | Some (f :: l) => join "," (f :: l)
                             | _ => default_search_fields
                             end)])%list;
            data := None |}])%list.
Proof.
  unfold handleSearchIssues. rewrite bind_ret_issued, searchIssues_issued.
  now rewrite search_params_list.
Qed.

(** X3: a continuation token that a search response reports is the token of
    the facade result and is not empty; given back as [nextPageToken], it is
    sent in the query of the next search as it is.  And a response reports
    [hasMoreResults] true only with such a token, or with [isLast] false. *)
Theorem reported_token_is_sent_back (result : JiraSearchResult.t) :
  (forall reported,
      obj_get "nextPageToken" (search_response result) = Some reported ->
      exists token,
        reported = JsString token
        /\ token <> ""
        /\ JiraSearchResult.nextPageToken result = Some token
        /\ forall jql maxResults fields,
             obj_get "nextPageToken"
               (search_params jql maxResults (Some token) fields)
             = Some (JsString token))
  /\ (obj_get "hasMoreResults" (search_response result) = Some (JsBool true) ->
      (exists reported,
          obj_get "nextPageToken" (search_response result) = Some reported)
      \/ obj_get "isLast" (search_response result) = Some (JsBool false)).
Proof.
  destruct result as [issues [total|] [token|] [isLast|]];
    unfold search_response, truthy_string;
    cbn [JiraSearchResult.issues JiraSearchResult.total
         JiraSearchResult.nextPageToken JiraSearchResult.isLast];
    try (destruct (String.eqb_spec token "") as [->|Hne]); cbn [negb];
    (split; [intros reported Hreported | intros Hmore]);
    try discriminate Hreported; try discriminate Hmore;
    try (destruct isLast; try discriminate Hmore; right; reflexivity);
    try (left; eexists; reflexivity).
  all: injection Hreported as <-; exists token;
    repeat split; try assumption;
    intros jql maxResults fields; rewrite search_params_list;
    apply String.eqb_neq in Hne; rewrite Hne;
    destruct fields as [[|f l]|]; reflexivity.
Qed.

Lemma reported_token_is_sent_back_witness :
  exists token,
    JsString "page-2" = JsString token
    /\ token <> ""
    /\ forall jql maxResults fields,
         obj_get "nextPageToken" (search_params jql maxResults (Some token) fields)
         = Some (JsString token).
Proof.
  destruct (proj1 (reported_token_is_sent_back
                     {| JiraSearchResult.issues := [];
                        JiraSearchResult.total := None;
                        JiraSearchResult.nextPageToken := Some "page-2";
                        JiraSearchResult.isLast := None |})
              (JsString "page-2") eq_refl)
    as (token & Hreported & Hne & _ & Hsent).
  exists token. repeat split; assumption.
Defined.

(** ** The tools that change an issue *)

(** X4: [jira_update_issue] issues a [PUT] of the issue with the body
    [{fields: <the given fields>}].  If the call is rejected nothing else is
    issued and the handler throws for that rejection.  If it is fulfilled the
    issue is fetched with a [GET], and the response is built from the fetched
    issue; if that fetch is rejected the handler throws, the update having
    been made. *)
Theorem update_then_fetch (jira : Remote) (args : UpdateIssueArgs.t) (s : Process) :
  let issueKey := UpdateIssueArgs.issueKey args in
  let put := request_of (JiraClient.client (jiraClient s)) PUT ("/issue/" ++ issueKey) []
               (Some (JsObject [("fields", JsObject (UpdateIssueArgs.fields args))])) in
  let get := request_of (JiraClient.client (jiraClient s)) GET ("/issue/" ++ issueKey) []
               None in
  handleUpdateIssue jira args s
  = match jira _ AnyP (issued s) put with
    | Rejected reason =>
        (Abrupt (thrown_for reason),
         {| jiraClient := jiraClient s; issued := issued s ++ [put] |})
    | Fulfilled _ =>
        (match jira _ IssueP (issued s ++ [put])%list get with
         | Fulfilled updatedIssue =>
             Normal (text_result (update_issue_response issueKey updatedIssue))
         | Rejected reason => Abrupt (thrown_for reason)
         end,
         {| jiraClient := jiraClient s; issued := issued s ++ [put; get] |})
    end.
Proof.
  intros issueKey put get.
  unfold handleUpdateIssue, updateIssue, getIssue. run_calls.
  fold issueKey. fold put. settle.
  - settle; cbn [jiraClient issued] in *; unfold get;
      match goal with H : jira _ IssueP _ _ = _ |- _ => rewrite H end;
      rewrite ?handleError_throws, <- app_assoc; reflexivity.
  - now rewrite handleError_throws.
Qed.

(** X5: [jira_transition_issue] issues a [POST] to the transitions of the
    issue with the body [{transition: {id}}], to which [fields] is added
    exactly when fields are given.  If the call is rejected nothing else is
    issued; if it is fulfilled the issue is fetched with a [GET] and the
    response is built from the fetched issue. *)
Theorem transition_then_fetch (jira : Remote) (args : TransitionIssueArgs.t)
    (s : Process) :
  let issueKey := TransitionIssueArgs.issueKey args in
  let body :=
    ([("transition",
       JsObject [("id", JsString (TransitionIssueArgs.transitionId args))])]
     ++ match TransitionIssueArgs.fields args with
        | Some fields => [("fields", JsObject fields)]
        | None => []
        end)%list in
  let post := request_of (JiraClient.client (jiraClient s)) POST
                ("/issue/" ++ issueKey ++ "/transitions") []
                (Some (JsObject body)) in
  let get := request_of (JiraClient.client (jiraClient s)) GET ("/issue/" ++ issueKey) []
               None in
  handleTransitionIssue jira args s
  = match jira _ AnyP (issued s) post with
    | Rejected reason =>
        (Abrupt (thrown_for reason),
         {| jiraClient := jiraClient s; issued := issued s ++ [post] |})
    | Fulfilled _ =>
        (match jira _ IssueP (issued s ++ [post])%list get with
         | Fulfilled updatedIssue =>
             Normal (text_result (transition_issue_response issueKey updatedIssue))
         | Rejected reason => Abrupt (thrown_for reason)
         end,
         {| jiraClient := jiraClient s; issued := issued s ++ [post; get] |})
    end.
Proof.
  intros issueKey body post get.
  assert (Hbody : transition_request args = body).
  { unfold transition_request. subst body.
    now destruct (TransitionIssueArgs.fields args). }
  unfold handleTransitionIssue, transitionIssue, getIssue. rewrite Hbody. run_calls.
  fold issueKey. fold post. settle.
  - settle; cbn [jiraClient issued] in *; unfold get;
      match goal with H : jira _ IssueP _ _ = _ |- _ => rewrite H end;
      rewrite ?handleError_throws, <- app_assoc; reflexivity.
  - now rewrite handleError_throws.
Qed.

(** ** Every tool call *)

(** The body the dispatcher runs for a name and arguments, case by case. *)
Ltac tool_cases Hbody :=
  unfold tool_switch, cast in Hbody;
  repeat match type of Hbody with
         | context [if ?b then _ else _] => destruct b
         | context [match ?shape ?args with Some _ => _ | None => _ end] =>
             destruct (shape args) as [?a|]; [|discriminate Hbody]
         end;
  injection Hbody as <-.

Lemma tool_switch_sends (jira : Remote) (c : JiraClient.t) (P : HttpRequest -> Prop)
    (name : string) (args : JsValue) (body : M CallToolResult) :
  (forall T (call : FacadeCall T), sends c P (invoke jira call)) ->
  tool_switch jira name args = Some body ->
  sends c P body.
Proof.
  intros Hcalls Hbody. tool_cases Hbody;
    [ unfold handleSearchIssues | unfold handleGetIssue | unfold handleCreateIssue
    | unfold handleUpdateIssue | unfold handleGetTransitions
    | unfold handleTransitionIssue | unfold handleGetComments
    | unfold handleAddComment | ];
    cbv zeta;
    repeat (apply sends_bind; [|intro]);
    try apply sends_ret; try apply sends_throw;
    match goal with
    | |- sends _ _ (searchIssues _ ?a ?b ?c ?d) => exact (Hcalls _ (SearchIssues a b c d))
    | |- sends _ _ (getIssue _ ?a ?b) => exact (Hcalls _ (GetIssue a b))
    | |- sends _ _ (createIssue _ ?a) => exact (Hcalls _ (CreateIssue a))
    | |- sends _ _ (updateIssue _ ?a ?b) => exact (Hcalls _ (UpdateIssue a b))
    | |- sends _ _ (getTransitions _ ?a) => exact (Hcalls _ (GetTransitions a))
    | |- sends _ _ (transitionIssue _ ?a ?b) => exact (Hcalls _ (TransitionIssue a b))
    | |- sends _ _ (getComments _ ?a) => exact (Hcalls _ (GetComments a))
    | |- sends _ _ (addComment _ ?a ?b) => exact (Hcalls _ (AddComment a b))
    end.
Qed.

Lemma string_app_assoc (a b c : string) : (a ++ b) ++ c = a ++ (b ++ c).
Proof. induction a as [|x a IH]; cbn; [reflexivity | now rewrite IH]. Qed.

(** X6: whatever tool is called, every call it issues has the headers of the
    client (the Basic authorization built from the user name and the token,
    and the two JSON content headers), the timeout of 30000 ms, and a URL
    under [<base URL>/rest/api/3/], the base URL being the configured one
    without its trailing slash. *)
Theorem calls_carry_the_configuration (jira : Remote)
    (baseUrl username apiToken : string)
    (request : CallToolParams) (run : M CallToolResult) (s : Process) :
  callTool jira request = Some run ->
  jiraClient s = new_JiraClient baseUrl username apiToken ->
  exists calls,
    issued (snd (run s)) = (issued s ++ calls)%list
    /\ Forall
         (fun r =>
            headers r
            = [("Authorization",
                "Basic " ++ base64 (utf8 (username ++ ":" ++ apiToken)));
               ("Content-Type", "application/json");
               ("Accept", "application/json")]
            /\ timeout r = 30000%Z
            /\ exists path,
                 url r = strip_trailing_slash baseUrl ++ "/rest/api/3/" ++ path)
         calls.
Proof.
  intros Hrun Hclient. unfold callTool in Hrun.
  destruct (tool_switch jira (name request) (arguments request)) as [body|] eqn:Hbody;
    [|discriminate].
  injection Hrun as <-.
  assert (Hsends : sends (new_JiraClient baseUrl username apiToken)
                     (configured_by (new_JiraClient baseUrl username apiToken))
                     (try_catch body on_error)).
  { apply sends_try_catch.
    - apply (tool_switch_sends jira _ _ _ _ _ (fun T call => invoke_configured jira _ call)
               Hbody).
    - intros e. apply sends_ret. }
  destruct (Hsends s Hclient) as (calls & Hlog & Hall & _).
  exists calls. split; [exact Hlog|].
  apply (Forall_impl _ (P := configured_by (new_JiraClient baseUrl username apiToken)));
    [|exact Hall].
  intros r (Hheaders & Htimeout & path & Hurl).
  repeat split; try assumption.
  exists path. rewrite Hurl. cbn. now rewrite string_app_assoc.
Qed.

Lemma calls_carry_the_configuration_witness :
  exists calls,
    issued (snd (try_catch
                   (handleCreateIssue Sample.echo
                      (Sample.create_args (Some "bob") None))
                   on_error Sample.boot))
    = calls
    /\ Forall
         (fun r =>
            headers r
            = [("Authorization", "Basic dXNlcjp0b2tlbg==");
               ("Content-Type", "application/json");
               ("Accept", "application/json")]
            /\ timeout r = 30000%Z
            /\ exists path, url r = "https://jira.example.com/rest/api/3/" ++ path)
         calls.
Proof.
  exact (calls_carry_the_configuration Sample.echo
           "https://jira.example.com/" "user" "token"
           {| name := "jira_create_issue";
              arguments :=
                JsObject [("projectKey", JsString "PROJ");
                          ("issueType", JsString "Task");
                          ("summary", JsString "Wanted");
                          ("assignee", JsString "bob");
                          ("labels", JsArray [JsString "backend"])] |}
           (try_catch
              (handleCreateIssue Sample.echo (Sample.create_args (Some "bob") None))
              on_error)
           Sample.boot eq_refl eq_refl).
Defined.

(** On arguments that conform to the input schema, a read tool issues exactly
    one call. *)
Lemma read_tools_one_call (jira : Remote) (request : CallToolParams)
    (run : M CallToolResult) (s : Process) :
  callTool jira request = Some run ->
  In (name request)
     ["jira_search"; "jira_get_issue"; "jira_get_transitions"; "jira_get_comments"] ->
  exists r,
    issued (snd (run s)) = (issued s ++ [r])%list
    /\ method r = GET
    /\ data r = None.
Proof.
  intros Hrun Hname. unfold callTool in Hrun.
  destruct (tool_switch jira (name request) (arguments request)) as [body|] eqn:Hbody;
    [|discriminate].
  injection Hrun as <-. rewrite catch_issued.
  destruct Hname as [Hn|[Hn|[Hn|[Hn|[]]]]]; rewrite <- Hn in Hbody;
    unfold tool_switch, cast in Hbody; cbn [String.eqb Ascii.eqb Bool.eqb] in Hbody;
    match type of Hbody with
    | context [match ?shape ?args with Some _ => _ | None => _ end] =>
        destruct (shape args) as [a|]; [|discriminate Hbody]
    end;
    injection Hbody as <-.
  - unfold handleSearchIssues. rewrite bind_ret_issued, searchIssues_issued.
    eexists. repeat split.
  - unfold handleGetIssue. rewrite bind_ret_issued, getIssue_issued.
    eexists. repeat split.
  - unfold handleGetTransitions. rewrite bind_ret_issued, getTransitions_issued.
    eexists. repeat split.
  - unfold handleGetComments. rewrite bind_ret_issued, getComments_issued.
    eexists. repeat split.
Qed.

(** X7: the four read tools ([jira_search], [jira_get_issue],
    [jira_get_transitions], [jira_get_comments]) issue at most one call, a
    [GET] without a body, whatever the arguments and whatever the remote
    answers: exactly one when the arguments conform to the input schema of
    the tool, and none when there are no arguments at all. *)
Theorem read_tools_only_read (jira : Remote) (engine : Engine.t)
    (request : CallToolParams) (s : Process) :
  In (name request)
     ["jira_search"; "jira_get_issue"; "jira_get_transitions"; "jira_get_comments"] ->
  exists calls,
    issued (snd (Untyped.callTool jira engine request s)) = (issued s ++ calls)%list
    /\ length calls <= 1
    /\ Forall (fun r => method r = GET /\ data r = None) calls
    /\ (forall run, callTool jira request = Some run -> length calls = 1)
    /\ (arguments request = JsUndefined \/ arguments request = JsNull -> calls = []).
Proof.
  intros Hname.
  destruct (reads_on_error _
              (reads_read_tools jira engine _ (arguments request) Hname) s)
    as (calls & Hcalls & Hbound & Hreads).
  exists calls. fold (Untyped.callTool jira engine request) in Hcalls.
  split; [exact Hcalls|]. split; [exact Hbound|]. split; [exact Hreads|]. split.
  - intros run Hrun.
    destruct (read_tools_one_call jira request run s Hrun Hname) as (r & Hone & _).
    rewrite (callTool_typed jira engine request run s Hrun), Hone in Hcalls.
    apply app_inv_head in Hcalls. now subst calls.
  - intros Hnone.
    assert (Hsame : issued (snd (Untyped.callTool jira engine request s)) = issued s).
    { unfold Untyped.callTool.
      destruct Hname as [Hn|[Hn|[Hn|[Hn|[]]]]]; rewrite <- Hn;
        destruct Hnone as [->| ->]; reflexivity. }
    rewrite Hsame in Hcalls. rewrite <- (app_nil_r (issued s)) in Hcalls at 1.
    apply app_inv_head in Hcalls. now subst calls.
Qed.

Lemma read_tools_only_read_witness :
  exists calls,
    issued (snd (Untyped.callTool Sample.network_down sample_engine
                   {| name := "jira_get_comments";
                      arguments := JsObject [("issueKey", JsString "PROJ-1")] |}
                   Sample.boot))
    = calls
    /\ length calls = 1
    /\ Forall (fun r => method r = GET /\ data r = None) calls.
Proof.
  destruct (read_tools_only_read Sample.network_down sample_engine
              {| name := "jira_get_comments";
                 arguments := JsObject [("issueKey", JsString "PROJ-1")] |}
              Sample.boot (or_intror (or_intror (or_intror (or_introl eq_refl)))))
    as (calls & Hcalls & _ & Hreads & Hone & _).
  exists calls. split; [exact Hcalls|]. split; [|exact Hreads].
  eapply Hone. reflexivity.
Defined.

(** The message the dispatcher reports for the error of a rejection. *)
Lemma error_message_thrown_for (reason : Thrown) :
  error_message (thrown_for reason)
  = match reason with
    | AxiosError message
        (Some {| ErrorResponse.status := status;
                 ErrorResponse.data := Some errorData |}) =>
        api_error_message status (error_messages errorData)
    | AxiosError message _ => "Jira API Error: " ++ message
    | JsError message => message
    | JsThrown v => js_String v
    end.
Proof. fail_cases reason; reflexivity. Qed.

(** A handler that starts with a facade method: if the first call of the
    method is rejected, the dispatcher reports the error of the rejection,
    and that call is the only one issued. *)
Lemma first_call_reported {T} (call : FacadeCall T)
    (k : Remote -> T -> M CallToolResult) (s : Process) :
  exists T' (p : Payload T') req,
    forall (jira : Remote) reason,
      jira T' p (issued s) req = Rejected reason ->
      try_catch (bind (invoke jira call) (k jira)) on_error s
      = (Normal (error_result (error_message (thrown_for reason))),
         {| jiraClient := jiraClient s; issued := issued s ++ [req] |}).
Proof.
  destruct (facade_first_call_rejected call s) as (T' & p & req & Hfirst).
  exists T', p, req. intros jira reason Hrejected.
  unfold try_catch, bind. now rewrite (Hfirst jira reason Hrejected).
Qed.

(** The body the dispatcher runs for a registered tool starts with a facade
    method that is fixed by the request. *)
Lemma callTool_first_call (request : CallToolParams) :
  registered (name request) = true ->
  (forall jira, callTool jira request = None)
  \/ exists T (call : FacadeCall T) (k : Remote -> T -> M CallToolResult),
       forall jira,
         callTool jira request
         = Some (try_catch (bind (invoke jira call) (k jira)) on_error).
Proof.
  intros Hregistered.
  unfold registered, tool_names in Hregistered. cbn [existsb] in Hregistered.
  unfold callTool, tool_switch, cast.
  destruct (name request =? "jira_search").
  { destruct (as_SearchIssuesArgs (arguments request)) as [a|]; [right | left; reflexivity].
    exists _, (SearchIssues (SearchIssuesArgs.jql a) (SearchIssuesArgs.maxResults a)
                (SearchIssuesArgs.nextPageToken a) (SearchIssuesArgs.fields a)),
           (fun _ result => ret (text_result (search_response result))).
    reflexivity. }
  destruct (name request =? "jira_get_issue").
  { destruct (as_GetIssueArgs (arguments request)) as [a|]; [right | left; reflexivity].
    exists _, (GetIssue (GetIssueArgs.issueKey a) (GetIssueArgs.fields a)),
           (fun _ issue => ret (text_result (get_issue_response issue))).
    reflexivity. }
  destruct (name request =? "jira_create_issue").
  { destruct (as_CreateIssueArgs (arguments request)) as [a|]; [right | left; reflexivity].
    exists _, (CreateIssue (create_issue_request a)),
           (fun _ issue => ret (text_result (create_issue_response issue))).
    reflexivity. }
  destruct (name request =? "jira_update_issue").
  { destruct (as_UpdateIssueArgs (arguments request)) as [a|]; [right | left; reflexivity].
    exists _, (UpdateIssue (UpdateIssueArgs.issueKey a)
                [("fields", JsObject (UpdateIssueArgs.fields a))]),
           (fun jira _ =>
                bind (getIssue jira (UpdateIssueArgs.issueKey a) None)
                  (fun updatedIssue =>
                     ret (text_result
                            (update_issue_response (UpdateIssueArgs.issueKey a)
                               updatedIssue)))).
    reflexivity. }
  destruct (name request =? "jira_get_transitions").
  { destruct (as_GetTransitionsArgs (arguments request)) as [a|]; [right | left; reflexivity].
    exists _, (GetTransitions (GetTransitionsArgs.issueKey a)),
           (fun _ transitions =>
                ret (text_result
                       (get_transitions_response (GetTransitionsArgs.issueKey a)
                          transitions))).
    reflexivity. }
  destruct (name request =? "jira_transition_issue").
  { destruct (as_TransitionIssueArgs (arguments request)) as [a|]; [right | left; reflexivity].
    exists _, (TransitionIssue (TransitionIssueArgs.issueKey a) (transition_request a)),
           (fun jira _ =>
                bind (getIssue jira (TransitionIssueArgs.issueKey a) None)
                  (fun updatedIssue =>
                     ret (text_result
                            (transition_issue_response
                               (TransitionIssueArgs.issueKey a) updatedIssue)))).
    reflexivity. }
  destruct (name request =? "jira_get_comments").
  { destruct (as_GetCommentsArgs (arguments request)) as [a|]; [right | left; reflexivity].
    exists _, (GetComments (GetCommentsArgs.issueKey a)),
           (fun _ comments =>
                ret (text_result
                       (get_comments_response (GetCommentsArgs.issueKey a) comments))).
    reflexivity. }
  destruct (name request =? "jira_add_comment").
  { destruct (as_AddCommentArgs (arguments request)) as [a|]; [right | left; reflexivity].
    exists _, (AddComment (AddCommentArgs.issueKey a) (add_comment_request a)),
           (fun _ comment =>
                ret (text_result
                       (add_comment_response (AddCommentArgs.issueKey a) comment))).
    reflexivity. }
  discriminate Hregistered.
Qed.

(** X8: for every registered tool, the first call the tool issues is fixed
    by the request; if the remote rejects it, the tool issues no other call
    (an update or a transition is not followed by a fetch) and the result is
    the error envelope whose message is the one the facade made for the
    rejection: "Jira API Error (<status>): <messages>" for an answer with a
    body, "Jira API Error: <message>" for an axios error without one. *)
Theorem first_rejection_is_reported (request : CallToolParams) (s : Process) :
  registered (name request) = true ->
  exists T (p : Payload T) req,
    forall (jira : Remote) (run : M CallToolResult) reason,
      callTool jira request = Some run ->
      jira T p (issued s) req = Rejected reason ->
      run s
      = (Normal
           {| content :=
                [{| type := "text";
                    text :=
                      JSON_stringify
                        [("error", JsBool true);
                         ("message",
                          JsString
                            match reason with
                            | AxiosError message
                                (Some {| ErrorResponse.status := status;
                                         ErrorResponse.data := Some errorData |}) =>
                                "Jira API Error (" ++ number_to_string status ++ "): "
                                ++ join ", " (error_messages errorData)
                            | AxiosError message _ => "Jira API Error: " ++ message
                            | JsError message => message
                            | JsThrown v => js_String v
                            end)] |}];
              isError := Some true |},
         {| jiraClient := jiraClient s; issued := issued s ++ [req] |}).
Proof.
  intros Hregistered.
  destruct (callTool_first_call request Hregistered)
    as [Hnone | (T & call & k & Hcall)].
  - exists unit, AnyP, (request_of (JiraClient.client (jiraClient s)) GET "" [] None).
    intros jira run reason Hrun. rewrite Hnone in Hrun. discriminate Hrun.
  - destruct (first_call_reported call k s) as (T' & p & req & Hreported).
    exists T', p, req. intros jira run reason Hrun Hrejected.
    rewrite Hcall in Hrun. injection Hrun as <-.
    rewrite (Hreported jira reason Hrejected), error_message_thrown_for.
    unfold error_result, api_error_message. now fail_cases reason.
Qed.

Lemma first_rejection_is_reported_witness :
  exists req,
    try_catch
      (handleUpdateIssue Sample.bad_request
         {| UpdateIssueArgs.issueKey := "PROJ-9";
            UpdateIssueArgs.fields := [("summary", JsString "New title")] |})
      on_error Sample.boot
    = (Normal
         {| content :=
              [{| type := "text";
                  text :=
                    JSON_stringify
                      [("error", JsBool true);
                       ("message",
                        JsString
                          "Jira API Error (400): Issue does not exist, summary: Field required")] |}];
            isError := Some true |},
       {| jiraClient := jiraClient Sample.boot; issued := [req] |}).
Proof.
  destruct (first_rejection_is_reported
              {| name := "jira_update_issue";
                 arguments :=
                   JsObject [("issueKey", JsString "PROJ-9");
                             ("fields",
                              JsObject [("summary", JsString "New title")])] |}
              Sample.boot eq_refl) as (T & p & req & Hreported).
  exists req.
  exact (Hreported Sample.bad_request _ _ eq_refl eq_refl).
Defined.

(** ** The envelope *)

(** A computation whose normal results are success envelopes. *)
Lemma text_result_bind {A} (m : M A) (k : A -> M CallToolResult) :
  (forall a s r s', k a s = (Normal r, s') -> exists o, r = text_result o) ->
  forall s r s', bind m k s = (Normal r, s') -> exists o, r = text_result o.
Proof.
  intros Hk s r s'. unfold bind.
  destruct (m s) as [[a|e] s1]; [apply Hk | discriminate].
Qed.

Lemma text_result_ret (o : JsObj) s r s' :
  ret (text_result o) s = (Normal r, s') -> exists o', r = text_result o'.
Proof. intros H. injection H as <- _. now exists o. Qed.

Lemma tool_switch_text_result (jira : Remote) (name : string) (args : JsValue)
    (body : M CallToolResult) :
  tool_switch jira name args = Some body ->
  forall s r s', body s = (Normal r, s') -> exists o, r = text_result o.
Proof.
  intros Hbody. tool_cases Hbody;
    [ unfold handleSearchIssues | unfold handleGetIssue | unfold handleCreateIssue
    | unfold handleUpdateIssue | unfold handleGetTransitions
    | unfold handleTransitionIssue | unfold handleGetComments
    | unfold handleAddComment | ];
    cbv zeta;
    repeat (apply text_result_bind; intro);
    try apply text_result_ret.
  intros s r s' H. discriminate H.
Qed.

(** X9: the result of a tool call has exactly one content item, of type
    "text", and its [isError] flag tells whether the call chain threw: it is
    true when the handler (or the switch, for an unknown tool) completed
    abruptly, and absent when the handler returned. *)
Theorem error_flag_tells_failure (jira : Remote) (request : CallToolParams)
    (run body : M CallToolResult) (s : Process) :
  callTool jira request = Some run ->
  tool_switch jira (name request) (arguments request) = Some body ->
  exists text,
    fst (run s)
    = Normal {| content := [{| type := "text"; text := text |}];
                isError := match fst (body s) with
                           | Normal _ => None
                           | Abrupt _ => Some true
                           end |}.
Proof.
  intros Hrun Hbody. unfold callTool in Hrun. rewrite Hbody in Hrun.
  injection Hrun as <-. unfold try_catch.
  pose proof (tool_switch_text_result jira _ _ _ Hbody s) as Htext.
  destruct (body s) as [[r|e] s'].
  - destruct (Htext r s' eq_refl) as [o ->]. eexists. reflexivity.
  - eexists. reflexivity.
Qed.

Lemma error_flag_tells_failure_witness :
  exists text,
    fst (try_catch
           (handleGetIssue Sample.echo
              {| GetIssueArgs.issueKey := "PROJ-1"; GetIssueArgs.fields := None |})
           on_error Sample.boot)
    = Normal {| content := [{| type := "text"; text := text |}]; isError := None |}.
Proof.
  exact (error_flag_tells_failure Sample.echo
           {| name := "jira_get_issue";
              arguments := JsObject [("issueKey", JsString "PROJ-1")] |}
           _ _ Sample.boot eq_refl eq_refl).
Defined.

(** ** The constructor *)

Lemma strip_trailing_slash_cons (c : ascii) (s : string) :
  s <> "" -> strip_trailing_slash (String c s) = String c (strip_trailing_slash s).
Proof. destruct s; [congruence | reflexivity]. Qed.

Lemma strip_trailing_slash_app (s : string) : strip_trailing_slash (s ++ "/") = s.
Proof.
  induction s as [|c s IH]; [reflexivity|].
  cbn [String.append]. rewrite strip_trailing_slash_cons.
  - now rewrite IH.
  - now destruct s.
Qed.

Lemma strip_trailing_slash_none (s : string) :
  (forall t, s <> t ++ "/") -> strip_trailing_slash s = s.
Proof.
  induction s as [|c s IH]; intros Hno; [reflexivity|].
  destruct s as [|c' s].
  - cbn. destruct (Ascii.eqb_spec c "/") as [->|Hc]; [|reflexivity].
    exfalso. now apply (Hno "").
  - rewrite strip_trailing_slash_cons by discriminate.
    rewrite IH; [reflexivity|].
    intros t Ht. apply (Hno (String c t)). cbn. now rewrite Ht.
Qed.

(** X10: the constructor removes one trailing slash of the base URL, and only
    one: a base URL given with a trailing slash and the same URL given without
    it make the same client, whose calls go to [<URL>/rest/api/3]; of two
    trailing slashes one is kept. *)
Theorem base_url_trailing_slash (baseUrl username apiToken : string) :
  AxiosInstance.baseURL
    (JiraClient.client (new_JiraClient (baseUrl ++ "/") username apiToken))
  = baseUrl ++ "/rest/api/3"
  /\ ((forall t, baseUrl <> t ++ "/") ->
      new_JiraClient baseUrl username apiToken
      = new_JiraClient (baseUrl ++ "/") username apiToken)
  /\ JiraClient.baseUrl (new_JiraClient (baseUrl ++ "//") username apiToken)
     = baseUrl ++ "/".
Proof.
  unfold new_JiraClient. cbn [JiraClient.client JiraClient.baseUrl AxiosInstance.baseURL].
  rewrite strip_trailing_slash_app. split; [reflexivity|]. split.
  - intros Hno. now rewrite strip_trailing_slash_none.
  - replace (baseUrl ++ "//") with ((baseUrl ++ "/") ++ "/")
      by (now rewrite string_app_assoc).
    apply strip_trailing_slash_app.
Qed.

Lemma base_url_trailing_slash_witness :
  new_JiraClient "https://jira.example.com" "user" "token"
  = new_JiraClient "https://jira.example.com/" "user" "token".
Proof.
  apply (proj1 (proj2 (base_url_trailing_slash "https://jira.example.com" "user" "token"))).
  intros t Ht.
  pose proof (strip_trailing_slash_app t) as Hstrip.
  rewrite <- Ht in Hstrip. cbn in Hstrip. subst t. discriminate Ht.
Defined.

(** ** Counts in the responses *)

(** X11: the [total] that [jira_get_comments] reports is the number of
    comments in the page the remote returned, in the order returned; the
    [total], [startAt] and [maxResults] of the remote's page are not
    reported. *)
Theorem comments_total_is_page_length (jira : Remote) (args : GetCommentsArgs.t)
    (s : Process) :
  let issueKey := GetCommentsArgs.issueKey args in
  let get := request_of (JiraClient.client (jiraClient s)) GET
               ("/issue/" ++ issueKey ++ "/comment") [] None in
  fst (handleGetComments jira args s)
  = match jira _ CommentListP (issued s) get with
    | Fulfilled page =>
        Normal
          (text_result
             [("issueKey", JsString issueKey);
              ("total",
               JsNumber (Z.of_nat (length (JiraCommentList.comments page))));
              ("comments",
               JsArray (map comment_summary (JiraCommentList.comments page)))])
    | Rejected reason => Abrupt (thrown_for reason)
    end.
Proof.
  intros issueKey get. unfold handleGetComments, getComments. run_calls.
  fold issueKey. fold get. settle; [reflexivity|].
  now rewrite handleError_throws.
Qed.

(** X12: in a search response [issueCount] is the number of entries of
    [issues], which are the issues of the facade result in the same order;
    [total] is reported exactly when the result has one, and is the result's.
    This holds whichever pagination properties the response has. *)
Theorem search_counts (result : JiraSearchResult.t) :
  obj_get "issueCount" (search_response result)
  = Some (JsNumber (Z.of_nat (length (JiraSearchResult.issues result))))
  /\ obj_get "issues" (search_response result)
     = Some (JsArray (map search_issue (JiraSearchResult.issues result)))
  /\ map (fun issue => match issue with
                       | JsObject o => prop "key" o
                       | _ => JsUndefined
                       end)
         (map search_issue (JiraSearchResult.issues result))
     = map (fun issue => JsString (JiraIssue.key issue))
         (JiraSearchResult.issues result)
  /\ obj_get "total" (search_response result)
     = match JiraSearchResult.total result with
       | Some total => Some (JsNumber total)
       | None => None
       end.
Proof.
  split; [|split; [|split]].
  1, 2, 4:
    destruct result as [issues [total|] [token|] [isLast|]];
    unfold search_response, truthy_string;
    cbn [JiraSearchResult.issues JiraSearchResult.total
         JiraSearchResult.nextPageToken JiraSearchResult.isLast];
    try destruct (token =? ""); reflexivity.
  rewrite map_map. apply map_ext. intros issue. reflexivity.
Qed.

(** ** The create request *)

Lemma Object_assign_keeps_keys (k : string) (source target : JsObj) :
  obj_get k target <> None -> obj_get k (Object_assign target source) <> None.
Proof.
  unfold Object_assign. revert target.
  induction source as [|[k1 v1] source IH]; cbn; intros target Hk; [exact Hk|].
  apply IH. destruct (String.eqb_spec k k1) as [<-|Hne].
  - unfold assign_property. destruct (obj_get k target); [|congruence].
    rewrite obj_get_set_eq. discriminate.
  - now rewrite obj_get_assign_property_ne.
Qed.

(** X13: without custom fields, the fields of the create request are
    [project], [summary] and [issuetype], followed by [description],
    [priority], [assignee], [labels] and [components], each one exactly when
    its argument is given and is not empty (the empty string, the empty
    array): an empty optional argument is left out like an absent one. *)
Theorem create_request_keys (args : CreateIssueArgs.t) :
  CreateIssueArgs.customFields args = None ->
  let given (o : option string) (k : string) : list string :=
    match o with
    | Some v => if v =? "" then [] else [k]
    | None => []
    end in
  let given_list (o : option (list string)) (k : string) : list string :=
    match o with
    | Some (_ :: _) => [k]
    | _ => []
    end in
  exists fields,
    create_issue_request args = [("fields", JsObject fields)]
    /\ map fst fields
       = (["project"; "summary"; "issuetype"]
          ++ given (CreateIssueArgs.description args) "description"
          ++ given (CreateIssueArgs.priority args) "priority"
          ++ given (CreateIssueArgs.assignee args) "assignee"
          ++ given_list (CreateIssueArgs.labels args) "labels"
          ++ given_list (CreateIssueArgs.components args) "components")%list.
Proof.
  intros Hcustom given given_list. unfold create_issue_request. rewrite Hcustom.
  eexists. split; [reflexivity|].
  unfold create_issue_fields, truthy_string. subst given given_list. cbv beta.
  destruct (CreateIssueArgs.description args) as [d|]; [destruct (d =? "")|];
    (destruct (CreateIssueArgs.priority args) as [p|]; [destruct (p =? "")|]);
    (destruct (CreateIssueArgs.assignee args) as [a|]; [destruct (a =? "")|]);
    destruct (CreateIssueArgs.labels args) as [[|l ls]|];
    destruct (CreateIssueArgs.components args) as [[|c cs]|];
    reflexivity.
Qed.

Lemma create_request_keys_witness :
  exists fields,
    create_issue_request (Sample.create_args (Some "") None)
    = [("fields", JsObject fields)]
    /\ map fst fields = ["project"; "summary"; "issuetype"; "labels"].
Proof.
  exact (create_request_keys (Sample.create_args (Some "") None) eq_refl).
Defined.

(** X14: custom fields can replace a built-in field but not remove it: the
    fields of the create request always have [project], [summary] and
    [issuetype], and every other field built from the arguments. *)
Theorem built_in_fields_are_kept (jira : Remote) (args : CreateIssueArgs.t)
    (s : Process) :
  exists fields rest,
    issued (snd (handleCreateIssue jira args s))
    = (issued s
       ++ request_of (JiraClient.client (jiraClient s)) POST "/issue" []
            (Some (JsObject [("fields", JsObject fields)]))
       :: rest)%list
    /\ obj_get "project" fields <> None
    /\ obj_get "summary" fields <> None
    /\ obj_get "issuetype" fields <> None
    /\ forall k, obj_get k (create_issue_fields args) <> None ->
                 obj_get k fields <> None.
Proof.
  destruct (handleCreateIssue_issued jira args s) as [rest Hrest].
  destruct (create_issue_fields_project args) as [Hproject Hsummary].
  assert (Hissuetype :
    obj_get "issuetype" (create_issue_fields args)
    = Some (JsObject [("name", JsString (CreateIssueArgs.issueType args))])).
  { unfold create_issue_fields.
    destruct (CreateIssueArgs.description args) as [d|]; [destruct (truthy_string d)|];
      (destruct (CreateIssueArgs.priority args) as [p|]; [destruct (truthy_string p)|]);
      (destruct (CreateIssueArgs.assignee args) as [a|]; [destruct (truthy_string a)|]);
      destruct (CreateIssueArgs.labels args) as [[|l ls]|];
      destruct (CreateIssueArgs.components args) as [[|c cs]|];
      reflexivity. }
  unfold create_issue_request in Hrest.
  destruct (CreateIssueArgs.customFields args) as [customFields|].
  - exists (Object_assign (create_issue_fields args) customFields), rest.
    split; [exact Hrest|].
    repeat split; try (apply Object_assign_keeps_keys; congruence).
    intros k. apply Object_assign_keeps_keys.
  - exists (create_issue_fields args), rest.
    split; [exact Hrest|]. repeat split; congruence.
Qed.

Lemma built_in_fields_are_kept_witness :
  exists fields rest,
    issued (snd (handleCreateIssue Sample.echo
                   (Sample.create_args (Some "bob") (Some Sample.custom))
                   Sample.boot))
    = request_of (JiraClient.client (jiraClient Sample.boot)) POST "/issue" []
        (Some (JsObject [("fields", JsObject fields)]))
      :: rest
    /\ obj_get "assignee" fields <> None.
Proof.
  destruct (built_in_fields_are_kept Sample.echo
              (Sample.create_args (Some "bob") (Some Sample.custom)) Sample.boot)
    as (fields & rest & Hissued & _ & _ & _ & Hkept).
  exists fields, rest. split; [exact Hissued|].
  apply Hkept. cbn. discriminate.
Defined.

(** ** The add-comment request *)

(** X15: [jira_add_comment] issues one call, a [POST] to the comments of the
    issue.  Its body has the comment text, and a visibility restriction, of
    the given type and value, exactly when both a type and a value are given
    and the value is not the empty string. *)
Theorem add_comment_request_sent (jira : Remote) (args : AddCommentArgs.t)
    (s : Process) :
  issued (snd (handleAddComment jira args s))
  = (issued s
     ++ [request_of (JiraClient.client (jiraClient s)) POST
           ("/issue/" ++ AddCommentArgs.issueKey args ++ "/comment") []
           (Some
              (JsObject
                 (("body", JsString (AddCommentArgs.body args))
                  :: match AddCommentArgs.visibilityType args,
                           AddCommentArgs.visibilityValue args with
                     | Some t, Some v =>
                         if v =? "" then []
                         else [("visibility",
                                JsObject
                                  [("type", JsString match t with
                                                     | group => "group"
                                                     | role => "role"
                                                     end);
                                   ("value", JsString v)])]
                     | _, _ => []
                     end)))])%list.
Proof.
  rewrite handleAddComment_issued, add_comment_request_visibility.
  destruct (AddCommentArgs.visibilityType args) as [[|]|];
    destruct (AddCommentArgs.visibilityValue args) as [v|]; try reflexivity;
    now destruct (v =? "").
Qed.

(** ** The tool list and the dispatcher *)

Lemma listed_tool_names :
  map tool_name listed_tools
  = ["jira_search"; "jira_get_issue"; "jira_create_issue"; "jira_update_issue";
     "jira_get_transitions"; "jira_transition_issue"; "jira_get_comments";
     "jira_add_comment"].
Proof. reflexivity. Qed.

(** X16: the tools the server lists are the tools the dispatcher has a case
    for: a listed name is dispatched to a handler, any other name gets the
    "Unknown tool" error, and no name is listed twice. *)
Theorem listed_tools_are_dispatched (jira : Remote) (name : string) :
  NoDup (map tool_name listed_tools)
  /\ (In name (map tool_name listed_tools) ->
      exists handler,
        lookup_handler name (handler_table jira) = Some handler
        /\ forall args, tool_switch jira name args = handler args)
  /\ (~ In name (map tool_name listed_tools) ->
      forall args,
        tool_switch jira name args
        = Some (throw (JsError ("Unknown tool: " ++ name)))).
Proof.
  rewrite listed_tool_names. split; [|split].
  - repeat constructor; cbn; intuition discriminate.
  - intros Hin.
    assert (Hsome : exists handler,
               lookup_handler name (handler_table jira) = Some handler).
    { cbn in Hin.
      repeat (destruct Hin as [<-|Hin]; [eexists; reflexivity|]).
      destruct Hin. }
    destruct Hsome as [handler Hhandler]. exists handler.
    split; [exact Hhandler|].
    intros args. now rewrite tool_switch_table, Hhandler.
  - intros Hnot args. unfold tool_switch.
    repeat match goal with
           | |- context [if ?n =? ?lit then _ else _] =>
               destruct (String.eqb_spec n lit) as [->|?];
               [exfalso; apply Hnot; cbn; tauto|]
           end.
    reflexivity.
Qed.

Lemma listed_tools_are_dispatched_witness :
  exists handler,
    lookup_handler "jira_get_comments" (handler_table Sample.echo) = Some handler
    /\ forall args, tool_switch Sample.echo "jira_get_comments" args = handler args.
Proof.
  apply (proj1 (proj2 (listed_tools_are_dispatched Sample.echo "jira_get_comments"))).
  cbn. tauto.
Defined.




(** ** The test suite script *)

Section ScriptRuns.

Variable jira : Remote.
Variable now : nat -> Z.
Variable toISOString : Z -> string.

Lemma ensures_ret {A} (pre : Suite -> Prop) (a : A) (post : A -> Suite -> Prop) :
  (forall u, pre u -> post a u) -> ensures pre (script_ret a) post.
Proof. intros H u Hu. exists a, u. split; [reflexivity | now apply H]. Qed.

Lemma ensures_bind {A B} (pre : Suite -> Prop) (m : Script A)
    (mid : A -> Suite -> Prop) (k : A -> Script B) (post : B -> Suite -> Prop) :
  ensures pre m mid ->
  (forall a, ensures (mid a) (k a) post) ->
  ensures pre (script_bind m k) post.
Proof.
  intros Hm Hk u Hu. destruct (Hm u Hu) as (a & u1 & Hrun & Hmid).
  unfold script_bind. rewrite Hrun. now apply (Hk a).
Qed.

(** The calls of a facade method, seen from the script. *)
Lemma on_client_harmless (client : JiraClient.t) {A} (m : M A) (u : Suite) :
  (forall s, jiraClient s = client ->
             exists r, issued (snd (m s)) = (issued s ++ [r])%list
                       /\ method r = GET /\ data r = None) ->
  let u' := snd (on_client client m u) in
  results u' = results u
  /\ accessibleIssueKey u' = accessibleIssueKey u
  /\ createdIssueKey u' = createdIssueKey u
  /\ exists calls,
       requests u' = (requests u ++ calls)%list
       /\ Forall (fun r => method r = GET /\ data r = None) calls
       /\ length calls <= 1.
Proof.
  intros Hm. unfold on_client.
  destruct (Hm {| jiraClient := client; issued := requests u |} eq_refl)
    as (r & Hlog & Hget & Hdata).
  destruct (m _) as [completion p]. cbn in *.
  repeat split. exists [r]. repeat split; auto.
Qed.

Lemma harmless_bind_on_client (client : JiraClient.t) {A} (m : M A)
    (k : A -> Script unit) :
  (forall s, jiraClient s = client ->
             exists r, issued (snd (m s)) = (issued s ++ [r])%list
                       /\ method r = GET /\ data r = None) ->
  (forall a u, results (snd (k a u)) = results u
               /\ createdIssueKey (snd (k a u)) = createdIssueKey u
               /\ requests (snd (k a u)) = requests u) ->
  harmless (script_bind (on_client client m) k).
Proof.
  intros Hm Hk u. unfold script_bind.
  destruct (on_client_harmless client m u Hm) as (Hr & _ & Hc & calls & Hq & Hall & Hlen).
  destruct (on_client client m u) as [[a|e] u1]; cbn in *.
  - destruct (Hk a u1) as (Hr' & Hc' & Hq').
    rewrite Hr', Hc', Hq'. repeat split; try assumption. now exists calls.
  - repeat split; try assumption. now exists calls.
Qed.

Lemma searchIssues_reads (client : JiraClient.t) jql maxResults token fields s :
  jiraClient s = client ->
  exists r, issued (snd (searchIssues jira jql maxResults token fields s))
            = (issued s ++ [r])%list
            /\ method r = GET /\ data r = None.
Proof. intros _. rewrite searchIssues_issued. eexists. repeat split. Qed.

Lemma getIssue_reads (client : JiraClient.t) key fields s :
  jiraClient s = client ->
  exists r, issued (snd (getIssue jira key fields s)) = (issued s ++ [r])%list
            /\ method r = GET /\ data r = None.
Proof. intros _. rewrite getIssue_issued. eexists. repeat split. Qed.

Lemma getTransitions_reads (client : JiraClient.t) key s :
  jiraClient s = client ->
  exists r, issued (snd (getTransitions jira key s)) = (issued s ++ [r])%list
            /\ method r = GET /\ data r = None.
Proof. intros _. rewrite getTransitions_issued. eexists. repeat split. Qed.

Lemma getComments_reads (client : JiraClient.t) key s :
  jiraClient s = client ->
  exists r, issued (snd (getComments jira key s)) = (issued s ++ [r])%list
            /\ method r = GET /\ data r = None.
Proof. intros _. rewrite getComments_issued. eexists. repeat split. Qed.

Lemma harmless_basic_connectivity client key :
  harmless (test_basic_connectivity jira client key).
Proof.
  unfold test_basic_connectivity. apply harmless_bind_on_client.
  - intros s. apply searchIssues_reads.
  - intros a u. now repeat split.
Qed.

Lemma harmless_find_accessible_issue client :
  harmless (test_find_accessible_issue jira client).
Proof.
  unfold test_find_accessible_issue. apply harmless_bind_on_client.
  - intros s. apply searchIssues_reads.
  - intros a u. destruct (JiraSearchResult.issues a); now repeat split.
Qed.

Lemma harmless_get_issue client : harmless (test_get_issue jira client).
Proof.
  intros u. unfold test_get_issue, script_bind at 1, get_accessibleIssueKey.
  apply harmless_bind_on_client.
  - intros s. apply getIssue_reads.
  - intros a v. destruct (truthy_string (JiraIssue.key a)); now repeat split.
Qed.

Lemma harmless_get_transitions client : harmless (test_get_transitions jira client).
Proof.
  intros u. unfold test_get_transitions, script_bind at 1, get_accessibleIssueKey.
  apply harmless_bind_on_client.
  - intros s. apply getTransitions_reads.
  - intros a v. now repeat split.
Qed.

Lemma harmless_get_comments client : harmless (test_get_comments jira client).
Proof.
  intros u. unfold test_get_comments, script_bind at 1, get_accessibleIssueKey.
  apply harmless_bind_on_client.
  - intros s. apply getComments_reads.
  - intros a v. now repeat split.
Qed.

Lemma harmless_search_by_project client key :
  harmless (test_search_by_project jira client key).
Proof.
  unfold test_search_by_project. apply harmless_bind_on_client.
  - intros s. apply searchIssues_reads.
  - intros a u. now repeat split.
Qed.

End ScriptRuns.

Section ScriptVerdict.

Variable jira : Remote.
Variable now : nat -> Z.
Variable toISOString : Z -> string.

Lemma filter_ran_app (rs : list TestResult.t) (r : TestResult.t) :
  length (filter ran (rs ++ [r]))
  = length (filter ran rs) + (if ran r then 1 else 0).
Proof.
  rewrite filter_app, length_app. cbn. now destruct (ran r).
Qed.

(** One check: one more result, under the name given, with one of the
    statuses allowed. *)
Lemma runTest_logged expected (name : string) (testFn : Script unit) (skip : bool)
    (allowed : TestStatus -> Prop) :
  (skip = true -> allowed SKIP) ->
  (skip = false -> allowed PASS /\ allowed FAIL /\ harmless testFn) ->
  ensures (logged expected) (runTest now name testFn skip)
    (fun _ => logged (expected ++ [(name, allowed)])).
Proof.
  intros Hskip Hrun u (Hresults & Hcreated & Hreads & Hcount).
  unfold runTest. destruct skip.
  - eexists. eexists. split; [reflexivity|].
    unfold logged. cbn [results createdIssueKey requests].
    rewrite filter_ran_app. cbn.
    repeat split; try assumption.
    + apply Forall2_app; [exact Hresults|]. constructor; [|constructor].
      cbn. split; [reflexivity | now apply Hskip].
    + now rewrite Nat.add_0_r.
  - destruct (Hrun eq_refl) as (Hpass & Hfail & Hbody).
    unfold script_bind at 1, Date_now, script_try_catch, script_bind at 1.
    match goal with
    | |- context [testFn ?v] =>
        destruct (Hbody v) as (Hr & Hc & calls & Hq & Hall & Hlen);
        destruct (testFn v) as [[[]|error] u1]
    end;
      cbn in Hr, Hc, Hq;
      unfold script_bind, Date_now, logTest;
      (eexists; eexists; split; [reflexivity|]);
      unfold logged; cbn [results createdIssueKey requests];
      rewrite filter_ran_app, Hr, Hc, Hq, length_app; cbn;
      (repeat split;
       [ apply Forall2_app; [exact Hresults|];
         constructor; [|constructor]; cbn; split; [reflexivity | assumption]
       | assumption
       | apply Forall_app; split; assumption
       | apply Nat.add_le_mono; assumption ]).
Qed.

End ScriptVerdict.

Section ScriptMain.

Variable jira : Remote.
Variable now : nat -> Z.
Variable toISOString : Z -> string.

Lemma ensures_set_accessibleIssueKey expected (key : string) :
  ensures (logged expected) (set_accessibleIssueKey key) (fun _ => logged expected).
Proof. intros u Hu. exists tt. eexists. split; [reflexivity | exact Hu]. Qed.

Lemma ensures_set_createdIssueKey expected :
  ensures (logged expected) (set_createdIssueKey "") (fun _ => logged expected).
Proof.
  intros u (Hresults & _ & Hreads & Hcount). exists tt. eexists.
  split; [reflexivity|]. now repeat split.
Qed.

Lemma ensures_get_accessibleIssueKey (pre : Suite -> Prop) :
  ensures pre get_accessibleIssueKey (fun _ => pre).
Proof. intros u Hu. eexists. exists u. split; [reflexivity | exact Hu]. Qed.

(** Once no issue was created, [createdIssueKey] reads as the empty string. *)
Lemma ensures_createdIssueKey_bind {B} expected (k : string -> Script B)
    (post : B -> Suite -> Prop) :
  ensures (logged expected) (k "") post ->
  ensures (logged expected) (script_bind get_createdIssueKey k) post.
Proof.
  intros Hk u Hu. unfold script_bind, get_createdIssueKey.
  destruct Hu as (Hresults & Hcreated & Hrest). rewrite Hcreated.
  apply Hk. now repeat split.
Qed.

Lemma ensures_weaken {A} (pre pre' : Suite -> Prop) (m : Script A)
    (post : A -> Suite -> Prop) :
  (forall u, pre' u -> pre u) -> ensures pre m post -> ensures pre' m post.
Proof. intros Hpre Hm u Hu. apply Hm, Hpre, Hu. Qed.

Lemma main_logged (env : Env.t) (url user token : string) :
  Env.JIRA_BASE_URL env = Some url ->
  Env.JIRA_USERNAME env = Some user ->
  Env.JIRA_API_TOKEN env = Some token ->
  url <> "" -> user <> "" -> token <> "" ->
  ensures (logged []) (main jira now toISOString env)
    (fun code u =>
       logged (suite_checks (or_empty_string (Env.TEST_PROJECT_KEY env))) u
       /\ code = verdict (results u)).
Proof.
  intros Hurl Huser Htoken Hu Hn Ht.
  apply truthy_string_nonempty in Hu, Hn, Ht.
  unfold main. rewrite Hurl, Huser, Htoken, Hu, Hn, Ht. cbn [andb]. cbv zeta.
  set (key := or_empty_string (Env.TEST_PROJECT_KEY env)).
  set (client := new_JiraClient url user token).
  refine (ensures_bind _ _ _ _ _
            (runTest_logged now [] _ _ false (fun status => status <> SKIP) _ _) _).
  { discriminate. }
  { intros _. split; [discriminate | split; [discriminate|]].
    apply harmless_basic_connectivity. }
  intros _. refine (ensures_bind _ _ _ _ _ (ensures_set_accessibleIssueKey _ _) _).
  intros _.
  refine (ensures_bind _ _ _ _ _
            (runTest_logged now _ _ _ false (fun status => status <> SKIP) _ _) _).
  { discriminate. }
  { intros _. split; [discriminate | split; [discriminate|]].
    apply harmless_find_accessible_issue. }
  intros _. refine (ensures_bind _ _ _ _ _ (ensures_get_accessibleIssueKey _) _).
  intros accessible3.
  refine (ensures_bind _ _ _ _ _
            (runTest_logged now _ _ _ _ (fun _ => True) _ _) _).
  { trivial. }
  { intros _. split; [trivial | split; [trivial|]]. apply harmless_get_issue. }
  intros _. refine (ensures_bind _ _ _ _ _ (ensures_get_accessibleIssueKey _) _).
  intros accessible4.
  refine (ensures_bind _ _ _ _ _
            (runTest_logged now _ _ _ _ (fun _ => True) _ _) _).
  { trivial. }
  { intros _. split; [trivial | split; [trivial|]]. apply harmless_get_transitions. }
  intros _. refine (ensures_bind _ _ _ _ _ (ensures_get_accessibleIssueKey _) _).
  intros accessible5.
  refine (ensures_bind _ _ _ _ _
            (runTest_logged now _ _ _ _ (fun _ => True) _ _) _).
  { trivial. }
  { intros _. split; [trivial | split; [trivial|]]. apply harmless_get_comments. }
  intros _.
  refine (ensures_bind _ _ _ _ _
            (runTest_logged now _ _ _ _ (fun status => status = SKIP <-> key = "") _ _) _).
  { intros Hskip. apply negb_true_iff in Hskip.
    split; [intros _ | reflexivity].
    destruct (String.eqb_spec key "") as [Hk|Hk]; [exact Hk|].
    apply truthy_string_nonempty in Hk. congruence. }
  { intros Hskip. apply negb_false_iff, truthy_string_nonempty in Hskip.
    split; [split; [discriminate | intros Hk; contradiction]|].
    split; [split; [discriminate | intros Hk; contradiction]|].
    apply harmless_search_by_project. }
  intros _. refine (ensures_bind _ _ _ _ _ (ensures_set_createdIssueKey _) _).
  intros _.
  refine (ensures_bind _ _ _ _ _
            (runTest_logged now _ _ _ true (fun status => status = SKIP) _ _) _).
  { reflexivity. }
  { discriminate. }
  intros _. apply ensures_createdIssueKey_bind.
  refine (ensures_bind _ _ _ _ _
            (runTest_logged now _ _ _ true (fun status => status = SKIP) _ _) _).
  { reflexivity. }
  { discriminate. }
  intros _. apply ensures_createdIssueKey_bind.
  refine (ensures_bind _ _ _ _ _
            (runTest_logged now _ _ _ true (fun status => status = SKIP) _ _) _).
  { reflexivity. }
  { discriminate. }
  intros _ u Hlogged. unfold script_bind, get_results.
  exists (verdict (results u)), u. split.
  - unfold verdict.
    destruct (0 <? count_status FAIL (results u))%nat; [reflexivity|].
    now destruct (count_status PASS (results u) =? 0)%nat.
  - split; [exact Hlogged | reflexivity].
Qed.

End ScriptMain.

(** What the invariant says once the nine checks are logged. *)
Lemma logged_suite_checks (key : string) (u : Suite) :
  logged (suite_checks key) u ->
  exists r1 r2 r3 r4 r5 r6 r7 r8 r9,
    results u = [r1; r2; r3; r4; r5; r6; r7; r8; r9]
    /\ map TestResult.name (results u) = map fst (suite_checks key)
    /\ TestResult.status r1 <> SKIP
    /\ TestResult.status r2 <> SKIP
    /\ (TestResult.status r6 = SKIP <-> key = "")
    /\ TestResult.status r7 = SKIP
    /\ TestResult.status r8 = SKIP
    /\ TestResult.status r9 = SKIP
    /\ createdIssueKey u = ""
    /\ Forall (fun r => method r = GET /\ data r = None) (requests u)
    /\ length (requests u) <= 6.
Proof.
  intros (Hresults & Hcreated & Hreads & Hcount).
  unfold suite_checks in Hresults.
  repeat match goal with
         | H : Forall2 _ (_ :: _) ?rs |- _ =>
             let r := fresh "r" in
             let Hr := fresh "Hr" in
             inversion H as [|? r ? ? Hr ?]; subst; clear H
         | H : Forall2 _ [] ?rs |- _ => inversion H; subst; clear H
         end.
  match goal with
  | H : [?a; ?b; ?c; ?d; ?e; ?f; ?g; ?h; ?i] = results u |- _ =>
      exists a, b, c, d, e, f, g, h, i; rewrite <- H in *
  end.
  cbn [fst snd] in *.
  repeat match goal with H : _ /\ _ |- _ => destruct H end.
  repeat split; try assumption; try tauto.
  - cbn. congruence.
  - eapply Nat.le_trans; [exact Hcount|].
    cbn [filter]. unfold ran.
    repeat match goal with
           | H : TestResult.status ?r = SKIP |- _ => rewrite H; clear H
           end.
    repeat match goal with
           | |- context [TestResult.status ?r] => destruct (TestResult.status r)
           end;
      cbn; repeat constructor.
Qed.

Lemma count_status_FAIL_zero (rs : list TestResult.t) :
  count_status FAIL rs = 0 <-> forall r, In r rs -> TestResult.status r <> FAIL.
Proof.
  unfold count_status. induction rs as [|r rs IH]; cbn.
  - split; [intros _ r [] | reflexivity].
  - destruct (TestResult.status r) eqn:Hstatus; cbn; rewrite ?IH.
    + split.
      * intros H r' [<-|Hin]; [congruence | now apply H].
      * intros H r' Hin. apply H. now right.
    + split; [discriminate|]. intros H. exfalso. apply (H r); [now left | exact Hstatus].
    + split.
      * intros H r' [<-|Hin]; [congruence | now apply H].
      * intros H r' Hin. apply H. now right.
Qed.

Lemma count_status_PASS_first (r : TestResult.t) (rs : list TestResult.t) :
  TestResult.status r = PASS -> count_status PASS (r :: rs) <> 0.
Proof. intros H. unfold count_status. cbn. rewrite H. cbn. discriminate. Qed.

(** The exit code is 0 exactly when nothing failed, provided the first
    result is of a check that ran. *)
Lemma verdict_zero (r : TestResult.t) (rs : list TestResult.t) :
  TestResult.status r <> SKIP ->
  (verdict (r :: rs) = 0%Z
   <-> forall r', In r' (r :: rs) -> TestResult.status r' <> FAIL)
  /\ (verdict (r :: rs) = 0%Z \/ verdict (r :: rs) = 1%Z).
Proof.
  intros Hran. rewrite <- count_status_FAIL_zero. unfold verdict.
  destruct (count_status FAIL (r :: rs)) as [|failed] eqn:Hfailed.
  - assert (Hpass : TestResult.status r = PASS).
    { destruct (TestResult.status r) eqn:Hstatus; try congruence.
      unfold count_status in Hfailed. cbn in Hfailed. rewrite Hstatus in Hfailed.
      discriminate Hfailed. }
    pose proof (count_status_PASS_first r rs Hpass) as Hpassed.
    destruct (count_status PASS (r :: rs)); [congruence|].
    split; [split; reflexivity | now left].
  - split; [split; discriminate | now right].
Qed.

(** X18: the script never changes anything in Jira: in every run, whatever
    the environment, the remote and the clock, it issues at most six calls,
    each a [GET] without a body, creates no issue, and ends with exit code 0
    or 1; with a connection parameter missing or empty it ends with 1 having
    issued no call and recorded no result. *)
Theorem suite_only_reads (jira : Remote) (now : nat -> Z) (toISOString : Z -> string)
    (env : Env.t) :
  let run := main jira now toISOString env script_start in
  (exists code, fst run = Normal code /\ (code = 0%Z \/ code = 1%Z))
  /\ Forall (fun r => method r = GET /\ data r = None) (requests (snd run))
  /\ length (requests (snd run)) <= 6
  /\ createdIssueKey (snd run) = ""
  /\ (or_empty_string (Env.JIRA_BASE_URL env) = ""
      \/ or_empty_string (Env.JIRA_USERNAME env) = ""
      \/ or_empty_string (Env.JIRA_API_TOKEN env) = "" ->
      run = (Normal 1%Z, script_start)).
Proof.
  intros run.
  assert (Hunconfigured :
    or_empty_string (Env.JIRA_BASE_URL env) = ""
    \/ or_empty_string (Env.JIRA_USERNAME env) = ""
    \/ or_empty_string (Env.JIRA_API_TOKEN env) = "" ->
    run = (Normal 1%Z, script_start)).
  { subst run. unfold main.
    destruct (Env.JIRA_BASE_URL env) as [url|];
      destruct (Env.JIRA_USERNAME env) as [user|];
      destruct (Env.JIRA_API_TOKEN env) as [token|]; cbn; try reflexivity.
    intros [ -> | [ -> | -> ] ]; cbn; rewrite ?andb_false_r; reflexivity. }
  destruct (Env.JIRA_BASE_URL env) as [url|] eqn:Hurl;
    [destruct (String.eqb_spec url "") as [->|Hu] | ];
    [ | destruct (Env.JIRA_USERNAME env) as [user|] eqn:Huser;
        [destruct (String.eqb_spec user "") as [->|Hn] | ] | ];
    [ | | destruct (Env.JIRA_API_TOKEN env) as [token|] eqn:Htoken;
          [destruct (String.eqb_spec token "") as [->|Ht] | ] | | ].
  all: try (rewrite Hunconfigured by (cbn; tauto); cbn;
            repeat split; try constructor; eauto using Nat.le_0_l).
  destruct (main_logged jira now toISOString env url user token
              Hurl Huser Htoken Hu Hn Ht script_start)
    as (code & u & Hrun & Hlogged & Hcode).
  { repeat split; constructor. }
  destruct (logged_suite_checks _ _ Hlogged)
    as (r1 & r2 & r3 & r4 & r5 & r6 & r7 & r8 & r9 & Hresults & _ & Hran1 & _ & _
        & _ & _ & _ & Hcreated & Hreads & Hcount).
  subst run. rewrite Hrun. cbn [fst snd].
  split; [|split; [exact Hreads | split; [exact Hcount | split; [exact Hcreated |]]]];
    [|intros [H|[H|H]]; cbn in H; congruence].
  exists code. split; [reflexivity|].
  rewrite Hcode, Hresults. now apply verdict_zero.
Qed.

Lemma suite_only_reads_witness :
  main Sample.echo ticking epoch
    {| Env.JIRA_BASE_URL := Some "https://jira.example.com";
       Env.JIRA_USERNAME := Some "user";
       Env.JIRA_API_TOKEN := Some "";
       Env.TEST_PROJECT_KEY := Some "PROJ" |}
    script_start
  = (Normal 1%Z, script_start).
Proof.
  apply (suite_only_reads Sample.echo ticking epoch). right. right. reflexivity.
Defined.

(** X19: with the three connection parameters set and non-empty, a run records
    exactly nine results, named after the nine checks in order; the first two
    checks are never skipped, the sixth is skipped exactly when no project key
    is configured, the last three (create, update, add comment) are always
    skipped; and the exit code is 0 exactly when no recorded result is a
    failure, 1 otherwise. *)
Theorem suite_verdict (jira : Remote) (now : nat -> Z) (toISOString : Z -> string)
    (env : Env.t) (url user token : string) :
  Env.JIRA_BASE_URL env = Some url ->
  Env.JIRA_USERNAME env = Some user ->
  Env.JIRA_API_TOKEN env = Some token ->
  url <> "" -> user <> "" -> token <> "" ->
  exists code u r1 r2 r3 r4 r5 r6 r7 r8 r9,
    main jira now toISOString env script_start = (Normal code, u)
    /\ results u = [r1; r2; r3; r4; r5; r6; r7; r8; r9]
    /\ map TestResult.name (results u)
       = ["1. Basic Connectivity (Search)"; "2. Find Accessible Issue";
          "3. Get Issue Details"; "4. Get Available Transitions";
          "5. Get Issue Comments"; "6. Search Issues by Project";
          "7. Create Test Issue"; "8. Update Test Issue";
          "9. Add Comment to Test Issue"]
    /\ TestResult.status r1 <> SKIP
    /\ TestResult.status r2 <> SKIP
    /\ (TestResult.status r6 = SKIP
        <-> or_empty_string (Env.TEST_PROJECT_KEY env) = "")
    /\ TestResult.status r7 = SKIP
    /\ TestResult.status r8 = SKIP
    /\ TestResult.status r9 = SKIP
    /\ (code = 0%Z
        <-> forall r, In r (results u) -> TestResult.status r <> FAIL)
    /\ (code = 0%Z \/ code = 1%Z).
Proof.
  intros Hurl Huser Htoken Hu Hn Ht.
  destruct (main_logged jira now toISOString env url user token
              Hurl Huser Htoken Hu Hn Ht script_start)
    as (code & u & Hrun & Hlogged & Hcode).
  { repeat split; constructor. }
  destruct (logged_suite_checks _ _ Hlogged)
    as (r1 & r2 & r3 & r4 & r5 & r6 & r7 & r8 & r9 & Hresults & Hnames & Hran1
        & Hran2 & Hran6 & Hskip7 & Hskip8 & Hskip9 & _).
  exists code, u, r1, r2, r3, r4, r5, r6, r7, r8, r9.
  pose proof (verdict_zero r1 [r2; r3; r4; r5; r6; r7; r8; r9] Hran1) as [Hzero Hrange].
  rewrite <- Hresults, <- Hcode in Hzero, Hrange.
  repeat match goal with |- _ /\ _ => split end;
    first [assumption | exact Hnames].
Qed.

Lemma suite_verdict_witness :
  exists code u r1 r2 r3 r4 r5 r6 r7 r8 r9,
    main Sample.echo ticking epoch configured_env script_start = (Normal code, u)
    /\ results u = [r1; r2; r3; r4; r5; r6; r7; r8; r9]
    /\ map TestResult.name (results u)
       = ["1. Basic Connectivity (Search)"; "2. Find Accessible Issue";
          "3. Get Issue Details"; "4. Get Available Transitions";
          "5. Get Issue Comments"; "6. Search Issues by Project";
          "7. Create Test Issue"; "8. Update Test Issue";
          "9. Add Comment to Test Issue"]
    /\ TestResult.status r1 <> SKIP
    /\ TestResult.status r2 <> SKIP
    /\ (TestResult.status r6 = SKIP
        <-> or_empty_string (Env.TEST_PROJECT_KEY configured_env) = "")
    /\ TestResult.status r7 = SKIP
    /\ TestResult.status r8 = SKIP
    /\ TestResult.status r9 = SKIP
    /\ (code = 0%Z
        <-> forall r, In r (results u) -> TestResult.status r <> FAIL)
    /\ (code = 0%Z \/ code = 1%Z).
Proof.
  apply (suite_verdict Sample.echo ticking epoch configured_env
           "https://jira.example.com" "user" "token");
    first [reflexivity | discriminate].
Defined.

(** X20: when Jira rejects every search, the first two checks are recorded as
    failures carrying the message of the facade's error, the checks on an
    issue are skipped, the project search fails too when a project key is
    configured, and the exit code is 1; two or three calls were issued. *)
Theorem suite_when_search_is_rejected (jira : Remote) (now : nat -> Z)
    (toISOString : Z -> string) (env : Env.t) (url user token : string)
    (reason : Thrown) :
  Env.JIRA_BASE_URL env = Some url ->
  Env.JIRA_USERNAME env = Some user ->
  Env.JIRA_API_TOKEN env = Some token ->
  url <> "" -> user <> "" -> token <> "" ->
  (forall history req, jira _ SearchResultP history req = Rejected reason) ->
  let configured := truthy_string (or_empty_string (Env.TEST_PROJECT_KEY env)) in
  exists u,
    main jira now toISOString env script_start = (Normal 1%Z, u)
    /\ map TestResult.status (results u)
       = [FAIL; FAIL; SKIP; SKIP; SKIP; if configured then FAIL else SKIP;
          SKIP; SKIP; SKIP]
    /\ (forall r, In r (results u) -> TestResult.status r = FAIL ->
        TestResult.message r = error_message (thrown_for reason))
    /\ length (requests u) = if configured then 3 else 2.
Proof.
  intros Hurl Huser Htoken Hu Hn Ht Hrejected configured.
  apply truthy_string_nonempty in Hu, Hn, Ht.
  unfold main. rewrite Hurl, Huser, Htoken, Hu, Hn, Ht. cbn [andb]. cbv zeta.
  subst configured.
  destruct (truthy_string (or_empty_string (Env.TEST_PROJECT_KEY env))) eqn:Hkey;
    unfold runTest, test_basic_connectivity, test_find_accessible_issue,
      test_search_by_project, script_bind, script_try_catch, on_client, Date_now,
      logTest, set_accessibleIssueKey, set_createdIssueKey, get_accessibleIssueKey,
      get_createdIssueKey, get_results, script_ret, script_start, searchIssues;
    run_calls;
    repeat (progress (cbn [results accessibleIssueKey createdIssueKey requests
                            clock_reads negb issued jiraClient fst snd List.app];
                      change (truthy_string EmptyString) with false;
                      rewrite ?Hrejected, ?handleError_throws, ?Hkey));
    (eexists; split; [reflexivity|]; split; [reflexivity|]; split; [|reflexivity]);
    cbn [results]; intros r Hin Hfail;
    repeat (destruct Hin as [<-|Hin]; [first [reflexivity | discriminate Hfail]|]);
    destruct Hin.
Qed.

Lemma suite_when_search_is_rejected_witness :
  exists u,
    main Sample.network_down ticking epoch configured_env script_start
    = (Normal 1%Z, u)
    /\ map TestResult.status (results u)
       = [FAIL; FAIL; SKIP; SKIP; SKIP; SKIP; SKIP; SKIP; SKIP]
    /\ (forall r, In r (results u) -> TestResult.status r = FAIL ->
        TestResult.message r = "Jira API Error: Network Error")
    /\ length (requests u) = 2.
Proof.
  apply (suite_when_search_is_rejected Sample.network_down ticking epoch
           configured_env "https://jira.example.com" "user" "token"
           (AxiosError "Network Error" None));
    first [reflexivity | discriminate].
Defined.

(** X21: when the searches succeed and the first issue found has a non-empty
    key, the checks on an issue are not skipped and query that very issue:
    after the two searches the script asks for the issue, for its transitions
    and for its comments, in that order, then searches the project when a
    project key is configured. *)
Theorem suite_follows_found_issue (jira : Remote) (now : nat -> Z)
    (toISOString : Z -> string) (env : Env.t) (baseUrl user token : string)
    (page : JiraSearchResult.t) (issue : JiraIssue.t) (rest : list JiraIssue.t) :
  Env.JIRA_BASE_URL env = Some baseUrl ->
  Env.JIRA_USERNAME env = Some user ->
  Env.JIRA_API_TOKEN env = Some token ->
  baseUrl <> "" -> user <> "" -> token <> "" ->
  (forall history req, jira _ SearchResultP history req = Fulfilled page) ->
  JiraSearchResult.issues page = issue :: rest ->
  JiraIssue.key issue <> "" ->
  let configured := truthy_string (or_empty_string (Env.TEST_PROJECT_KEY env)) in
  let base := AxiosInstance.baseURL (JiraClient.client (new_JiraClient baseUrl user token)) in
  let key := JiraIssue.key issue in
  exists code u s3 s4 s5,
    main jira now toISOString env script_start = (Normal code, u)
    /\ map TestResult.status (results u)
       = [PASS; PASS; s3; s4; s5; if configured then PASS else SKIP;
          SKIP; SKIP; SKIP]
    /\ s3 <> SKIP /\ s4 <> SKIP /\ s5 <> SKIP
    /\ map url (requests u)
       = map (String.append base)
           (List.app
              ["/search/jql"; "/search/jql"; "/issue/" ++ key;
               "/issue/" ++ key ++ "/transitions"; "/issue/" ++ key ++ "/comment"]
              (if configured then ["/search/jql"] else [])).
Proof.
  intros Hurl Huser Htoken Hu Hn Ht Hfound Hissues Hissue configured base key.
  apply truthy_string_nonempty in Hu, Hn, Ht, Hissue.
  unfold main. rewrite Hurl, Huser, Htoken, Hu, Hn, Ht. cbn [andb]. cbv zeta.
  subst configured base key.
  destruct (truthy_string (or_empty_string (Env.TEST_PROJECT_KEY env))) eqn:Hkey;
    unfold runTest, test_basic_connectivity, test_find_accessible_issue,
      test_get_issue, test_get_transitions, test_get_comments,
      test_search_by_project, script_bind, script_try_catch, on_client, Date_now,
      logTest, set_accessibleIssueKey, set_createdIssueKey, get_accessibleIssueKey,
      get_createdIssueKey, get_results, script_ret, script_throw, script_start,
      searchIssues, getIssue, getTransitions, getComments;
    run_calls;
    repeat
      (repeat (progress (cbn [results accessibleIssueKey createdIssueKey requests
                               clock_reads negb issued jiraClient fst snd List.app];
                         change (truthy_string EmptyString) with false;
                         rewrite ?Hfound, ?Hissues, ?handleError_throws, ?Hkey,
                           ?Hissue));
       try settle;
       try match goal with
           | |- context [truthy_string (JiraIssue.key ?a)] =>
               destruct (truthy_string (JiraIssue.key a))
           end);
    (do 5 eexists; split; [reflexivity|]; split; [reflexivity|];
     repeat split; try discriminate).
Qed.

Lemma suite_follows_found_issue_witness :
  exists code u s3 s4 s5,
    main Sample.echo ticking epoch configured_env script_start = (Normal code, u)
    /\ map TestResult.status (results u)
       = [PASS; PASS; s3; s4; s5; SKIP; SKIP; SKIP; SKIP]
    /\ s3 <> SKIP /\ s4 <> SKIP /\ s5 <> SKIP
    /\ map url (requests u)
       = ["https://jira.example.com/rest/api/3/search/jql";
          "https://jira.example.com/rest/api/3/search/jql";
          "https://jira.example.com/rest/api/3/issue/PROJ-1";
          "https://jira.example.com/rest/api/3/issue/PROJ-1/transitions";
          "https://jira.example.com/rest/api/3/issue/PROJ-1/comment"].
Proof.
  refine (suite_follows_found_issue Sample.echo ticking epoch configured_env
            "https://jira.example.com" "user" "token" _
            (Sample.issue "PROJ-1" "First" "PROJ") [] _ _ _ _ _ _ _ _ _);
    first [reflexivity | discriminate].
Defined.

(** ** Arguments of any kind *)

(** X22: on a request whose arguments conform to the input schema of the tool
    it names, the dispatcher, which runs the handler on the raw arguments,
    has the outcome and issues the calls of the typed reading of the handler,
    whatever the engine. *)
Theorem conforming_calls_run_as_typed (jira : Remote) (engine : Engine.t)
    (request : CallToolParams) (run : M CallToolResult) (s : Process) :
  callTool jira request = Some run ->
  Untyped.callTool jira engine request s = run s.
Proof. apply callTool_typed. Qed.

Lemma conforming_calls_run_as_typed_witness :
  Untyped.callTool Sample.echo sample_engine
    {| name := "jira_create_issue";
       arguments :=
         JsObject [("projectKey", JsString "PROJ");
                   ("issueType", JsString "Task");
                   ("summary", JsString "Wanted");
                   ("assignee", JsString "bob");
                   ("labels", JsArray [JsString "backend"])] |}
    Sample.boot
  = try_catch (handleCreateIssue Sample.echo (Sample.create_args (Some "bob") None))
      on_error Sample.boot.
Proof.
  apply (conforming_calls_run_as_typed Sample.echo sample_engine). reflexivity.
Defined.

(** X23: a call of a registered tool without arguments ([arguments] absent or
    [null]) issues no call at all: the handler throws when it reads the first
    property of its arguments, and the dispatcher returns the error envelope
    with the message of that [TypeError], the process being left as it was. *)
Theorem no_arguments_no_call (jira : Remote) (engine : Engine.t)
    (request : CallToolParams) (s : Process) :
  registered (name request) = true ->
  arguments request = JsUndefined \/ arguments request = JsNull ->
  let property :=
    if name request =? "jira_search" then "jql"
    else if name request =? "jira_create_issue" then "projectKey"
    else if name request =? "jira_update_issue" then "fields"
    else if name request =? "jira_transition_issue" then "transitionId"
    else if name request =? "jira_add_comment" then "body"
    else "issueKey" in
  Untyped.callTool jira engine request s
  = (Normal
       {| content :=
            [{| type := "text";
                text :=
                  JSON_stringify
                    [("error", JsBool true);
                     ("message",
                      JsString
                        (Engine.message engine
                           (CannotReadProperty (arguments request) property)))] |}];
          isError := Some true |},
     s).
Proof.
  destruct request as [called args]. cbn [name arguments].
  intros Hname Hnone. apply existsb_exists in Hname.
  destruct Hname as (tool & Htool & Heq). apply String.eqb_eq in Heq. subst tool.
  cbn in Htool.
  repeat (destruct Htool as [<-|Htool];
          [destruct Hnone as [->| ->]; reflexivity|]).
  destruct Htool.
Qed.

Lemma no_arguments_no_call_witness :
  Untyped.callTool Sample.echo sample_engine
    {| name := "jira_update_issue"; arguments := JsUndefined |} Sample.boot
  = (Normal
       {| content :=
            [{| type := "text";
                text :=
                  JSON_stringify
                    [("error", JsBool true);
                     ("message",
                      JsString "Cannot read properties of undefined (reading 'fields')")] |}];
          isError := Some true |},
     Sample.boot).
Proof.
  apply (no_arguments_no_call Sample.echo sample_engine
           {| name := "jira_update_issue"; arguments := JsUndefined |} Sample.boot
           eq_refl (or_introl eq_refl)).
Defined.
